(** * The uWSGI RADOS plugin (plugins/rados/rados.c)

    A shallow embedding of the plugin: the asynchronous completion bridge
    (uwsgi_rados_set_completion, uwsgi_rados_async_cb,
    uwsgi_rados_wait_completion), the operation primitives (delete, put, stat,
    read, propfind), the mount registry and the WebDAV request dispatcher
    (uwsgi_rados_request).

    The C code runs against three collaborators that are no part of the plugin:
    the uWSGI core (request fields, response writer, body reader,
    wait_read_hook), librados (pools, I/O contexts, AIO completions) and the
    operating system (pipes).  They are modelled here as one explicit [world]
    that every function threads through, with a tape of answers for whatever is
    decided by the environment (failures, short reads, timeouts), and a trace of
    every call that leaves the plugin.

    Struct fields keep their C names behind a prefix naming the struct
    (urio_, urcb_, urmp_, ua_), since Rocq projections share one name space. *)

From Stdlib Require Import ZArith Lia.
From Stdlib.Strings Require Import Byte.
From stdpp Require Import base gmap strings list.

Local Open Scope string_scope.
Local Open Scope Z_scope.
Local Open Scope list_scope.

(** ** Constants of the C environment *)

(** limits.h on Linux *)
Definition PATH_MAX : Z := 4096.
(** errno.h *)
Definition ENOENT : Z := 2.
Definition EEXIST : Z := 17.
(** uwsgi.h *)
Definition UWSGI_OK : Z := 0.

(** #define UMIN(a,b) ((a)>(b)?(b):(a)) *)
Definition UMIN (a b : Z) : Z := if a >? b then b else a.

(** Arithmetic of uint64_t and size_t. *)
Definition u64 (z : Z) : Z := z mod 2 ^ 64.

(** ** Data model *)

(** rados_ioctx_t: an opaque handle on one pool of one cluster. *)
Record rados_ioctx_t := mk_ioctx {
  ioctx_id : Z;
  ioctx_pool : string
}.

(** struct uwsgi_rados_io: preallocated, one per async core. *)
Record uwsgi_rados_io := mk_urio {
  urio_fds : Z * Z;
  urio_rid : Z;
  urio_comp : Z
}.

(** struct uwsgi_rados_cb: allocated for each async transaction; [urcb_urio]
    is the pointer into urados.urio, kept as the index of the slot. *)
Record uwsgi_rados_cb := mk_urcb {
  urcb_rid : Z;
  urcb_urio : Z
}.

(** struct uwsgi_rados_mountpoint; a char* is an [option string] (NULL is
    [None]). *)
Record uwsgi_rados_mountpoint := mk_urmp {
  urmp_cluster : Z;
  urmp_mountpoint : option string;
  urmp_config : option string;
  urmp_pool : option string;
  urmp_str_timeout : option string;
  urmp_timeout : Z;
  urmp_allow_put : option string;
  urmp_allow_delete : option string;
  urmp_allow_mkcol : option string;
  urmp_allow_propfind : option string
}.

(** What ua->responder0 points to: the array of per-thread contexts or the one
    context itself (the C code stores either in the same void pointer). *)
Inductive ctx_ptr :=
  | CtxArray (ctxes : list rados_ioctx_t)
  | CtxOne (ctx : rados_ioctx_t).

(** struct uwsgi_app, the fields the plugin touches. *)
Record uwsgi_app := mk_app {
  ua_modifier1 : Z;
  ua_mountpoint : string;
  ua_responder0 : ctx_ptr;
  ua_responder1 : uwsgi_rados_mountpoint;
  ua_started_at : Z;
  ua_startup_time : Z
}.

(** struct wsgi_request, the fields the plugin reads.  [vars_ok] is the result
    of uwsgi_parse_vars, [http_depth] the HTTP_DEPTH variable. *)
Record wsgi_request := mk_req {
  len : Z;
  vars_ok : bool;
  path_info : string;
  method : string;
  post_cl : Z;
  if_modified_since : string;
  appid : string;
  async_id : Z;
  http_depth : option string
}.

(** The global [uwsgi] and the host functions whose code is not in the plugin:
    they are parameters of the model. *)
Record uwsgi_server := mk_uwsgi {
  uwsgi_async : Z;
  uwsgi_threads : Z;
  uwsgi_socket_timeout : Z;
  uwsgi_no_default_app : bool;
  uwsgi_default_app : Z;
  uwsgi_apps : list uwsgi_app;
  uwsgi_get_app_id : wsgi_request -> Z;
  uwsgi_get_mime_type : string -> option string;
  uwsgi_parse_http_date : string -> Z;
  uwsgi_str_num : string -> Z;
  uwsgi_kvlist_parse : string -> option uwsgi_rados_mountpoint;
  atoi : string -> Z
}.

(** static struct uwsgi_rados urados *)
Record uwsgi_rados := mk_urados {
  urados_timeout : Z;
  urados_mountpoints : list string;
  urados_urio : list uwsgi_rados_io
}.

(** An object of a pool. *)
Record object := mk_object {
  o_data : list byte;
  o_mtime : Z
}.

(** An operation handed to librados through one of the rados_aio_ calls. *)
Inductive aio_op :=
  | AioStat (ctx : rados_ioctx_t) (key : string)
  | AioRemove (ctx : rados_ioctx_t) (key : string)
  | AioWriteFull (ctx : rados_ioctx_t) (key : string) (buf : list byte)
  | AioRead (ctx : rados_ioctx_t) (key : string) (n off : Z).

(** rados_completion_t as librados keeps it: the callback argument, the
    operation bound to it, and once the operation is safe its return value and
    the outputs (size and mtime of a stat, the bytes of a read). *)
Record completion := mk_completion {
  c_arg : Z;
  c_op : option aio_op;
  c_ret : option Z;
  c_out : Z * Z;
  c_buf : list byte
}.

(** An open file descriptor: the read end of a pipe with the number of bytes
    waiting in it, or the write end with the descriptor of its read end. *)
Inductive fd_entry :=
  | PipeRead (buffered : nat)
  | PipeWrite (read_end : Z).

(** One entry of a WebDAV multistatus buffer (built by the webdav helpers of
    the core). *)
Inductive xml_item :=
  | MsOpen
  | MsItem (href : string) (size mtime : Z) (mime : option string)
  | MsClose.

(** Calls into librados. *)
Inductive rados_call :=
  | RCreate
  | RConfReadFile (config : option string)
  | RConfSet (k : string) (timeout : Z)
  | RConnect
  | RIoctxCreate (cluster : Z) (pool : string)
  | RShutdown (cluster : Z)
  | RClusterFsid
  | RStat (ctx : rados_ioctx_t) (key : string)
  | RRemove (ctx : rados_ioctx_t) (key : string)
  | RWriteFull (ctx : rados_ioctx_t) (key : string) (buf : list byte)
  | RRead (ctx : rados_ioctx_t) (key : string) (n off : Z)
  | RPoolCreate (cluster : Z) (name : string)
  | RListOpen (ctx : rados_ioctx_t)
  | RListNext
  | RListClose
  | RAioCreateCompletion (urcb : Z) (slot : Z)
  | RAioStat (ctx : rados_ioctx_t) (key : string) (comp : Z)
  | RAioRemove (ctx : rados_ioctx_t) (key : string) (comp : Z)
  | RAioWriteFull (ctx : rados_ioctx_t) (key : string) (comp : Z) (buf : list byte)
  | RAioRead (ctx : rados_ioctx_t) (key : string) (comp : Z) (n off : Z)
  | RAioIsSafeAndCb (comp : Z)
  | RAioGetReturnValue (comp : Z)
  | RAioRelease (comp : Z).

(** Calls into the response writer of the core. *)
Inductive resp_call :=
  | RespError (status : Z)
  | RespPrepareHeaders (status : string)
  | RespAddHeader (k v : string)
  | RespAddContentType (mime : string)
  | RespAddLastModified (mtime : Z)
  | RespAddContentLength (size : Z)
  | RespWriteHeaders
  | RespWriteBody (buf : list byte)
  | RespWriteXml (items : list xml_item).

(** Everything that leaves the plugin, in the order it happens. *)
Inductive event :=
  | EvLog (msg : string)
  | EvLock (slot : Z)
  | EvUnlock (slot : Z)
  | EvMalloc (p : Z)
  | EvFree (p : Z)
  | EvPipe (r w : Z)
  | EvClose (fd : Z)
  | EvWrite (fd : Z)
  | EvRead (fd : Z)
  | EvWaitRead (fd : Z) (timeout : Z)
  | EvBodyRead (hint : Z)
  | EvRados (c : rados_call)
  | EvResp (c : resp_call).

(** The state every function threads through. *)
Record world := mk_world {
  w_uwsgi : uwsgi_server;
  w_urados : uwsgi_rados;
  w_heap : gmap Z uwsgi_rados_cb;
  w_fdtab : gmap Z fd_entry;
  w_pools : gmap string (gmap string object);
  w_comps : gmap Z completion;
  w_inflight : list Z;
  w_next : Z;
  w_now : Z;
  w_body : list byte;
  w_trace : list event;
  w_tape : list (option Z)
}.

(** Field updates of [world] and of the structs. *)
Definition set_uwsgi (f : uwsgi_server -> uwsgi_server) (w : world) : world :=
  mk_world (f (w_uwsgi w)) (w_urados w) (w_heap w) (w_fdtab w) (w_pools w) (w_comps w)
    (w_inflight w) (w_next w) (w_now w) (w_body w) (w_trace w) (w_tape w).
Definition set_urados (f : uwsgi_rados -> uwsgi_rados) (w : world) : world :=
  mk_world (w_uwsgi w) (f (w_urados w)) (w_heap w) (w_fdtab w) (w_pools w) (w_comps w)
    (w_inflight w) (w_next w) (w_now w) (w_body w) (w_trace w) (w_tape w).
Definition set_heap (f : gmap Z uwsgi_rados_cb -> gmap Z uwsgi_rados_cb) (w : world) : world :=
  mk_world (w_uwsgi w) (w_urados w) (f (w_heap w)) (w_fdtab w) (w_pools w) (w_comps w)
    (w_inflight w) (w_next w) (w_now w) (w_body w) (w_trace w) (w_tape w).
Definition set_fdtab (f : gmap Z fd_entry -> gmap Z fd_entry) (w : world) : world :=
  mk_world (w_uwsgi w) (w_urados w) (w_heap w) (f (w_fdtab w)) (w_pools w) (w_comps w)
    (w_inflight w) (w_next w) (w_now w) (w_body w) (w_trace w) (w_tape w).
Definition set_pools
    (f : gmap string (gmap string object) -> gmap string (gmap string object))
    (w : world) : world :=
  mk_world (w_uwsgi w) (w_urados w) (w_heap w) (w_fdtab w) (f (w_pools w)) (w_comps w)
    (w_inflight w) (w_next w) (w_now w) (w_body w) (w_trace w) (w_tape w).
Definition set_comps (f : gmap Z completion -> gmap Z completion) (w : world) : world :=
  mk_world (w_uwsgi w) (w_urados w) (w_heap w) (w_fdtab w) (w_pools w) (f (w_comps w))
    (w_inflight w) (w_next w) (w_now w) (w_body w) (w_trace w) (w_tape w).
Definition set_inflight (f : list Z -> list Z) (w : world) : world :=
  mk_world (w_uwsgi w) (w_urados w) (w_heap w) (w_fdtab w) (w_pools w) (w_comps w)
    (f (w_inflight w)) (w_next w) (w_now w) (w_body w) (w_trace w) (w_tape w).
Definition set_next (f : Z -> Z) (w : world) : world :=
  mk_world (w_uwsgi w) (w_urados w) (w_heap w) (w_fdtab w) (w_pools w) (w_comps w)
    (w_inflight w) (f (w_next w)) (w_now w) (w_body w) (w_trace w) (w_tape w).
Definition set_body (f : list byte -> list byte) (w : world) : world :=
  mk_world (w_uwsgi w) (w_urados w) (w_heap w) (w_fdtab w) (w_pools w) (w_comps w)
    (w_inflight w) (w_next w) (w_now w) (f (w_body w)) (w_trace w) (w_tape w).
Definition set_trace (f : list event -> list event) (w : world) : world :=
  mk_world (w_uwsgi w) (w_urados w) (w_heap w) (w_fdtab w) (w_pools w) (w_comps w)
    (w_inflight w) (w_next w) (w_now w) (w_body w) (f (w_trace w)) (w_tape w).
Definition set_tape (f : list (option Z) -> list (option Z)) (w : world) : world :=
  mk_world (w_uwsgi w) (w_urados w) (w_heap w) (w_fdtab w) (w_pools w) (w_comps w)
    (w_inflight w) (w_next w) (w_now w) (w_body w) (w_trace w) (f (w_tape w)).

Definition set_urio (f : list uwsgi_rados_io -> list uwsgi_rados_io) (u : uwsgi_rados)
    : uwsgi_rados :=
  mk_urados (urados_timeout u) (urados_mountpoints u) (f (urados_urio u)).
Definition set_urados_timeout (t : Z) (u : uwsgi_rados) : uwsgi_rados :=
  mk_urados t (urados_mountpoints u) (urados_urio u).
Definition set_apps (f : list uwsgi_app -> list uwsgi_app) (u : uwsgi_server)
    : uwsgi_server :=
  mk_uwsgi (uwsgi_async u) (uwsgi_threads u) (uwsgi_socket_timeout u)
    (uwsgi_no_default_app u) (uwsgi_default_app u) (f (uwsgi_apps u))
    (uwsgi_get_app_id u) (uwsgi_get_mime_type u) (uwsgi_parse_http_date u)
    (uwsgi_str_num u) (uwsgi_kvlist_parse u) (atoi u).

(** ** The monad: state passing, with the ways a C program stops early *)

(** Undefined behaviour the model stops at, and the bound of a loop. *)
Inductive fault :=
  | NullDeref
  | BadPointer
  | OutOfBounds
  | BadHandle
  | DataRace
  | OutOfFuel.

Inductive outcome (A : Type) :=
  | Ret (a : A)
  | Abort (f : fault)
  | Exit (code : Z).
Arguments Ret {A} a.
Arguments Abort {A} f.
Arguments Exit {A} code.

Definition M (A : Type) : Type := world -> outcome A * world.

Definition ret {A} (a : A) : M A := fun w => (Ret a, w).

Definition bind {A B} (m : M A) (k : A -> M B) : M B :=
  fun w =>
    match m w with
    | (Ret a, w') => k a w'
    | (Abort f, w') => (Abort f, w')
    | (Exit c, w') => (Exit c, w')
    end.

Declare Scope m_scope.
Delimit Scope m_scope with m.
Notation "x <- m ;; k" := (bind m (fun x => k))
  (at level 100, m at next level, right associativity) : m_scope.
Notation "m ;; k" := (bind m (fun _ => k))
  (at level 100, right associativity) : m_scope.
Local Open Scope m_scope.

Definition abort {A} (f : fault) : M A := fun w => (Abort f, w).
Definition exit {A} (code : Z) : M A := fun w => (Exit code, w).
Definition gets {A} (f : world -> A) : M A := fun w => (Ret (f w), w).
Definition modify (f : world -> world) : M unit := fun w => (Ret tt, f w).

(** One more event on the trace. *)
Definition emit (e : event) : M unit := modify (set_trace (fun t => t ++ [e])).

(** The next answer of the environment; an exhausted tape answers [None],
    which every call reads as "nothing special happens". *)
Definition ask : M (option Z) :=
  fun w => (Ret (hd None (w_tape w)), set_tape (fun t => tl t) w).

(** An answer that makes a call fail with an error code. *)
Definition forced_error (o : option Z) : option Z :=
  match o with
  | Some e => if e <? 0 then Some e else None
  | None => None
  end.

(** A fresh identifier (address, descriptor or handle). *)
Definition fresh : M Z :=
  fun w => (Ret (w_next w), set_next (fun n => n + 1) w).

(** An array element by an int index. *)
Definition at_index {A} (l : list A) (i : Z) : option A :=
  if i <? 0 then None else l !! Z.to_nat i.

(** ** The C library and the operating system *)

Definition uwsgi_log (fmt : string) : M unit := emit (EvLog fmt).
Definition uwsgi_error (what : string) : M unit := emit (EvLog what).

Definition pthread_mutex_lock (slot : Z) : M unit := emit (EvLock slot).
Definition pthread_mutex_unlock (slot : Z) : M unit := emit (EvUnlock slot).

(** urados.urio[i], read and written. *)
Definition load_urio (i : Z) : M uwsgi_rados_io :=
  l <- gets (fun w => urados_urio (w_urados w)) ;;
  match at_index l i with
  | Some urio => ret urio
  | None => abort OutOfBounds
  end.

Definition store_urio (i : Z) (urio : uwsgi_rados_io) : M unit :=
  modify (set_urados (set_urio (fun l => <[Z.to_nat i := urio]> l))).

(** Whether the mutex of the slot [i] is held: the last pthread_mutex_lock or
    pthread_mutex_unlock of it is a lock. *)
Definition mutex_held (i : Z) (w : world) : bool :=
  fold_left
    (fun held e =>
       match e with
       | EvLock slot => if slot =? i then true else held
       | EvUnlock slot => if slot =? i then false else held
       | _ => held
       end)
    (w_trace w) false.

(** A write to urados.urio[i].rid.  The field is shared with the callback,
    which librados runs on a thread of its own and which reads it under the
    mutex of the slot: a write that does not hold that mutex is a data race,
    undefined behaviour in C. *)
Definition store_rid (i : Z) (rid : Z) : M unit :=
  held <- gets (mutex_held i) ;;
  if held : bool then
    urio <- load_urio i ;;
    store_urio i (mk_urio (urio_fds urio) rid (urio_comp urio))
  else abort DataRace.

(** uwsgi_malloc(sizeof(struct uwsgi_rados_cb)); it never returns NULL. *)
Definition uwsgi_malloc : M Z :=
  p <- fresh ;;
  modify (set_heap (fun h => <[p := mk_urcb 0 0]> h)) ;;
  emit (EvMalloc p) ;;
  ret p.

Definition free (p : Z) : M unit :=
  modify (set_heap (fun h => delete p h)) ;;
  emit (EvFree p).

(** Reading through a struct uwsgi_rados_cb pointer. *)
Definition load_urcb (p : option Z) : M uwsgi_rados_cb :=
  match p with
  | None => abort NullDeref
  | Some a =>
      h <- gets w_heap ;;
      match h !! a with
      | Some urcb => ret urcb
      | None => abort BadPointer
      end
  end.

Definition store_urcb (p : Z) (urcb : uwsgi_rados_cb) : M unit :=
  modify (set_heap (fun h => <[p := urcb]> h)).

(** pipe(urio->fds) on the slot [slot]. *)
Definition pipe (slot : Z) : M Z :=
  o <- ask ;;
  match forced_error o with
  | Some e => ret e
  | None =>
      urio <- load_urio slot ;;
      r <- fresh ;;
      w <- fresh ;;
      modify (set_fdtab (fun t => <[w := PipeWrite r]> (<[r := PipeRead 0]> t))) ;;
      store_urio slot (mk_urio (r, w) (urio_rid urio) (urio_comp urio)) ;;
      emit (EvPipe r w) ;;
      ret 0
  end.

Definition close (fd : Z) : M unit :=
  emit (EvClose fd) ;;
  modify (set_fdtab (fun t => delete fd t)).

(** write(fd, "\1", 1) *)
Definition write (fd : Z) : M Z :=
  emit (EvWrite fd) ;;
  o <- ask ;;
  match forced_error o with
  | Some e => ret e
  | None =>
      t <- gets w_fdtab ;;
      match t !! fd with
      | Some (PipeWrite r) =>
          match t !! r with
          | Some (PipeRead n) =>
              modify (set_fdtab (fun t => <[r := PipeRead (S n)]> t)) ;; ret 1
          | _ => ret (-1)
          end
      | _ => ret (-1)
      end
  end.

(** read(fd, &ack, 1) *)
Definition read (fd : Z) : M Z :=
  emit (EvRead fd) ;;
  o <- ask ;;
  match forced_error o with
  | Some e => ret e
  | None =>
      t <- gets w_fdtab ;;
      match t !! fd with
      | Some (PipeRead (S n)) =>
          modify (set_fdtab (fun t => <[fd := PipeRead n]> t)) ;; ret 1
      | _ => ret (-1)
      end
  end.

(** ** librados: the object store *)

Definition lookup_object (w : world) (ctx : rados_ioctx_t) (key : string)
    : option object :=
  match w_pools w !! ioctx_pool ctx with
  | Some objs => objs !! key
  | None => None
  end.

(** What a stat does to the store: size and mtime of the object, -ENOENT when
    there is none, or the error the environment forces. *)
Definition store_stat (ctx : rados_ioctx_t) (key : string) : M (Z * (Z * Z)) :=
  o <- ask ;;
  match forced_error o with
  | Some e => ret (e, (0, 0))
  | None =>
      ob <- gets (fun w => lookup_object w ctx key) ;;
      match ob with
      | Some ob => ret (0, (Z.of_nat (length (o_data ob)), o_mtime ob))
      | None => ret (- ENOENT, (0, 0))
      end
  end.

Definition store_remove (ctx : rados_ioctx_t) (key : string) : M Z :=
  o <- ask ;;
  match forced_error o with
  | Some e => ret e
  | None =>
      ob <- gets (fun w => lookup_object w ctx key) ;;
      match ob with
      | Some _ =>
          modify (set_pools (fun ps =>
            match ps !! ioctx_pool ctx with
            | Some objs => <[ioctx_pool ctx := delete key objs]> ps
            | None => ps
            end)) ;;
          ret 0
      | None => ret (- ENOENT)
      end
  end.

(** rados_write_full takes no offset: the object is replaced as a whole by
    the buffer. *)
Definition store_write_full (ctx : rados_ioctx_t) (key : string) (buf : list byte)
    : M Z :=
  o <- ask ;;
  match forced_error o with
  | Some e => ret e
  | None =>
      ps <- gets w_pools ;;
      now <- gets w_now ;;
      match ps !! ioctx_pool ctx with
      | Some objs =>
          modify (set_pools (fun ps =>
            <[ioctx_pool ctx := <[key := mk_object buf now]> objs]> ps)) ;;
          ret 0
      | None => ret (- ENOENT)
      end
  end.

(** A read of at most [n] bytes at offset [off]; a positive answer of the
    environment shortens the read. *)
Definition store_read (ctx : rados_ioctx_t) (key : string) (n off : Z)
    : M (Z * list byte) :=
  o <- ask ;;
  match forced_error o with
  | Some e => ret (e, [])
  | None =>
      ob <- gets (fun w => lookup_object w ctx key) ;;
      match ob with
      | Some ob =>
          let n' := match o with Some v => Z.min v n | None => n end in
          let buf := take (Z.to_nat n') (drop (Z.to_nat off) (o_data ob)) in
          ret (Z.of_nat (length buf), buf)
      | None => ret (- ENOENT, [])
      end
  end.

Definition rados_stat (ctx : rados_ioctx_t) (key : string) : M (Z * (Z * Z)) :=
  emit (EvRados (RStat ctx key)) ;;
  store_stat ctx key.

Definition rados_remove (ctx : rados_ioctx_t) (key : string) : M Z :=
  emit (EvRados (RRemove ctx key)) ;;
  store_remove ctx key.

Definition rados_write_full (ctx : rados_ioctx_t) (key : string) (buf : list byte)
    (n : Z) : M Z :=
  emit (EvRados (RWriteFull ctx key (take (Z.to_nat n) buf))) ;;
  store_write_full ctx key (take (Z.to_nat n) buf).

Definition rados_read (ctx : rados_ioctx_t) (key : string) (n off : Z)
    : M (Z * list byte) :=
  emit (EvRados (RRead ctx key n off)) ;;
  store_read ctx key n off.

Definition rados_pool_create (cluster : Z) (name : string) : M Z :=
  emit (EvRados (RPoolCreate cluster name)) ;;
  o <- ask ;;
  match forced_error o with
  | Some e => ret e
  | None =>
      ps <- gets w_pools ;;
      match ps !! name with
      | Some _ => ret (- EEXIST)
      | None => modify (set_pools (fun ps => <[name := ∅]> ps)) ;; ret 0
      end
  end.

(** rados_objects_list_open: the cursor is the list of the names in the pool. *)
Definition rados_objects_list_open (ctx : rados_ioctx_t) : M (Z * list string) :=
  emit (EvRados (RListOpen ctx)) ;;
  o <- ask ;;
  match forced_error o with
  | Some e => ret (e, [])
  | None =>
      ps <- gets w_pools ;;
      match ps !! ioctx_pool ctx with
      | Some objs => ret (0, (map_to_list objs).*1)
      | None => ret (- ENOENT, [])
      end
  end.

(** rados_objects_list_next: 0 and the next name, or -ENOENT at the end. *)
Definition rados_objects_list_next (cursor : list string)
    : M (Z * option string * list string) :=
  emit (EvRados RListNext) ;;
  o <- ask ;;
  match forced_error o with
  | Some e => ret (e, None, cursor)
  | None =>
      match cursor with
      | entry :: rest => ret (0, Some entry, rest)
      | [] => ret (- ENOENT, None, [])
      end
  end.

Definition rados_objects_list_close : M unit := emit (EvRados RListClose).

(** *** Asynchronous operations *)

Definition load_completion (comp : Z) : M completion :=
  cs <- gets w_comps ;;
  match cs !! comp with
  | Some c => ret c
  | None => abort BadHandle
  end.

(** rados_aio_create_completion(urcb, NULL, uwsgi_rados_async_cb, &urio->comp):
    on success the new handle is stored in the slot. *)
Definition rados_aio_create_completion (urcb : Z) (slot : Z) : M Z :=
  emit (EvRados (RAioCreateCompletion urcb slot)) ;;
  o <- ask ;;
  match forced_error o with
  | Some e => ret e
  | None =>
      h <- fresh ;;
      modify (set_comps (fun cs => <[h := mk_completion urcb None None (0, 0) []]> cs)) ;;
      urio <- load_urio slot ;;
      store_urio slot (mk_urio (urio_fds urio) (urio_rid urio) h) ;;
      ret 0
  end.

(** Handing an operation to librados: it is bound to the completion and is in
    flight until librados delivers it. *)
Definition aio_submit (call : rados_call) (op : aio_op) (comp : Z) : M Z :=
  emit (EvRados call) ;;
  o <- ask ;;
  match forced_error o with
  | Some e => ret e
  | None =>
      c <- load_completion comp ;;
      modify (set_comps (fun cs =>
        <[comp := mk_completion (c_arg c) (Some op) (c_ret c) (c_out c) (c_buf c)]> cs)) ;;
      modify (set_inflight (fun l => l ++ [comp])) ;;
      ret 0
  end.

Definition rados_aio_stat (ctx : rados_ioctx_t) (key : string) (comp : Z) : M Z :=
  aio_submit (RAioStat ctx key comp) (AioStat ctx key) comp.

Definition rados_aio_remove (ctx : rados_ioctx_t) (key : string) (comp : Z) : M Z :=
  aio_submit (RAioRemove ctx key comp) (AioRemove ctx key) comp.

Definition rados_aio_write_full (ctx : rados_ioctx_t) (key : string) (comp : Z)
    (buf : list byte) (n : Z) : M Z :=
  aio_submit (RAioWriteFull ctx key comp (take (Z.to_nat n) buf))
    (AioWriteFull ctx key (take (Z.to_nat n) buf)) comp.

Definition rados_aio_read (ctx : rados_ioctx_t) (key : string) (comp : Z) (n off : Z)
    : M Z :=
  aio_submit (RAioRead ctx key comp n off) (AioRead ctx key n off) comp.

Definition rados_aio_is_safe_and_cb (comp : Z) : M bool :=
  emit (EvRados (RAioIsSafeAndCb comp)) ;;
  c <- load_completion comp ;;
  ret (match c_ret c with Some _ => true | None => false end).

Definition rados_aio_get_return_value (comp : Z) : M Z :=
  emit (EvRados (RAioGetReturnValue comp)) ;;
  c <- load_completion comp ;;
  ret (match c_ret c with Some r => r | None => 0 end).

(** The handle is given back; an operation in flight still runs to its end and
    its callback is still called. *)
Definition rados_aio_release (comp : Z) : M unit :=
  emit (EvRados (RAioRelease comp)).

(** ** The completion bridge (rados.c, lines 59-128) *)

(** callback used to asynchronously signal the completion *)
Definition uwsgi_rados_async_cb (comp : Z) (data : Z) : M unit :=
  urcb <- load_urcb (Some data) ;;
  let urio := urcb_urio urcb in
  pthread_mutex_lock urio ;;
  slot <- load_urio urio ;;
  (if negb (urcb_rid urcb =? urio_rid slot) then
     uwsgi_log "[uwsgi-rados] callback %llu woke up too late"
   else
     (* signal the core *)
     n <- write (snd (urio_fds slot)) ;;
     if n <=? 0 then uwsgi_error "uwsgi_rados_async_cb()/write()" else ret tt) ;;
  pthread_mutex_unlock urio ;;
  free data.

(** *** librados finishing an operation *)

(** The effect of an operation on the store: return value, stat outputs, bytes
    read. *)
Definition run_op (op : aio_op) : M (Z * (Z * Z) * list byte) :=
  match op with
  | AioStat ctx key => r <- store_stat ctx key ;; ret (fst r, snd r, [])
  | AioRemove ctx key => r <- store_remove ctx key ;; ret (r, (0, 0), [])
  | AioWriteFull ctx key buf => r <- store_write_full ctx key buf ;; ret (r, (0, 0), [])
  | AioRead ctx key n off => r <- store_read ctx key n off ;; ret (fst r, (0, 0), snd r)
  end.

(** librados completes the operation bound to [comp], records its result and
    calls the callback the completion was created with. *)
Definition deliver (comp : Z) : M unit :=
  cs <- gets w_comps ;;
  match cs !! comp with
  | Some c =>
      match c_op c with
      | Some op =>
          r <- run_op op ;;
          modify (set_comps (fun cs =>
            <[comp := mk_completion (c_arg c) None (Some (fst (fst r))) (snd (fst r)) (snd r)]> cs)) ;;
          modify (set_inflight (List.filter (fun h => negb (h =? comp)))) ;;
          uwsgi_rados_async_cb comp (c_arg c)
      | None => ret tt
      end
  | None => ret tt
  end.

Fixpoint deliver_list (l : list Z) : M unit :=
  match l with
  | [] => ret tt
  | comp :: l' => deliver comp ;; deliver_list l'
  end.

(** ** The uWSGI core *)

(** uwsgi.wait_read_hook(fd, timeout): the core suspends the request; meanwhile
    librados delivers what is in flight, unless the environment answers with a
    timeout (0) or an error (negative).  The result is 1 when the descriptor
    has a byte to read. *)
Definition wait_read_hook (fd : Z) (timeout : Z) : M Z :=
  emit (EvWaitRead fd timeout) ;;
  o <- ask ;;
  match o with
  | Some (Z0 as v) | Some (Zneg _ as v) => ret v
  | _ =>
      l <- gets w_inflight ;;
      deliver_list l ;;
      t <- gets w_fdtab ;;
      ret (match t !! fd with Some (PipeRead (S _)) => 1 | _ => 0 end)
  end.

(** Modelled from the spec: uwsgi_strncmp of the core, used for the "method
    dispatch (case-sensitive exact match)"; 0 when the two strings are equal. *)
Definition uwsgi_strncmp (a b : string) : Z :=
  if String.eqb a b then 0 else 1.

(** The response writer: every call is recorded; it fails when the environment
    says so. *)
Definition response_call (c : resp_call) : M Z :=
  emit (EvResp c) ;;
  o <- ask ;;
  ret (match forced_error o with Some e => e | None => 0 end).

Definition uwsgi_response_prepare_headers (status : string) : M Z :=
  response_call (RespPrepareHeaders status).
Definition uwsgi_response_add_header (k v : string) : M Z :=
  response_call (RespAddHeader k v).
Definition uwsgi_response_add_content_type (mime : string) : M Z :=
  response_call (RespAddContentType mime).
Definition uwsgi_response_add_last_modified (mtime : Z) : M Z :=
  response_call (RespAddLastModified mtime).
Definition uwsgi_response_add_content_length (size : Z) : M Z :=
  response_call (RespAddContentLength size).
Definition uwsgi_response_write_headers_do : M Z :=
  response_call RespWriteHeaders.
Definition uwsgi_response_write_body_do (buf : list byte) : M Z :=
  response_call (RespWriteBody buf).
Definition uwsgi_response_write_xml_do (ub : list xml_item) : M Z :=
  response_call (RespWriteXml ub).

(** uwsgi_403, uwsgi_404, uwsgi_405, uwsgi_500: a whole error response. *)
Definition uwsgi_403 : M unit := emit (EvResp (RespError 403)).
Definition uwsgi_404 : M unit := emit (EvResp (RespError 404)).
Definition uwsgi_405 : M unit := emit (EvResp (RespError 405)).
Definition uwsgi_500 : M unit := emit (EvResp (RespError 500)).

(** uwsgi_buffer_append on a buffer held as a string. *)
Definition uwsgi_buffer_append (ub : string) (s : string) : M (Z * string) :=
  o <- ask ;;
  match forced_error o with
  | Some e => ret (e, ub)
  | None => ret (0, ub +:+ s)
  end.

(** The multistatus helpers of the webdav support. *)
Definition uwsgi_webdav_multistatus_new : M (option (list xml_item)) :=
  o <- ask ;;
  match forced_error o with
  | Some _ => ret None
  | None => ret (Some [MsOpen])
  end.

Definition uwsgi_webdav_propfind_item_add (ub : list xml_item) (href : string)
    (size mtime : Z) (mime : option string) : M (Z * list xml_item) :=
  o <- ask ;;
  match forced_error o with
  | Some e => ret (e, ub)
  | None => ret (0, ub ++ [MsItem href size mtime mime])
  end.

Definition uwsgi_webdav_multistatus_close (ub : list xml_item) : M (Z * list xml_item) :=
  o <- ask ;;
  match forced_error o with
  | Some e => ret (e, ub)
  | None => ret (0, ub ++ [MsClose])
  end.

(** What uwsgi_request_body_read returns: NULL, uwsgi.empty, or a chunk. *)
Inductive body_chunk :=
  | BodyNull
  | BodyEmpty
  | BodyData (chunk : list byte).

(** uwsgi_request_body_read(wsgi_req, hint, &len): at most [hint] bytes of what
    is left of the body (all of it for a hint of 0); NULL on an error or a
    timeout, uwsgi.empty when nothing is left.  A positive answer of the
    environment shortens the chunk. *)
Definition uwsgi_request_body_read (hint : Z) : M body_chunk :=
  emit (EvBodyRead hint) ;;
  o <- ask ;;
  match forced_error o with
  | Some _ => ret BodyNull
  | None =>
      body <- gets w_body ;;
      match body with
      | [] => ret BodyEmpty
      | _ =>
          let want := if hint <=? 0 then Z.of_nat (length body) else hint in
          let n := match o with
                   | Some (Zpos _ as v) => Z.min v want
                   | _ => want
                   end in
          modify (set_body (drop (Z.to_nat n))) ;;
          ret (BodyData (take (Z.to_nat n) body))
      end
  end.

(** ** The completion bridge, continued *)

(** increase request counter (lines 82-84): urio->rid++ between the lock and the
    unlock of the mutex of the slot *)
Definition uwsgi_rados_set_completion_rid (async_id : Z) : M unit :=
  pthread_mutex_lock async_id ;;
  urio <- load_urio async_id ;;
  store_rid async_id (u64 (urio_rid urio + 1)) ;;
  pthread_mutex_unlock async_id.

Definition uwsgi_rados_set_completion (async_id : Z) : M (option Z) :=
  (* struct uwsgi_rados_io *urio = &urados.urio[async_id]; *)
  uwsgi_rados_set_completion_rid async_id ;;
  urcb <- uwsgi_malloc ;;
  (* map the current request id to the callback, map urio to the callback *)
  urio <- load_urio async_id ;;
  store_urcb urcb (mk_urcb (urio_rid urio) async_id) ;;
  (* we use the safe cb here *)
  r <- rados_aio_create_completion urcb async_id ;;
  if r <? 0 then
    free urcb ;;
    ret None
  else ret (Some urcb).

(** urcb->urio->comp *)
Definition urcb_urio_comp (urcb : option Z) : M Z :=
  cb <- load_urcb urcb ;;
  urio <- load_urio (urcb_urio cb) ;;
  ret (urio_comp urio).

Definition uwsgi_rados_wait_completion (r : Z) (urcb : option Z) (timeout : Z) : M Z :=
  cb <- load_urcb urcb ;;
  let urio := urcb_urio cb in
  if r <? 0 then
    slot <- load_urio urio ;;
    rados_aio_release (urio_comp slot) ;;
    match urcb with Some p => free p | None => ret tt end ;;
    ret (-1)
  else
    (* wait for the callback to be executed *)
    slot <- load_urio urio ;;
    n <- wait_read_hook (fst (urio_fds slot)) timeout ;;
    if n <=? 0 then
      slot <- load_urio urio ;;
      rados_aio_release (urio_comp slot) ;;
      ret (-1)
    else
      slot <- load_urio urio ;;
      k <- read (fst (urio_fds slot)) ;;
      if negb (k =? 1) then
        slot <- load_urio urio ;;
        rados_aio_release (urio_comp slot) ;;
        uwsgi_error "uwsgi_rados_wait_completion()/read()" ;;
        ret (-1)
      else
        slot <- load_urio urio ;;
        safe <- rados_aio_is_safe_and_cb (urio_comp slot) ;;
        r' <- (if safe then
                 slot <- load_urio urio ;;
                 rados_aio_get_return_value (urio_comp slot)
               else ret (-1)) ;;
        slot <- load_urio urio ;;
        rados_aio_release (urio_comp slot) ;;
        ret r'.

(** ** Operation primitives (rados.c, lines 131-294) *)

(** A C int used as a condition. *)
Definition nz (e : Z) : bool := negb (e =? 0).

(** A char* tested against NULL. *)
Definition is_set (s : option string) : bool :=
  match s with Some _ => true | None => false end.

Definition uwsgi_rados_delete (wsgi_req : wsgi_request) (ctx : rados_ioctx_t)
    (key : string) (timeout : Z) : M Z :=
  async <- gets (fun w => uwsgi_async (w_uwsgi w)) ;;
  if async <? 1 then rados_remove ctx key
  else
    urcb <- uwsgi_rados_set_completion (async_id wsgi_req) ;;
    match urcb with
    | None => ret (-1)
    | Some _ =>
        comp <- urcb_urio_comp urcb ;;
        r <- rados_aio_remove ctx key comp ;;
        uwsgi_rados_wait_completion r urcb timeout
    end.

(** The while loop of uwsgi_rados_put; [fuel] bounds the iterations. *)
Fixpoint uwsgi_rados_put_loop (fuel : nat) (wsgi_req : wsgi_request)
    (ctx : rados_ioctx_t) (key : string) (timeout : Z) (remains off : Z) : M Z :=
  if remains >? 0 then
    match fuel with
    | O => abort OutOfFuel
    | S fuel' =>
        body <- uwsgi_request_body_read (UMIN remains 32768) ;;
        match body with
        | BodyNull | BodyEmpty => ret (-1)
        | BodyData body =>
            let body_len := Z.of_nat (length body) in
            async <- gets (fun w => uwsgi_async (w_uwsgi w)) ;;
            failed <-
              (if async <? 1 then
                 r <- rados_write_full ctx key body body_len ;;
                 ret (r <? 0)
               else
                 urcb <- uwsgi_rados_set_completion (async_id wsgi_req) ;;
                 comp <- urcb_urio_comp urcb ;;
                 r <- rados_aio_write_full ctx key comp body body_len ;;
                 r' <- uwsgi_rados_wait_completion r urcb timeout ;;
                 ret (r' <? 0)) ;;
            if failed : bool then ret (-1)
            else
              uwsgi_rados_put_loop fuel' wsgi_req ctx key timeout
                (u64 (remains - body_len)) (u64 (off + body_len))
        end
    end
  else ret 0.

Definition uwsgi_rados_put (wsgi_req : wsgi_request) (ctx : rados_ioctx_t)
    (key : string) (timeout : Z) : M Z :=
  uwsgi_rados_put_loop (Z.to_nat (post_cl wsgi_req)) wsgi_req ctx key timeout
    (post_cl wsgi_req) 0.

(** async stat; the outputs are what librados wrote through stat_size and
    stat_mtime, which start at 0 in the callers. *)
Definition uwsgi_rados_async_stat (async_id : Z) (ctx : rados_ioctx_t) (key : string)
    (timeout : Z) : M (Z * (Z * Z)) :=
  urcb <- uwsgi_rados_set_completion async_id ;;
  comp <- urcb_urio_comp urcb ;;
  r <- rados_aio_stat ctx key comp ;;
  r' <- uwsgi_rados_wait_completion r urcb timeout ;;
  c <- load_completion comp ;;
  ret (r', c_out c).

(** The synchronous loop of uwsgi_rados_read. *)
Fixpoint uwsgi_rados_read_sync (fuel : nat) (ctx : rados_ioctx_t) (key : string)
    (remains off : Z) : M Z :=
  if remains >? 0 then
    match fuel with
    | O => abort OutOfFuel
    | S fuel' =>
        r <- rados_read ctx key (UMIN remains 8192) off ;;
        let rlen := fst r in
        if rlen <=? 0 then ret (-1)
        else
          e <- uwsgi_response_write_body_do (snd r) ;;
          if nz e then ret (-1)
          else uwsgi_rados_read_sync fuel' ctx key (u64 (remains - rlen)) (u64 (off + rlen))
    end
  else ret 0.

(** The asynchronous loop of uwsgi_rados_read; the result is [remains] when the
    loop is left. *)
Fixpoint uwsgi_rados_read_async (fuel : nat) (wsgi_req : wsgi_request)
    (ctx : rados_ioctx_t) (key : string) (timeout : Z) (remains off : Z) : M Z :=
  if remains >? 0 then
    match fuel with
    | O => abort OutOfFuel
    | S fuel' =>
        urcb <- uwsgi_rados_set_completion (async_id wsgi_req) ;;
        comp <- urcb_urio_comp urcb ;;
        r <- rados_aio_read ctx key comp (UMIN remains 8192) off ;;
        rlen <- uwsgi_rados_wait_completion r urcb timeout ;;
        if rlen <=? 0 then ret remains
        else
          c <- load_completion comp ;;
          e <- uwsgi_response_write_body_do (take (Z.to_nat rlen) (c_buf c)) ;;
          if nz e then ret remains
          else
            uwsgi_rados_read_async fuel' wsgi_req ctx key timeout
              (u64 (remains - rlen)) (u64 (off + rlen))
    end
  else ret remains.

Definition uwsgi_rados_read (wsgi_req : wsgi_request) (ctx : rados_ioctx_t)
    (key : string) (remains : Z) (timeout : Z) : M Z :=
  async <- gets (fun w => uwsgi_async (w_uwsgi w)) ;;
  if async <? 1 then uwsgi_rados_read_sync (Z.to_nat remains) ctx key remains 0
  else
    remains' <- uwsgi_rados_read_async (Z.to_nat remains) wsgi_req ctx key timeout remains 0 ;;
    ret (if remains' =? 0 then 0 else -1).

(** uwsgi_rados_propfind: consume the body *)
Fixpoint uwsgi_rados_propfind_body (fuel : nat) (remains : Z) : M unit :=
  if remains >? 0 then
    match fuel with
    | O => abort OutOfFuel
    | S fuel' =>
        body <- uwsgi_request_body_read (UMIN remains 32768) ;;
        match body with
        | BodyNull | BodyEmpty => ret tt
        | BodyData body =>
            uwsgi_rados_propfind_body fuel' (u64 (remains - Z.of_nat (length body)))
        end
    end
  else ret tt.

(** uwsgi_rados_propfind: the loop over the objects of the pool.  The boolean
    is true when the loop is left by goto end. *)
Fixpoint uwsgi_rados_propfind_list (fuel : nat) (wsgi_req : wsgi_request)
    (ctx : rados_ioctx_t) (timeout : Z) (ctx_list : list string) (ub : list xml_item)
    : M (bool * list xml_item) :=
  match fuel with
  | O => abort OutOfFuel
  | S fuel' =>
      nx <- rados_objects_list_next ctx_list ;;
      match nx with
      | (0, Some entry, ctx_list') =>
          async <- gets (fun w => uwsgi_async (w_uwsgi w)) ;;
          st <- (if async >? 0 then
                   uwsgi_rados_async_stat (async_id wsgi_req) ctx entry timeout
                 else rados_stat ctx entry) ;;
          if fst st <? 0 then ret (true, ub)
          else
            mime_type <- gets (fun w => uwsgi_get_mime_type (w_uwsgi w) entry) ;;
            let slashed := "/" +:+ entry in
            r <- uwsgi_webdav_propfind_item_add ub slashed (fst (snd st)) (snd (snd st))
                   mime_type ;;
            if nz (fst r) then ret (true, snd r)
            else
              e <- uwsgi_response_write_xml_do (snd r) ;;
              if nz e then ret (true, snd r)
              else
                (* reset buffer *)
                uwsgi_rados_propfind_list fuel' wsgi_req ctx timeout ctx_list' []
      | _ => ret (false, ub)
      end
  end.

Definition content_type_xml : string :=
  "text/xml; charset=" +:+ String (Ascii.ascii_of_nat 34) "utf-8"
    +:+ String (Ascii.ascii_of_nat 34) EmptyString.

Definition uwsgi_rados_propfind (wsgi_req : wsgi_request) (ctx : rados_ioctx_t)
    (key : option string) (size mtime : Z) (timeout : Z) : M unit :=
  (* consume the body *)
  uwsgi_rados_propfind_body (Z.to_nat (post_cl wsgi_req)) (post_cl wsgi_req) ;;
  e <- uwsgi_response_prepare_headers "207 Multi-Status" ;;
  if nz e then ret tt else
  e <- uwsgi_response_add_content_type content_type_xml ;;
  if nz e then ret tt else
  ub <- uwsgi_webdav_multistatus_new ;;
  match ub with
  | None => ret tt
  | Some ub =>
      match key with
      | Some key =>
          mime_type <- gets (fun w => uwsgi_get_mime_type (w_uwsgi w) key) ;;
          let slashed := "/" +:+ key in
          r <- uwsgi_webdav_propfind_item_add ub slashed size mtime mime_type ;;
          if nz (fst r) then ret tt else
          r <- uwsgi_webdav_multistatus_close (snd r) ;;
          if nz (fst r) then ret tt else
          uwsgi_response_write_xml_do (snd r) ;;
          ret tt
      | None =>
          (* request for / *)
          depth <- gets (fun w =>
            match http_depth wsgi_req with
            | Some d => uwsgi_str_num (w_uwsgi w) d
            | None => 0
            end) ;;
          if depth =? 0 then
            r <- uwsgi_webdav_propfind_item_add ub "/" 0 0 None ;;
            if nz (fst r) then ret tt else
            r <- uwsgi_webdav_multistatus_close (snd r) ;;
            if nz (fst r) then ret tt else
            uwsgi_response_write_xml_do (snd r) ;;
            ret tt
          else
            op <- rados_objects_list_open ctx ;;
            if fst op <? 0 then ret tt else
            r <- uwsgi_rados_propfind_list (S (length (snd op))) wsgi_req ctx timeout
                   (snd op) ub ;;
            if fst r then ret tt else
            rados_objects_list_close ;;
            r <- uwsgi_webdav_multistatus_close (snd r) ;;
            if nz (fst r) then ret tt else
            uwsgi_response_write_xml_do (snd r) ;;
            ret tt
      end
  end.

(** ** The mount registry (rados.c, lines 296-425) *)

(** .modifier1 = 28 *)
Definition rados_plugin_modifier1 : Z := 28.

(** A librados setup call: recorded, failing when the environment says so. *)
Definition rados_setup_call (c : rados_call) : M Z :=
  emit (EvRados c) ;;
  o <- ask ;;
  ret (match forced_error o with Some e => e | None => 0 end).

(** rados_ioctx_create(cluster, pool, &ctx): a new context on an existing
    pool. *)
Definition rados_ioctx_create (cluster : Z) (pool : string) : M (Z * rados_ioctx_t) :=
  emit (EvRados (RIoctxCreate cluster pool)) ;;
  o <- ask ;;
  match forced_error o with
  | Some e => ret (e, mk_ioctx 0 pool)
  | None =>
      ps <- gets w_pools ;;
      match ps !! pool with
      | Some _ => h <- fresh ;; ret (0, mk_ioctx h pool)
      | None => ret (- ENOENT, mk_ioctx 0 pool)
      end
  end.

Definition rados_shutdown (cluster : Z) : M unit := emit (EvRados (RShutdown cluster)).

(** for(i=0;i<uwsgi.threads;i++) rados_ioctx_create(cluster, urmp->pool, &ctxes[i]) *)
Fixpoint uwsgi_rados_add_mountpoint_ctxes (n : nat) (cluster : Z) (pool : string)
    : M (list rados_ioctx_t) :=
  match n with
  | O => ret []
  | S n' =>
      r <- rados_ioctx_create cluster pool ;;
      if fst r <? 0 then
        uwsgi_error "can't open rados pool" ;;
        rados_shutdown cluster ;;
        exit 1
      else
        ctxes <- uwsgi_rados_add_mountpoint_ctxes n' cluster pool ;;
        ret (snd r :: ctxes)
  end.

Definition uwsgi_rados_add_mountpoint (arg : string) : M unit :=
  parsed <- gets (fun w => uwsgi_kvlist_parse (w_uwsgi w) arg) ;;
  match parsed with
  | None => uwsgi_log "unable to parse rados mountpoint definition" ;; exit 1
  | Some kv =>
      match urmp_mountpoint kv, urmp_pool kv with
      | Some mountpoint, Some pool =>
          urmp_timeout' <- gets (fun w =>
            match urmp_str_timeout kv with
            | Some s => atoi (w_uwsgi w) s
            | None => 0
            end) ;;
          now <- gets w_now ;;
          uwsgi_log "[rados] mounting %s ..." ;;
          r <- rados_setup_call RCreate ;;
          if r <? 0 then uwsgi_error "can't create Ceph cluster handle" ;; exit 1 else
          cluster <- fresh ;;
          uwsgi_log (if is_set (urmp_config kv) then "using Ceph conf:%s"
                     else "using default Ceph conf.") ;;
          r <- rados_setup_call (RConfReadFile (urmp_config kv)) ;;
          if r <? 0 then uwsgi_error "can't configure Ceph cluster handle" ;; exit 1 else
          urados_timeout' <- gets (fun w => urados_timeout (w_urados w)) ;;
          let timeout := if nz urmp_timeout' then urmp_timeout' else urados_timeout' in
          rados_setup_call (RConfSet "client_mount_timeout" timeout) ;;
          rados_setup_call (RConfSet "rados_mon_op_timeout" timeout) ;;
          rados_setup_call (RConfSet "rados_osd_op_timeout" timeout) ;;
          r <- rados_setup_call RConnect ;;
          if r <? 0 then uwsgi_error "can't connect with Ceph cluster" ;; exit 1 else
          threads <- gets (fun w => uwsgi_threads (w_uwsgi w)) ;;
          ctx_ptr <-
            (if threads >? 1 then
               ctxes <- uwsgi_rados_add_mountpoint_ctxes (Z.to_nat threads) cluster pool ;;
               ret (CtxArray ctxes)
             else
               r <- rados_ioctx_create cluster pool ;;
               if fst r <? 0 then
                 uwsgi_error "can't open rados pool" ;;
                 rados_shutdown cluster ;;
                 exit 1
               else ret (CtxOne (snd r))) ;;
          rados_setup_call RClusterFsid ;;
          uwsgi_log "connected to Ceph pool: %s on cluster %.*s" ;;
          (* uwsgi_add_app(id, rados_plugin.modifier1, urmp->mountpoint, ...) *)
          o <- ask ;;
          match forced_error o with
          | Some _ =>
              uwsgi_log "[rados] unable to mount %s" ;;
              rados_shutdown cluster ;;
              exit 1
          | None =>
              let urmp :=
                mk_urmp cluster (urmp_mountpoint kv) (urmp_config kv) (urmp_pool kv)
                  (urmp_str_timeout kv) urmp_timeout' (urmp_allow_put kv)
                  (urmp_allow_delete kv) (urmp_allow_mkcol kv) (urmp_allow_propfind kv) in
              now' <- gets w_now ;;
              modify (set_uwsgi (set_apps (fun apps =>
                apps ++ [mk_app rados_plugin_modifier1 mountpoint ctx_ptr urmp now
                           (now' - now)]))) ;;
              uwsgi_log "Rados app/mountpoint %d (%s) loaded in %d seconds at %p"
          end
      | _, _ =>
          uwsgi_log "[rados] mount requires a mountpoint, and a pool name." ;; exit 1
      end
  end.

Fixpoint uwsgi_rados_setup_mountpoints (usl : list string) : M unit :=
  match usl with
  | [] => ret tt
  | value :: next => uwsgi_rados_add_mountpoint value ;; uwsgi_rados_setup_mountpoints next
  end.

(** for(i=0;i<uwsgi.async;i++): fds set to -1, the rest left as calloc made it;
    pthread_mutex_init may fail. *)
Fixpoint uwsgi_rados_setup_urio (n : nat) : M (list uwsgi_rados_io) :=
  match n with
  | O => ret []
  | S n' =>
      o <- ask ;;
      match forced_error o with
      | Some _ => uwsgi_error "uwsgi_rados_setup()/pthread_mutex_init()" ;; exit 1
      | None =>
          rest <- uwsgi_rados_setup_urio n' ;;
          ret (mk_urio (-1, -1) 0 0 :: rest)
      end
  end.

(** we translate the string list to an app representation *)
Definition uwsgi_rados_setup : M unit :=
  t <- gets (fun w => urados_timeout (w_urados w)) ;;
  (if t =? 0 then
     st <- gets (fun w => uwsgi_socket_timeout (w_uwsgi w)) ;;
     modify (set_urados (set_urados_timeout st))
   else ret tt) ;;
  usl <- gets (fun w => urados_mountpoints (w_urados w)) ;;
  uwsgi_rados_setup_mountpoints usl ;;
  (* now initialize a pthread_mutex for each async core *)
  async <- gets (fun w => uwsgi_async (w_uwsgi w)) ;;
  if async >? 0 then
    urio <- uwsgi_rados_setup_urio (Z.to_nat async) ;;
    modify (set_urados (set_urio (fun _ => urio)))
  else ret tt.

(** ** The request dispatcher (rados.c, lines 427-654) *)

(** A buffer of chars read as a C string: it ends at the first NUL. *)
Fixpoint cstr (s : string) : string :=
  match s with
  | EmptyString => EmptyString
  | String c s' => if Ascii.eqb c Ascii.zero then EmptyString else String c (cstr s')
  end.

(** filename (lines 457-466): path_info without the mountpoint when it starts
    with it and is longer, path_info otherwise. *)
Definition uwsgi_rados_request_filename (path_info mountpoint : string) : string :=
  if (String.length mountpoint <? String.length path_info)%nat
     && String.prefix mountpoint path_info
  then cstr (String.substring (String.length mountpoint)
               (String.length path_info - String.length mountpoint) path_info)
  else cstr path_info.

(** in multithread mode the memory is different (as we need a ctx for each
    thread) (lines 468-475) *)
Definition uwsgi_rados_request_ctx (threads : Z) (ua : uwsgi_app) (async_id : Z)
    : M rados_ioctx_t :=
  if threads >? 1 then
    match ua_responder0 ua with
    | CtxArray ctxes =>
        match at_index ctxes async_id with
        | Some ctx => ret ctx
        | None => abort OutOfBounds
        end
    | CtxOne _ => abort BadPointer
    end
  else
    match ua_responder0 ua with
    | CtxOne ctx => ret ctx
    | CtxArray _ => abort BadPointer
    end.

(** The stat every method but OPTIONS and MKCOL starts with (lines 561-565). *)
Definition uwsgi_rados_request_stat (wsgi_req : wsgi_request) (ctx : rados_ioctx_t)
    (filename : string) (timeout : Z) : M (Z * (Z * Z)) :=
  async <- gets (fun w => uwsgi_async (w_uwsgi w)) ;;
  if async >? 0 then uwsgi_rados_async_stat (async_id wsgi_req) ctx filename timeout
  else rados_stat ctx filename.

(** How the body of the handler is left: by goto end, or by a return. *)
Inductive flow :=
  | GotoEnd
  | Return (r : Z).

(** The OPTIONS branch (lines 494-530). *)
Definition uwsgi_rados_request_options (urmp : uwsgi_rados_mountpoint) : M flow :=
  e <- uwsgi_response_prepare_headers "200 OK" ;;
  if nz e then ret GotoEnd else
  e <- uwsgi_response_add_header "Dav" "1" ;;
  if nz e then ret GotoEnd else
  r <- uwsgi_buffer_append EmptyString "OPTIONS, GET, HEAD" ;;
  if nz (fst r) then ret GotoEnd else
  r <- (if is_set (urmp_allow_put urmp) then uwsgi_buffer_append (snd r) ", PUT"
        else ret (0, snd r)) ;;
  if nz (fst r) then ret GotoEnd else
  r <- (if is_set (urmp_allow_delete urmp) then uwsgi_buffer_append (snd r) ", DELETE"
        else ret (0, snd r)) ;;
  if nz (fst r) then ret GotoEnd else
  r <- (if is_set (urmp_allow_mkcol urmp) then uwsgi_buffer_append (snd r) ", MKCOL"
        else ret (0, snd r)) ;;
  if nz (fst r) then ret GotoEnd else
  r <- (if is_set (urmp_allow_propfind urmp) then uwsgi_buffer_append (snd r) ", PROPFIND"
        else ret (0, snd r)) ;;
  if nz (fst r) then ret GotoEnd else
  uwsgi_response_add_header "Allow" (snd r) ;;
  ret GotoEnd.

(** What follows the stat (lines 567-646); [st] is the result of the stat with
    stat_size and stat_mtime. *)
Definition uwsgi_rados_request_after_stat (wsgi_req : wsgi_request)
    (ctx : rados_ioctx_t) (urmp : uwsgi_rados_mountpoint) (filename : string)
    (timeout : Z) (st : Z * (Z * Z)) : M flow :=
  let r := fst st in
  let stat_size := fst (snd st) in
  let stat_mtime := snd (snd st) in
  (* PUT AND MKCOL can be used for non-existent objects *)
  if uwsgi_strncmp (method wsgi_req) "PUT" =? 0 then
    if negb (is_set (urmp_allow_put urmp)) then uwsgi_405 ;; ret GotoEnd else
    d <- (if r =? 0 then uwsgi_rados_delete wsgi_req ctx filename timeout else ret 0) ;;
    if nz d then uwsgi_500 ;; ret GotoEnd else
    p <- uwsgi_rados_put wsgi_req ctx filename timeout ;;
    if nz p then uwsgi_500 ;; ret GotoEnd else
    uwsgi_response_prepare_headers "201 Created" ;;
    ret GotoEnd
  else if r <? 0 then
    (if r =? - ENOENT then uwsgi_404 else uwsgi_403) ;;
    ret GotoEnd
  else
  if uwsgi_strncmp (method wsgi_req) "DELETE" =? 0 then
    if negb (is_set (urmp_allow_delete urmp)) then uwsgi_405 ;; ret GotoEnd else
    d <- uwsgi_rados_delete wsgi_req ctx filename timeout ;;
    if nz d then uwsgi_403 ;; ret GotoEnd else
    uwsgi_response_prepare_headers "200 OK" ;;
    ret GotoEnd
  else
  ims <- gets (fun w => uwsgi_parse_http_date (w_uwsgi w) (if_modified_since wsgi_req)) ;;
  if negb (String.length (if_modified_since wsgi_req) =? 0)%nat && (stat_mtime <=? ims) then
    e <- uwsgi_response_prepare_headers "304 Not Modified" ;;
    if nz e then ret (Return (-1)) else
    e <- uwsgi_response_write_headers_do ;;
    ret (Return e)
  else
  if uwsgi_strncmp (method wsgi_req) "PROPFIND" =? 0 then
    if negb (is_set (urmp_allow_propfind urmp)) then uwsgi_405 ;; ret GotoEnd else
    uwsgi_rados_propfind wsgi_req ctx (Some filename) stat_size stat_mtime timeout ;;
    ret GotoEnd
  else
  if nz (uwsgi_strncmp (method wsgi_req) "HEAD") && nz (uwsgi_strncmp (method wsgi_req) "GET")
  then uwsgi_405 ;; ret GotoEnd else
  e <- uwsgi_response_prepare_headers "200 OK" ;;
  if nz e then ret GotoEnd else
  mime_type <- gets (fun w => uwsgi_get_mime_type (w_uwsgi w) (path_info wsgi_req)) ;;
  e <- (match mime_type with
        | Some mime_type => uwsgi_response_add_content_type mime_type
        | None => ret 0
        end) ;;
  if nz e then ret GotoEnd else
  e <- uwsgi_response_add_last_modified (u64 stat_mtime) ;;
  if nz e then ret GotoEnd else
  e <- uwsgi_response_add_content_length stat_size ;;
  if nz e then ret GotoEnd else
  (* skip body on HEAD *)
  if nz (uwsgi_strncmp (method wsgi_req) "HEAD") then
    uwsgi_rados_read wsgi_req ctx filename stat_size timeout ;;
    ret GotoEnd
  else ret GotoEnd.

(** The method dispatch (lines 494-646). *)
Definition uwsgi_rados_request_methods (wsgi_req : wsgi_request) (ctx : rados_ioctx_t)
    (urmp : uwsgi_rados_mountpoint) (filename : string) (timeout : Z) : M flow :=
  if uwsgi_strncmp (method wsgi_req) "OPTIONS" =? 0 then
    uwsgi_rados_request_options urmp
  else
  (* empty paths are mapped to propfind *)
  if String.eqb (path_info wsgi_req) "/" then
    if is_set (urmp_allow_propfind urmp) && (uwsgi_strncmp (method wsgi_req) "PROPFIND" =? 0)
    then
      uwsgi_rados_propfind wsgi_req ctx None 0 0 timeout ;;
      ret GotoEnd
    else uwsgi_405 ;; ret GotoEnd
  else
  (* MKCOL does not require stat *)
  if uwsgi_strncmp (method wsgi_req) "MKCOL" =? 0 then
    if negb (is_set (urmp_allow_mkcol urmp)) then uwsgi_405 ;; ret GotoEnd else
    r <- rados_pool_create (urmp_cluster urmp) filename ;;
    if r <? 0 then
      (if r =? - EEXIST then uwsgi_405 else uwsgi_500) ;;
      ret GotoEnd
    else
      uwsgi_response_prepare_headers "201 Created" ;;
      ret GotoEnd
  else
  st <- uwsgi_rados_request_stat wsgi_req ctx filename timeout ;;
  uwsgi_rados_request_after_stat wsgi_req ctx urmp filename timeout st.

(** end: (lines 648-653) *)
Definition uwsgi_rados_request_end (wsgi_req : wsgi_request) : M Z :=
  async <- gets (fun w => uwsgi_async (w_uwsgi w)) ;;
  (if async >? 0 then
     urio <- load_urio (async_id wsgi_req) ;;
     close (fst (urio_fds urio)) ;;
     urio <- load_urio (async_id wsgi_req) ;;
     close (snd (urio_fds urio))
   else ret tt) ;;
  ret UWSGI_OK.

(** wsgi_req->app_id (lines 444-449): the application the core routes the
    request to, or the default application when it belongs to this plugin. *)
Definition uwsgi_rados_request_app_id (wsgi_req : wsgi_request) : M Z :=
  uwsgi <- gets w_uwsgi ;;
  let app_id := uwsgi_get_app_id uwsgi wsgi_req in
  if (app_id =? -1) && negb (uwsgi_no_default_app uwsgi) && (uwsgi_default_app uwsgi >? -1)
  then
    match at_index (uwsgi_apps uwsgi) (uwsgi_default_app uwsgi) with
    | Some ua =>
        ret (if ua_modifier1 ua =? rados_plugin_modifier1 then uwsgi_default_app uwsgi
             else app_id)
    | None => abort OutOfBounds
    end
  else ret app_id.

(** int timeout = urmp->timeout ? urmp->timeout : urados.timeout; *)
Definition uwsgi_rados_request_timeout (urmp : uwsgi_rados_mountpoint) (w : world) : Z :=
  if nz (urmp_timeout urmp) then urmp_timeout urmp else urados_timeout (w_urados w).

Definition uwsgi_rados_request (wsgi_req : wsgi_request) : M Z :=
  if len wsgi_req =? 0 then
    uwsgi_log "Empty request. skip." ;;
    ret (-1)
  else
  if negb (vars_ok wsgi_req) then ret (-1) else
  (* blocks empty paths *)
  if (String.length (path_info wsgi_req) =? 0)%nat
     || (Z.of_nat (String.length (path_info wsgi_req)) >? PATH_MAX)
  then uwsgi_403 ;; ret UWSGI_OK else
  uwsgi <- gets w_uwsgi ;;
  app_id <- uwsgi_rados_request_app_id wsgi_req ;;
  if app_id =? -1 then uwsgi_404 ;; ret UWSGI_OK else
  match at_index (uwsgi_apps uwsgi) app_id with
  | None => abort OutOfBounds
  | Some ua =>
      let filename := uwsgi_rados_request_filename (path_info wsgi_req) (ua_mountpoint ua) in
      ctx <- uwsgi_rados_request_ctx (uwsgi_threads uwsgi) ua (async_id wsgi_req) ;;
      let urmp := ua_responder1 ua in
      (* struct uwsgi_rados_io *urio = &urados.urio[wsgi_req->async_id]; *)
      p <- (if uwsgi_async uwsgi >? 0 then
              (* no need to lock here (the rid protect us) *)
              pipe (async_id wsgi_req)
            else ret 0) ;;
      if nz p then
        uwsgi_error "uwsgi_rados_read_async()/pipe()" ;;
        uwsgi_500 ;;
        ret UWSGI_OK
      else
      timeout <- gets (uwsgi_rados_request_timeout urmp) ;;
      fl <- uwsgi_rados_request_methods wsgi_req ctx urmp filename timeout ;;
      match fl with
      | GotoEnd => uwsgi_rados_request_end wsgi_req
      | Return r => ret r
      end
  end.

(** ** Reading a trace *)

(** The events of [w'] that are not yet in [w]. *)
Definition events_since (w w' : world) : list event :=
  drop (length (w_trace w)) (w_trace w').

(** The calls to the response writer, in order. *)
Definition resp_calls (evs : list event) : list resp_call :=
  omap (fun e => match e with EvResp c => Some c | _ => None end) evs.

(** The calls to librados, in order. *)
Definition rados_calls (evs : list event) : list rados_call :=
  omap (fun e => match e with EvRados c => Some c | _ => None end) evs.

(** The body of the response: what the calls to uwsgi_response_write_body_do
    wrote. *)
Definition response_body (evs : list event) : list byte :=
  concat (omap (fun e => match e with EvResp (RespWriteBody buf) => Some buf | _ => None end) evs).

(** A librados call that works on an I/O context: a synchronous operation or
    the submission of an asynchronous one. *)
Definition is_ioctx_call (c : rados_call) : bool :=
  match c with
  | RStat _ _ | RRemove _ _ | RWriteFull _ _ _ | RRead _ _ _ _ | RListOpen _
  | RAioStat _ _ _ | RAioRemove _ _ _ | RAioWriteFull _ _ _ _ | RAioRead _ _ _ _ _ => true
  | _ => false
  end.

(** An operation on the object store: a call on an I/O context, or the creation
    of a pool. *)
Definition is_store_call (c : rados_call) : bool :=
  is_ioctx_call c || match c with RPoolCreate _ _ => true | _ => false end.

Definition store_calls (evs : list event) : list rados_call :=
  List.filter is_store_call (rados_calls evs).

(** A stat, synchronous or submitted. *)
Definition is_stat_call (c : rados_call) : bool :=
  match c with
  | RStat _ _ | RAioStat _ _ _ => true
  | _ => false
  end.

(** The events of the pipe of a request. *)
Definition is_fd_event (e : event) : bool :=
  match e with
  | EvPipe _ _ | EvClose _ => true
  | _ => false
  end.

(** No call to the response writer. *)
Definition not_resp (e : event) : bool :=
  match e with EvResp _ => false | _ => true end.

(** No operation on the object store. *)
Definition not_store (e : event) : bool :=
  match e with EvRados c => negb (is_store_call c) | _ => true end.

(** No response, and no operation on the object store but a stat. *)
Definition stat_only (e : event) : bool :=
  match e with
  | EvRados c => is_stat_call c || negb (is_store_call c)
  | EvResp _ => false
  | _ => true
  end.

(** The events no request is answered or object touched by: logging, the
    mutex, the heap, the pipe, and the management of completions. *)
Definition is_background (e : event) : bool :=
  match e with
  | EvLog _ | EvLock _ | EvUnlock _ | EvMalloc _ | EvFree _ | EvPipe _ _ | EvClose _
  | EvWrite _ | EvRead _ | EvWaitRead _ _ => true
  | EvRados (RAioCreateCompletion _ _) | EvRados (RAioIsSafeAndCb _)
  | EvRados (RAioGetReturnValue _) | EvRados (RAioRelease _) => true
  | _ => false
  end.

(** The armings of the slot [i] in a trace: the completions created for it. *)
Definition is_arming (i : Z) (e : event) : bool :=
  match e with
  | EvRados (RAioCreateCompletion _ slot) => slot =? i
  | _ => false
  end.

Definition armings (i : Z) (evs : list event) : Z :=
  Z.of_nat (length (List.filter (is_arming i) evs)).

(** The slots of the plugin. *)
Definition slots (w : world) : list uwsgi_rados_io := urados_urio (w_urados w).

(** ** What the statements are about *)

(** An environment that makes no call fail: no answer on the tape is a
    negative error code. *)
Definition reliable (w : world) : Prop :=
  Forall (fun o => forced_error o = None) (w_tape w).

(** The request reaches the method dispatch: it is not empty, its variables
    parse, the path has a legal length, the core resolves it to the
    application [ua] of this plugin, the I/O context of the serving core is
    [ctx], and with async enabled the pipe of the slot is created; [w0] is the
    world at the method dispatch. *)
Record dispatched (wsgi_req : wsgi_request) (w : world) (ua : uwsgi_app)
    (ctx : rados_ioctx_t) (w0 : world) : Prop := mk_dispatched {
  d_len : len wsgi_req <> 0;
  d_vars : vars_ok wsgi_req = true;
  d_path_min : String.length (path_info wsgi_req) <> 0%nat;
  d_path_max : Z.of_nat (String.length (path_info wsgi_req)) <= PATH_MAX;
  d_app : exists app_id,
    uwsgi_rados_request_app_id wsgi_req w = (Ret app_id, w) /\
    app_id <> -1 /\
    at_index (uwsgi_apps (w_uwsgi w)) app_id = Some ua;
  d_ctx :
    uwsgi_rados_request_ctx (uwsgi_threads (w_uwsgi w)) ua (async_id wsgi_req) w = (Ret ctx, w);
  d_pipe :
    if uwsgi_async (w_uwsgi w) >? 0 then pipe (async_id wsgi_req) w = (Ret 0, w0)
    else w0 = w
}.

(** The key the request works on. *)
Definition filename_of (wsgi_req : wsgi_request) (ua : uwsgi_app) : string :=
  uwsgi_rados_request_filename (path_info wsgi_req) (ua_mountpoint ua).

(** The Allow header as the specification words it: OPTIONS, GET, HEAD, then
    those of PUT, DELETE, MKCOL, PROPFIND the mount permits, in that order. *)
Definition allow_header (urmp : uwsgi_rados_mountpoint) : string :=
  "OPTIONS, GET, HEAD"
  +:+ (if is_set (urmp_allow_put urmp) then ", PUT" else EmptyString)
  +:+ (if is_set (urmp_allow_delete urmp) then ", DELETE" else EmptyString)
  +:+ (if is_set (urmp_allow_mkcol urmp) then ", MKCOL" else EmptyString)
  +:+ (if is_set (urmp_allow_propfind urmp) then ", PROPFIND" else EmptyString).

(** How a run may change the world, seen from the slot [i]: the trace grows by
    events that all satisfy [Q], the globals of the core stay as they are, the
    array of slots keeps its length, and the rid of the slot advances by the
    number of its armings, modulo 2^64. *)
Definition evolves (Q : event -> bool) (i : Z) (w w' : world) : Prop :=
  exists evs,
    w_trace w' = w_trace w ++ evs /\
    forallb Q evs = true /\
    w_uwsgi w' = w_uwsgi w /\
    length (slots w') = length (slots w) /\
    forall urio, at_index (slots w) i = Some urio ->
      exists urio', at_index (slots w') i = Some urio' /\
        (0 <= urio_rid urio < 2 ^ 64 ->
         urio_rid urio' = u64 (urio_rid urio + armings i evs)).

(** Every run of [m], however it ends, changes the world that way. *)
Definition preserves (Q : event -> bool) (i : Z) {A} (m : M A) : Prop :=
  forall w r w', m w = (r, w') -> evolves Q i w w'.

(** No restriction on the events. *)
Definition any_event (e : event) : bool := true.

(** ** A concrete deployment

    One mount of the pool p1 under /r, one worker thread; the examples and the
    counterexamples below run the plugin on it. *)

(** The mount, with the permissions given. *)
Definition example_urmp (put del mkcol propfind : bool) : uwsgi_rados_mountpoint :=
  let flag (b : bool) := if b then Some "1" else None in
  mk_urmp 7 (Some "/r") None (Some "p1") None 0 (flag put) (flag del) (flag mkcol)
    (flag propfind).

Definition example_ctx : rados_ioctx_t := mk_ioctx 8 "p1".

Definition example_app (urmp : uwsgi_rados_mountpoint) : uwsgi_app :=
  mk_app rados_plugin_modifier1 "/r" (CtxOne example_ctx) urmp 0 0.

(** A core with one thread and [async] async cores that routes every request
    to the application 0 and parses every date to [ims]. *)
Definition example_uwsgi (async : Z) (urmp : uwsgi_rados_mountpoint) (ims : Z)
    : uwsgi_server :=
  mk_uwsgi async 1 30 false (-1) [example_app urmp] (fun _ => 0) (fun _ => None)
    (fun _ => ims) (fun _ => 0) (fun _ => None) (fun _ => 0).

(** The world after setup: the pool p1 holds [objs], the body of the request is
    [body], the environment answers with [tape]. *)
Definition example_world (async : Z) (urmp : uwsgi_rados_mountpoint) (ims : Z)
    (objs : gmap string object) (body : list byte) (tape : list (option Z)) : world :=
  mk_world (example_uwsgi async urmp ims)
    (mk_urados 30 [] (if async >? 0 then [mk_urio (-1, -1) 0 0] else []))
    ∅ ∅ {[ "p1" := objs ]} ∅ [] 10 1000 body [] tape.

Definition example_request (m path : string) (cl : Z) (ims : string) : wsgi_request :=
  mk_req 1 true path m cl ims EmptyString 0 None.

Definition hello : list byte := ["h"%byte; "e"%byte; "l"%byte; "l"%byte; "o"%byte].

(** A body of 32769 bytes: 32768 times a, then b. *)
Definition large_body : list byte :=
  repeat "a"%byte (Z.to_nat 32768) ++ ["b"%byte].

(** A slot whose rid has moved on to 2 while the callback of the transaction 1
    is still to come. *)
Definition late_world : world :=
  set_heap (fun h => <[12 := mk_urcb 1 0]> h)
    (set_urados (set_urio (fun _ => [mk_urio (10, 11) 2 15]))
       (example_world 1 (example_urmp false false false false) 0 ∅ [] [])).

(** A core with two worker threads before the mount is registered; the mount
    string parses to the mount of the examples. *)
Definition threaded_world : world :=
  mk_world
    (mk_uwsgi 0 2 30 false (-1) [] (fun _ => -1) (fun _ => None) (fun _ => 0) (fun _ => 0)
       (fun _ => Some (example_urmp true true false false)) (fun _ => 0))
    (mk_urados 30 ["mountpoint=/r,pool=p1,allow_put=1,allow_delete=1"] [])
    ∅ ∅ {[ "p1" := ∅ ]} ∅ [] 10 1000 [] [] [].

(** What happens to the slots once the plugin is set up: a transaction is armed,
    a whole request is served, or librados completes an operation and calls
    the callback. *)
Inductive operation :=
  | OpArm (async_id : Z)
  | OpRequest (wsgi_req : wsgi_request)
  | OpDeliver (comp : Z).

Definition perform (op : operation) (w : world) : world :=
  match op with
  | OpArm async_id => snd (uwsgi_rados_set_completion async_id w)
  | OpRequest wsgi_req => snd (uwsgi_rados_request wsgi_req w)
  | OpDeliver comp => snd (deliver comp w)
  end.

(** A sequence of operations, one after the other. *)
Definition perform_all (ops : list operation) (w : world) : world :=
  fold_left (fun w op => perform op w) ops w.

(** A slot whose rid is the largest 64-bit number. *)
Definition wrap_world : world :=
  set_urados (set_urio (fun _ => [mk_urio (-1, -1) (2 ^ 64 - 1) 0]))
    (example_world 1 (example_urmp false false false false) 0 ∅ [] []).

(** A write, synchronous or submitted. *)
Definition is_write_call (c : rados_call) : bool :=
  match c with
  | RWriteFull _ _ _ | RAioWriteFull _ _ _ _ => true
  | _ => false
  end.

(** No write to the object store. *)
Definition no_write (e : event) : bool :=
  match e with EvRados c => negb (is_write_call c) | _ => true end.

(** The answer to a DELETE or a PROPFIND the mount does not permit, after a
    stat that returned [r]. *)
Definition stat_answer (r : Z) : Z :=
  if r <? 0 then (if r =? - ENOENT then 404 else 403) else 405.

(** The test of the 304 branch (lines 608-610). *)
Definition not_modified (wsgi_req : wsgi_request) (w : world) (stat_mtime : Z) : bool :=
  negb (String.length (if_modified_since wsgi_req) =? 0)%nat
  && (stat_mtime <=? uwsgi_parse_http_date (w_uwsgi w) (if_modified_since wsgi_req)).

(** An environment that does nothing special: no failure, no timeout, no short
    read. *)
Definition quiet (w : world) : Prop := Forall (fun o => o = None) (w_tape w).

(** The slot [id] between two transactions: its pipe is open and empty, and
    librados has nothing in flight. *)
Definition idle (w : world) (id : Z) : Prop :=
  exists u,
    at_index (slots w) id = Some u /\
    w_fdtab w !! fst (urio_fds u) = Some (PipeRead 0) /\
    w_fdtab w !! snd (urio_fds u) = Some (PipeWrite (fst (urio_fds u))) /\
    w_inflight w = [].

(** What a stat answers for the state of the pool. *)
Definition stat_result (w : world) (ctx : rados_ioctx_t) (key : string) : Z * (Z * Z) :=
  match lookup_object w ctx key with
  | Some ob => (0, (Z.of_nat (length (o_data ob)), o_mtime ob))
  | None => (- ENOENT, (0, 0))
  end.

(** The plugin between two transactions, in an environment that does nothing
    special. *)
Definition ready (w : world) (id : Z) : Prop :=
  quiet w /\ ((uwsgi_async (w_uwsgi w) >? 0) = true -> idle w id).

(** No write and no response. *)
Definition quiet_store (e : event) : bool := no_write e && not_resp e.

(** The method of the request is one the mount does not permit. *)
Definition disallowed (wsgi_req : wsgi_request) (urmp : uwsgi_rados_mountpoint) : Prop :=
  (method wsgi_req = "PUT" /\ urmp_allow_put urmp = None) \/
  (method wsgi_req = "DELETE" /\ urmp_allow_delete urmp = None) \/
  (method wsgi_req = "MKCOL" /\ urmp_allow_mkcol urmp = None) \/
  (method wsgi_req = "PROPFIND" /\ urmp_allow_propfind urmp = None).

(** No operation on the object store but a stat. *)
Definition stat_or_none (e : event) : bool :=
  match e with
  | EvRados c => is_stat_call c || negb (is_store_call c)
  | _ => true
  end.

(** The I/O context a call to librados works on. *)
Definition call_ioctx (c : rados_call) : option rados_ioctx_t :=
  match c with
  | RStat ctx _ | RRemove ctx _ | RWriteFull ctx _ _ | RRead ctx _ _ _ | RListOpen ctx
  | RAioStat ctx _ _ | RAioRemove ctx _ _ | RAioWriteFull ctx _ _ _
  | RAioRead ctx _ _ _ _ => Some ctx
  | _ => None
  end.

Definition ioctx_eqb (a b : rados_ioctx_t) : bool :=
  (ioctx_id a =? ioctx_id b) && String.eqb (ioctx_pool a) (ioctx_pool b).

(** No call on an I/O context other than [ctx]. *)
Definition on_ctx (ctx : rados_ioctx_t) (e : event) : bool :=
  match e with
  | EvRados c =>
      match call_ioctx c with
      | Some ctx' => ioctx_eqb ctx' ctx
      | None => true
      end
  | _ => true
  end.

(** The core routes the request to the application [ua]: the request passes
    the guards of the entry and resolves to [ua]. *)
Record served (wsgi_req : wsgi_request) (w : world) (ua : uwsgi_app) : Prop := mk_served {
  s_len : len wsgi_req <> 0;
  s_vars : vars_ok wsgi_req = true;
  s_path_min : String.length (path_info wsgi_req) <> 0%nat;
  s_path_max : Z.of_nat (String.length (path_info wsgi_req)) <= PATH_MAX;
  s_app : exists app_id,
    uwsgi_rados_request_app_id wsgi_req w = (Ret app_id, w) /\
    app_id <> -1 /\
    at_index (uwsgi_apps (w_uwsgi w)) app_id = Some ua
}.

(** The core of [threaded_world] once the mount is registered, routing every
    request to the application 0. *)
Definition routed_world : world :=
  set_uwsgi (fun u =>
    mk_uwsgi (uwsgi_async u) (uwsgi_threads u) (uwsgi_socket_timeout u)
      (uwsgi_no_default_app u) (uwsgi_default_app u) (uwsgi_apps u)
      (fun _ => 0) (uwsgi_get_mime_type u) (uwsgi_parse_http_date u)
      (uwsgi_str_num u) (uwsgi_kvlist_parse u) (atoi u))
    (snd (uwsgi_rados_add_mountpoint "mountpoint=/r,pool=p1,allow_put=1,allow_delete=1"
            threaded_world)).

(** A GET of /r/foo served by the thread [id]. *)
Definition thread_request (id : Z) : wsgi_request :=
  mk_req 1 true "/r/foo" "GET" 0 EmptyString EmptyString id None.

(** * Proofs *)

(** ** The monad *)

Lemma bind_ret_inv {A B} (m : M A) (k : A -> M B) w b w' :
  bind m k w = (Ret b, w') ->
  exists a w1, m w = (Ret a, w1) /\ k a w1 = (Ret b, w').
Proof.
  unfold bind. destruct (m w) as [[a|f|c] w1]; try discriminate.
  intros H. exists a, w1. split; [reflexivity | exact H].
Qed.

Lemma bind_inv {A B} (m : M A) (k : A -> M B) w r w' :
  bind m k w = (r, w') ->
  (exists a w1, m w = (Ret a, w1) /\ k a w1 = (r, w')) \/
  (exists f, m w = (Abort f, w') /\ r = Abort f) \/
  (exists c, m w = (Exit c, w') /\ r = Exit c).
Proof.
  unfold bind. destruct (m w) as [[a|f|c] w1]; intros H.
  - left. exists a, w1. split; [reflexivity | exact H].
  - right. left. inversion H; subst. exists f. split; reflexivity.
  - right. right. inversion H; subst. exists c. split; reflexivity.
Qed.

Lemma bind_run {A B} (m : M A) (k : A -> M B) w a w1 :
  m w = (Ret a, w1) -> bind m k w = k a w1.
Proof. intros H. unfold bind. rewrite H. reflexivity. Qed.

Lemma bind_abort {A B} (m : M A) (k : A -> M B) w f w1 :
  m w = (Abort f, w1) -> bind m k w = (Abort f, w1).
Proof. intros H. unfold bind. rewrite H. reflexivity. Qed.

(** ** Arithmetic of the 64-bit counter *)

Lemma u64_range z : 0 <= u64 z < 2 ^ 64.
Proof. unfold u64. apply Z.mod_pos_bound. lia. Qed.

Lemma u64_small z : 0 <= z < 2 ^ 64 -> u64 z = z.
Proof. intros H. unfold u64. apply Z.mod_small. exact H. Qed.

Lemma u64_add_l a b : u64 (u64 a + b) = u64 (a + b).
Proof. unfold u64. apply Zplus_mod_idemp_l. Qed.

(** ** Arrays *)

Lemma at_index_insert_eq {A} (l : list A) i x y :
  at_index l i = Some y -> at_index (<[Z.to_nat i := x]> l) i = Some x.
Proof.
  unfold at_index. destruct (i <? 0); [discriminate|].
  intros H. apply list_lookup_insert_eq. eapply lookup_lt_Some. exact H.
Qed.

Lemma at_index_insert_ne {A} (l : list A) i j x :
  0 <= i -> i <> j -> at_index (<[Z.to_nat i := x]> l) j = at_index l j.
Proof.
  unfold at_index. intros Hi Hne. destruct (j <? 0) eqn:Hj; [reflexivity|].
  apply list_lookup_insert_ne. apply Z.ltb_ge in Hj. lia.
Qed.

Lemma at_index_nonneg {A} (l : list A) i x : at_index l i = Some x -> 0 <= i.
Proof. unfold at_index. destruct (i <? 0) eqn:E; [discriminate|]. apply Z.ltb_ge in E. lia. Qed.

Lemma at_index_length {A B} (l : list A) (l' : list B) i x :
  length l' = length l -> at_index l i = Some x -> exists y, at_index l' i = Some y.
Proof.
  unfold at_index. destruct (i <? 0); [discriminate|].
  intros Hl H. apply lookup_lt_Some in H. rewrite <- Hl in H.
  apply lookup_lt_is_Some_2 in H. destruct H as [y Hy]. exists y. exact Hy.
Qed.

(** ** The mutex of a slot *)

Lemma mutex_held_lock i w : mutex_held i (set_trace (fun t => t ++ [EvLock i]) w) = true.
Proof. unfold mutex_held. simpl. rewrite fold_left_app. simpl. rewrite Z.eqb_refl. reflexivity. Qed.

Lemma mutex_held_unlock i w : mutex_held i (set_trace (fun t => t ++ [EvUnlock i]) w) = false.
Proof. unfold mutex_held. simpl. rewrite fold_left_app. simpl. rewrite Z.eqb_refl. reflexivity. Qed.

(** The write of rid is refused outside the mutex. *)
Lemma store_rid_unlocked i rid w :
  mutex_held i w = false -> store_rid i rid w = (Abort DataRace, w).
Proof. intros H. unfold store_rid, bind, gets. rewrite H. reflexivity. Qed.

Lemma store_rid_locked i rid w urio :
  mutex_held i w = true ->
  at_index (urados_urio (w_urados w)) i = Some urio ->
  store_rid i rid w =
    (Ret tt,
     set_urados (set_urio (fun l =>
       <[Z.to_nat i := mk_urio (urio_fds urio) rid (urio_comp urio)]> l)) w).
Proof.
  intros H Hu. unfold store_rid, load_urio, store_urio, bind, gets, modify, ret.
  rewrite H, Hu. reflexivity.
Qed.

(** The run of the increment of rid. *)
Lemma set_completion_rid_run i w :
  uwsgi_rados_set_completion_rid i w =
    match at_index (urados_urio (w_urados w)) i with
    | Some urio =>
        (Ret tt,
         set_trace (fun t => t ++ [EvUnlock i])
           (set_urados (set_urio (fun l =>
              <[Z.to_nat i := mk_urio (urio_fds urio) (u64 (urio_rid urio + 1))
                                (urio_comp urio)]> l))
              (set_trace (fun t => t ++ [EvLock i]) w)))
    | None => (Abort OutOfBounds, set_trace (fun t => t ++ [EvLock i]) w)
    end.
Proof.
  unfold uwsgi_rados_set_completion_rid, pthread_mutex_lock, pthread_mutex_unlock.
  unfold bind at 1. unfold emit at 1. unfold modify at 1.
  unfold bind at 1. unfold load_urio at 1. unfold bind at 1. unfold gets at 1. simpl.
  destruct (at_index (urados_urio (w_urados w)) i) as [urio|] eqn:Hu; [|reflexivity].
  unfold ret at 1. unfold bind at 1.
  rewrite (store_rid_locked i _ _ urio (mutex_held_lock i w) Hu).
  reflexivity.
Qed.

(** ** Evolution of the world *)

Section Evolution.
Variable Q : event -> bool.
Variable i : Z.

Lemma armings_nil : armings i [] = 0.
Proof. reflexivity. Qed.

Lemma armings_app evs1 evs2 : armings i (evs1 ++ evs2) = armings i evs1 + armings i evs2.
Proof. unfold armings. rewrite List.filter_app, length_app. lia. Qed.

Lemma armings_nonneg evs : 0 <= armings i evs.
Proof. unfold armings. lia. Qed.

Lemma evolves_refl w : evolves Q i w w.
Proof.
  exists []. rewrite app_nil_r. repeat split.
  intros urio H. exists urio. split; [exact H|].
  intros Hr. rewrite armings_nil, Z.add_0_r. symmetry. apply u64_small. exact Hr.
Qed.

Lemma evolves_trans w1 w2 w3 : evolves Q i w1 w2 -> evolves Q i w2 w3 -> evolves Q i w1 w3.
Proof.
  intros (evs1 & Ht1 & Hq1 & Hu1 & Hl1 & Hr1) (evs2 & Ht2 & Hq2 & Hu2 & Hl2 & Hr2).
  exists (evs1 ++ evs2). repeat split.
  - rewrite Ht2, Ht1, app_assoc. reflexivity.
  - rewrite forallb_app, Hq1, Hq2. reflexivity.
  - congruence.
  - congruence.
  - intros urio H. destruct (Hr1 urio H) as (urio2 & H2 & E2).
    destruct (Hr2 urio2 H2) as (urio3 & H3 & E3).
    exists urio3. split; [exact H3|]. intros Hr.
    specialize (E2 Hr). rewrite E3.
    + rewrite E2, u64_add_l, armings_app, Z.add_assoc. reflexivity.
    + rewrite E2. apply u64_range.
Qed.

(** A step that leaves the trace and the slots alone. *)
Lemma evolves_frame w w' :
  w_trace w' = w_trace w -> w_uwsgi w' = w_uwsgi w -> slots w' = slots w ->
  evolves Q i w w'.
Proof.
  intros Ht Hu Hs. exists []. rewrite app_nil_r.
  repeat split; [exact Ht | exact Hu | congruence |].
  intros urio H. exists urio. rewrite Hs. split; [exact H|].
  intros Hr. rewrite armings_nil, Z.add_0_r. symmetry. apply u64_small. exact Hr.
Qed.

(** A step that adds one event that is no arming of the slot. *)
Lemma evolves_event w w' e :
  w_trace w' = w_trace w ++ [e] -> w_uwsgi w' = w_uwsgi w -> slots w' = slots w ->
  Q e = true -> is_arming i e = false -> evolves Q i w w'.
Proof.
  intros Ht Hu Hs Hq Ha. exists [e]. repeat split; [exact Ht | | exact Hu | congruence |].
  - simpl. rewrite Hq. reflexivity.
  - intros urio H. exists urio. rewrite Hs. split; [exact H|].
    intros Hr. unfold armings. simpl. rewrite Ha. simpl.
    rewrite Z.add_0_r. symmetry. apply u64_small. exact Hr.
Qed.

Lemma preserves_ret {A} (a : A) : preserves Q i (ret a).
Proof. intros w r w' H. inversion H; subst. apply evolves_refl. Qed.

Lemma preserves_abort {A} f : preserves Q i (@abort A f).
Proof. intros w r w' H. inversion H; subst. apply evolves_refl. Qed.

Lemma preserves_exit {A} c : preserves Q i (@exit A c).
Proof. intros w r w' H. inversion H; subst. apply evolves_refl. Qed.

Lemma preserves_gets {A} (f : world -> A) : preserves Q i (gets f).
Proof. intros w r w' H. inversion H; subst. apply evolves_refl. Qed.

Lemma preserves_bind {A B} (m : M A) (k : A -> M B) :
  preserves Q i m -> (forall a, preserves Q i (k a)) -> preserves Q i (bind m k).
Proof.
  intros Hm Hk w r w' H.
  destruct (bind_inv _ _ _ _ _ H) as [(a & w1 & H1 & H2) | [(f & H1 & _) | (c & H1 & _)]].
  - eapply evolves_trans; [eapply Hm; exact H1 | eapply Hk; exact H2].
  - eapply Hm; exact H1.
  - eapply Hm; exact H1.
Qed.

Lemma preserves_ask : preserves Q i ask.
Proof. intros w r w' H. inversion H; subst. apply evolves_frame; reflexivity. Qed.

Lemma preserves_fresh : preserves Q i fresh.
Proof. intros w r w' H. inversion H; subst. apply evolves_frame; reflexivity. Qed.

Lemma preserves_set_heap f : preserves Q i (modify (set_heap f)).
Proof. intros w r w' H. inversion H; subst. apply evolves_frame; reflexivity. Qed.

Lemma preserves_set_fdtab f : preserves Q i (modify (set_fdtab f)).
Proof. intros w r w' H. inversion H; subst. apply evolves_frame; reflexivity. Qed.

Lemma preserves_set_pools f : preserves Q i (modify (set_pools f)).
Proof. intros w r w' H. inversion H; subst. apply evolves_frame; reflexivity. Qed.

Lemma preserves_set_comps f : preserves Q i (modify (set_comps f)).
Proof. intros w r w' H. inversion H; subst. apply evolves_frame; reflexivity. Qed.

Lemma preserves_set_inflight f : preserves Q i (modify (set_inflight f)).
Proof. intros w r w' H. inversion H; subst. apply evolves_frame; reflexivity. Qed.

Lemma preserves_set_body f : preserves Q i (modify (set_body f)).
Proof. intros w r w' H. inversion H; subst. apply evolves_frame; reflexivity. Qed.

Lemma preserves_emit e : Q e = true -> is_arming i e = false -> preserves Q i (emit e).
Proof.
  intros Hq Ha w r w' H. inversion H; subst.
  apply evolves_event with (e := e);
    [reflexivity | reflexivity | reflexivity | exact Hq | exact Ha].
Qed.

Lemma preserves_load_urio j : preserves Q i (load_urio j).
Proof.
  intros w r w' H. unfold load_urio, bind, gets in H.
  destruct (at_index _ j); inversion H; subst; apply evolves_refl.
Qed.

Lemma preserves_load_urcb p : preserves Q i (load_urcb p).
Proof.
  intros w r w' H. unfold load_urcb, bind, gets in H.
  destruct p as [a|]; [destruct (w_heap w !! a)|]; inversion H; subst; apply evolves_refl.
Qed.

Lemma preserves_load_completion c : preserves Q i (load_completion c).
Proof.
  intros w r w' H. unfold load_completion, bind, gets in H.
  destruct (w_comps w !! c); inversion H; subst; apply evolves_refl.
Qed.
End Evolution.

(** ** What the bridge and the environment emit

    With [Q] any property that holds of the background events. *)

Section Background.
Variable Q : event -> bool.
Variable i : Z.
Hypothesis HQ : forall e, is_background e = true -> Q e = true.

Lemma evolves_update w w' evs j u u' :
  w_trace w' = w_trace w ++ evs ->
  forallb Q evs = true ->
  w_uwsgi w' = w_uwsgi w ->
  at_index (slots w) j = Some u ->
  slots w' = <[Z.to_nat j := u']> (slots w) ->
  (j = i -> 0 <= urio_rid u < 2 ^ 64 -> urio_rid u' = u64 (urio_rid u + armings i evs)) ->
  (j <> i -> armings i evs = 0) ->
  evolves Q i w w'.
Proof.
  intros Ht Hq Hu Hj Hs Hrid Hother. exists evs.
  repeat split; [exact Ht | exact Hq | exact Hu | |].
  - rewrite Hs. apply length_insert.
  - intros urio Hi. rewrite Hs. destruct (Z.eq_dec j i) as [->|Hne].
    + exists u'. split; [eapply at_index_insert_eq; exact Hi|].
      rewrite Hi in Hj. inversion Hj; subst. apply Hrid. reflexivity.
    + exists urio. split.
      * rewrite at_index_insert_ne; [exact Hi | eapply at_index_nonneg; exact Hj | exact Hne].
      * intros Hr. rewrite (Hother Hne), Z.add_0_r. symmetry. apply u64_small. exact Hr.
Qed.

Create HintDb pres.

Ltac pres_side :=
  first [ reflexivity | apply HQ; reflexivity | eassumption | solve [eauto] ].

Ltac pres_step :=
  lazymatch goal with
  | |- preserves _ _ (bind _ _) => apply preserves_bind; [ | intros ? ]
  | |- preserves _ _ (ret _) => apply preserves_ret
  | |- preserves _ _ (abort _) => apply preserves_abort
  | |- preserves _ _ (exit _) => apply preserves_exit
  | |- preserves _ _ (gets _) => apply preserves_gets
  | |- preserves _ _ ask => apply preserves_ask
  | |- preserves _ _ fresh => apply preserves_fresh
  | |- preserves _ _ (emit _) => apply preserves_emit; pres_side
  | |- preserves _ _ (modify (set_heap _)) => apply preserves_set_heap
  | |- preserves _ _ (modify (set_fdtab _)) => apply preserves_set_fdtab
  | |- preserves _ _ (modify (set_pools _)) => apply preserves_set_pools
  | |- preserves _ _ (modify (set_comps _)) => apply preserves_set_comps
  | |- preserves _ _ (modify (set_inflight _)) => apply preserves_set_inflight
  | |- preserves _ _ (modify (set_body _)) => apply preserves_set_body
  | |- preserves _ _ (load_urio _) => apply preserves_load_urio
  | |- preserves _ _ (load_urcb _) => apply preserves_load_urcb
  | |- preserves _ _ (load_completion _) => apply preserves_load_completion
  | |- preserves _ _ (if ?b then _ else _) => destruct b
  | |- preserves _ _ (match ?x with _ => _ end) => destruct x
  | |- preserves _ _ _ => solve [ eauto with pres ]
  end.

Ltac pres := cbv zeta; repeat (pres_step; cbv zeta).

Lemma preserves_uwsgi_log s : preserves Q i (uwsgi_log s).
Proof. unfold uwsgi_log. pres. Qed.

Lemma preserves_uwsgi_error s : preserves Q i (uwsgi_error s).
Proof. unfold uwsgi_error. pres. Qed.

Lemma preserves_lock j : preserves Q i (pthread_mutex_lock j).
Proof. unfold pthread_mutex_lock. pres. Qed.

Lemma preserves_unlock j : preserves Q i (pthread_mutex_unlock j).
Proof. unfold pthread_mutex_unlock. pres. Qed.

Lemma preserves_malloc : preserves Q i uwsgi_malloc.
Proof. unfold uwsgi_malloc. pres. Qed.

Lemma preserves_free p : preserves Q i (free p).
Proof. unfold free. pres. Qed.

Lemma preserves_store_urcb p u : preserves Q i (store_urcb p u).
Proof. unfold store_urcb. pres. Qed.

Lemma preserves_close fd : preserves Q i (close fd).
Proof. unfold close. pres. Qed.

Lemma preserves_write fd : preserves Q i (write fd).
Proof. unfold write. pres. Qed.

Lemma preserves_read fd : preserves Q i (read fd).
Proof. unfold read. pres. Qed.

Lemma preserves_store_stat ctx key : preserves Q i (store_stat ctx key).
Proof. unfold store_stat. pres. Qed.

Lemma preserves_store_remove ctx key : preserves Q i (store_remove ctx key).
Proof. unfold store_remove. pres. Qed.

Lemma preserves_store_write_full ctx key buf : preserves Q i (store_write_full ctx key buf).
Proof. unfold store_write_full. pres. Qed.

Lemma preserves_store_read ctx key n off : preserves Q i (store_read ctx key n off).
Proof. unfold store_read. pres. Qed.

Hint Resolve preserves_uwsgi_log preserves_uwsgi_error preserves_lock preserves_unlock
  preserves_malloc preserves_free preserves_store_urcb preserves_close preserves_write
  preserves_read preserves_store_stat preserves_store_remove preserves_store_write_full
  preserves_store_read : pres.

Lemma preserves_run_op op : preserves Q i (run_op op).
Proof. unfold run_op. pres. Qed.

Lemma preserves_aio_is_safe c : preserves Q i (rados_aio_is_safe_and_cb c).
Proof. unfold rados_aio_is_safe_and_cb. pres. Qed.

Lemma preserves_aio_get_return_value c : preserves Q i (rados_aio_get_return_value c).
Proof. unfold rados_aio_get_return_value. pres. Qed.

Lemma preserves_aio_release c : preserves Q i (rados_aio_release c).
Proof. unfold rados_aio_release. pres. Qed.

Lemma preserves_async_cb c d : preserves Q i (uwsgi_rados_async_cb c d).
Proof. unfold uwsgi_rados_async_cb. pres. Qed.

Hint Resolve preserves_run_op preserves_aio_is_safe preserves_aio_get_return_value
  preserves_aio_release preserves_async_cb : pres.

Lemma preserves_deliver c : preserves Q i (deliver c).
Proof. unfold deliver. pres. Qed.

Hint Resolve preserves_deliver : pres.

Lemma preserves_deliver_list l : preserves Q i (deliver_list l).
Proof. induction l as [|c l IH]; simpl; pres. Qed.

Hint Resolve preserves_deliver_list : pres.

Lemma preserves_wait_read_hook fd t : preserves Q i (wait_read_hook fd t).
Proof. unfold wait_read_hook. pres. Qed.

Lemma preserves_urcb_urio_comp p : preserves Q i (urcb_urio_comp p).
Proof. unfold urcb_urio_comp. pres. Qed.

Hint Resolve preserves_wait_read_hook preserves_urcb_urio_comp : pres.

Lemma preserves_wait_completion r p t : preserves Q i (uwsgi_rados_wait_completion r p t).
Proof. unfold uwsgi_rados_wait_completion. pres. Qed.


Ltac arm_cases :=
  unfold armings; simpl;
  repeat match goal with
         | |- context [?a =? ?b] =>
             first [ rewrite Z.eqb_refl
                   | let E := fresh in
                     destruct (a =? b) eqn:E; [apply Z.eqb_eq in E; congruence|] ]
         end;
  simpl; reflexivity.

Lemma preserves_pipe j : preserves Q i (pipe j).
Proof.
  intros w r w' H. unfold pipe, bind, ask in H. simpl in H.
  destruct (forced_error (hd None (w_tape w))).
  { inversion H; subst. apply evolves_frame; reflexivity. }
  unfold load_urio, bind, gets in H. simpl in H.
  destruct (at_index (urados_urio (w_urados w)) j) as [u|] eqn:Hj.
  2:{ inversion H; subst. apply evolves_frame; reflexivity. }
  simpl in H. inversion H; subst. clear H.
  eapply evolves_update with (j := j) (u := u);
    [ simpl; reflexivity
    | simpl; rewrite ?HQ by reflexivity; reflexivity
    | reflexivity
    | exact Hj
    | simpl; reflexivity
    | intros _ Hr; unfold armings; simpl; rewrite Z.add_0_r; symmetry;
      apply u64_small; exact Hr
    | intros _; reflexivity ].
Qed.

Ltac exec_in H :=
  cbv beta iota zeta delta
    [bind ret gets modify emit ask fresh abort exit load_urio store_urio load_urcb
     store_urcb uwsgi_malloc free pthread_mutex_lock pthread_mutex_unlock
     uwsgi_log uwsgi_error rados_aio_create_completion
     uwsgi_rados_set_completion] in H;
  rewrite set_completion_rid_run in H;
  simpl in H.

Lemma preserves_set_completion j : preserves Q i (uwsgi_rados_set_completion j).
Proof.
  intros w r w' H. exec_in H.
  destruct (at_index (urados_urio (w_urados w)) j) as [u|] eqn:Hj.
  2:{ inversion H; subst.
      eapply evolves_event;
        [reflexivity | reflexivity | reflexivity | apply HQ; reflexivity | reflexivity]. }
  simpl in H.
  rewrite (at_index_insert_eq _ _ _ _ Hj) in H. simpl in H.
  destruct (forced_error (hd None (w_tape w))) eqn:Hf; simpl in H.
  - destruct (z <? 0); inversion H; subst; clear H;
      (eapply evolves_update with (j := j) (u := u);
        [ simpl; rewrite <- ?app_assoc; simpl; reflexivity
        | simpl; rewrite ?HQ by reflexivity; reflexivity
        | reflexivity
        | exact Hj
        | unfold slots; simpl; reflexivity
        | intros -> Hr; arm_cases
        | intros Hne; arm_cases ]).
  - rewrite (at_index_insert_eq _ _ _ _ Hj) in H. simpl in H.
    inversion H; subst; clear H.
    eapply evolves_update with (j := j) (u := u);
        [ simpl; rewrite <- ?app_assoc; simpl; reflexivity
        | simpl; rewrite ?HQ by reflexivity; reflexivity
        | reflexivity
        | exact Hj
        | unfold slots; simpl; rewrite list_insert_insert_eq; reflexivity
        | intros -> Hr; arm_cases
        | intros Hne; arm_cases ].
Qed.


Hint Resolve preserves_pipe preserves_set_completion preserves_wait_completion : pres.

Lemma preserves_aio_submit call op c :
  Q (EvRados call) = true -> is_arming i (EvRados call) = false ->
  preserves Q i (aio_submit call op c).
Proof. intros H1 H2. unfold aio_submit. pres. Qed.

Lemma preserves_rados_stat ctx key :
  Q (EvRados (RStat ctx key)) = true -> preserves Q i (rados_stat ctx key).
Proof. intros H1. unfold rados_stat. pres. Qed.

Lemma preserves_async_stat id ctx key t :
  (forall c, Q (EvRados (RAioStat ctx key c)) = true) ->
  preserves Q i (uwsgi_rados_async_stat id ctx key t).
Proof.
  intros H1. unfold uwsgi_rados_async_stat, rados_aio_stat. pres.
  apply preserves_aio_submit; [apply H1 | reflexivity].
Qed.

Lemma preserves_request_stat req ctx key t :
  Q (EvRados (RStat ctx key)) = true ->
  (forall c, Q (EvRados (RAioStat ctx key c)) = true) ->
  preserves Q i (uwsgi_rados_request_stat req ctx key t).
Proof.
  intros H1 H2. unfold uwsgi_rados_request_stat. pres.
  - apply preserves_async_stat. exact H2.
  - apply preserves_rados_stat. exact H1.
Qed.

Lemma preserves_response_call c :
  Q (EvResp c) = true -> preserves Q i (response_call c).
Proof. intros H1. unfold response_call. pres. Qed.

Lemma preserves_buffer_append ub s : preserves Q i (uwsgi_buffer_append ub s).
Proof. unfold uwsgi_buffer_append. pres. Qed.

Hint Resolve preserves_response_call preserves_buffer_append : pres.

Lemma preserves_request_options urmp :
  (forall c, Q (EvResp c) = true) -> preserves Q i (uwsgi_rados_request_options urmp).
Proof.
  intros H1. unfold uwsgi_rados_request_options, uwsgi_response_prepare_headers,
    uwsgi_response_add_header. pres.
Qed.

Lemma preserves_request_end req : preserves Q i (uwsgi_rados_request_end req).
Proof. unfold uwsgi_rados_request_end. pres. Qed.

Lemma preserves_rados_remove ctx key :
  Q (EvRados (RRemove ctx key)) = true -> preserves Q i (rados_remove ctx key).
Proof. intros H1. unfold rados_remove. pres. Qed.

Lemma preserves_delete req ctx key t :
  Q (EvRados (RRemove ctx key)) = true ->
  (forall c, Q (EvRados (RAioRemove ctx key c)) = true) ->
  preserves Q i (uwsgi_rados_delete req ctx key t).
Proof.
  intros H1 H2. unfold uwsgi_rados_delete, rados_aio_remove. pres.
  - apply preserves_rados_remove. exact H1.
  - apply preserves_aio_submit; [apply H2 | reflexivity].
Qed.
End Background.

(** ** Every run of the plugin

    Without a restriction on the events, every function of the plugin evolves
    the world; the proofs follow the structure of the code. *)

Section Whole.
Variable i : Z.

Lemma any_event_background : forall e, is_background e = true -> any_event e = true.
Proof. reflexivity. Qed.

Ltac use L := first [ apply (L any_event i any_event_background) | apply L ].

Ltac pres_side := reflexivity.

Ltac pres_step :=
  lazymatch goal with
  | |- preserves _ _ (bind _ _) => apply preserves_bind; [ | intros ? ]
  | |- preserves _ _ (ret _) => apply preserves_ret
  | |- preserves _ _ (abort _) => apply preserves_abort
  | |- preserves _ _ (exit _) => apply preserves_exit
  | |- preserves _ _ (gets _) => apply preserves_gets
  | |- preserves _ _ ask => apply preserves_ask
  | |- preserves _ _ fresh => apply preserves_fresh
  | |- preserves _ _ (emit _) => apply preserves_emit; pres_side
  | |- preserves _ _ (modify (set_heap _)) => apply preserves_set_heap
  | |- preserves _ _ (modify (set_fdtab _)) => apply preserves_set_fdtab
  | |- preserves _ _ (modify (set_pools _)) => apply preserves_set_pools
  | |- preserves _ _ (modify (set_comps _)) => apply preserves_set_comps
  | |- preserves _ _ (modify (set_inflight _)) => apply preserves_set_inflight
  | |- preserves _ _ (modify (set_body _)) => apply preserves_set_body
  | |- preserves _ _ (load_urio _) => apply preserves_load_urio
  | |- preserves _ _ (load_urcb _) => apply preserves_load_urcb
  | |- preserves _ _ (load_completion _) => apply preserves_load_completion
  | |- preserves _ _ (uwsgi_log _) => use preserves_uwsgi_log
  | |- preserves _ _ (uwsgi_error _) => use preserves_uwsgi_error
  | |- preserves _ _ (close _) => use preserves_close
  | |- preserves _ _ (pipe _) => use preserves_pipe
  | |- preserves _ _ (store_stat _ _) => use preserves_store_stat
  | |- preserves _ _ (store_remove _ _) => use preserves_store_remove
  | |- preserves _ _ (store_write_full _ _ _) => use preserves_store_write_full
  | |- preserves _ _ (store_read _ _ _ _) => use preserves_store_read
  | |- preserves _ _ (uwsgi_rados_set_completion _) =>
      use preserves_set_completion
  | |- preserves _ _ (uwsgi_rados_wait_completion _ _ _) =>
      use preserves_wait_completion
  | |- preserves _ _ (urcb_urio_comp _) => use preserves_urcb_urio_comp
  | |- preserves _ _ (aio_submit _ _ _) =>
      use preserves_aio_submit; reflexivity
  | |- preserves _ _ (if ?b then _ else _) => destruct b
  | |- preserves _ _ (match ?x with _ => _ end) => destruct x
  | |- preserves _ _ _ => solve [ eauto with pres ]
  end.

Ltac pres := cbv zeta; repeat (pres_step; cbv zeta).

Create HintDb pres.

Lemma all_rados_remove ctx key : preserves any_event i (rados_remove ctx key).
Proof. unfold rados_remove. pres. Qed.

Lemma all_rados_stat ctx key : preserves any_event i (rados_stat ctx key).
Proof. unfold rados_stat. pres. Qed.

Lemma all_rados_write_full ctx key buf n : preserves any_event i (rados_write_full ctx key buf n).
Proof. unfold rados_write_full. pres. Qed.

Lemma all_rados_read ctx key n off : preserves any_event i (rados_read ctx key n off).
Proof. unfold rados_read. pres. Qed.

Lemma all_rados_pool_create c n : preserves any_event i (rados_pool_create c n).
Proof. unfold rados_pool_create. pres. Qed.

Lemma all_list_open ctx : preserves any_event i (rados_objects_list_open ctx).
Proof. unfold rados_objects_list_open. pres. Qed.

Lemma all_list_next l : preserves any_event i (rados_objects_list_next l).
Proof. unfold rados_objects_list_next. pres. Qed.

Lemma all_list_close : preserves any_event i rados_objects_list_close.
Proof. unfold rados_objects_list_close. pres. Qed.

Lemma all_response_call c : preserves any_event i (response_call c).
Proof. unfold response_call. pres. Qed.

Lemma all_buffer_append ub s : preserves any_event i (uwsgi_buffer_append ub s).
Proof. unfold uwsgi_buffer_append. pres. Qed.

Lemma all_multistatus_new : preserves any_event i uwsgi_webdav_multistatus_new.
Proof. unfold uwsgi_webdav_multistatus_new. pres. Qed.

Lemma all_item_add ub h s m mi : preserves any_event i (uwsgi_webdav_propfind_item_add ub h s m mi).
Proof. unfold uwsgi_webdav_propfind_item_add. pres. Qed.

Lemma all_multistatus_close ub : preserves any_event i (uwsgi_webdav_multistatus_close ub).
Proof. unfold uwsgi_webdav_multistatus_close. pres. Qed.

Lemma all_body_read hint : preserves any_event i (uwsgi_request_body_read hint).
Proof. unfold uwsgi_request_body_read. pres. Qed.

Hint Resolve all_rados_remove all_rados_stat all_rados_write_full all_rados_read
  all_rados_pool_create all_list_open all_list_next all_list_close all_response_call
  all_buffer_append all_multistatus_new all_item_add all_multistatus_close
  all_body_read : pres.

Lemma all_delete req ctx key t : preserves any_event i (uwsgi_rados_delete req ctx key t).
Proof. unfold uwsgi_rados_delete, rados_aio_remove. pres. Qed.

Lemma all_put_loop fuel req ctx key t remains off :
  preserves any_event i (uwsgi_rados_put_loop fuel req ctx key t remains off).
Proof.
  revert remains off. induction fuel as [|fuel IH]; intros remains off; simpl;
    unfold rados_aio_write_full; pres.
Qed.

Lemma all_put req ctx key t : preserves any_event i (uwsgi_rados_put req ctx key t).
Proof. unfold uwsgi_rados_put. apply all_put_loop. Qed.

Lemma all_async_stat id ctx key t : preserves any_event i (uwsgi_rados_async_stat id ctx key t).
Proof. unfold uwsgi_rados_async_stat, rados_aio_stat. pres. Qed.

Lemma all_read_sync fuel ctx key remains off :
  preserves any_event i (uwsgi_rados_read_sync fuel ctx key remains off).
Proof.
  revert remains off. induction fuel as [|fuel IH]; intros remains off; simpl;
    unfold uwsgi_response_write_body_do; pres.
Qed.

Lemma all_read_async fuel req ctx key t remains off :
  preserves any_event i (uwsgi_rados_read_async fuel req ctx key t remains off).
Proof.
  revert remains off. induction fuel as [|fuel IH]; intros remains off; simpl;
    unfold uwsgi_response_write_body_do, rados_aio_read; pres.
Qed.

Hint Resolve all_delete all_put all_async_stat all_read_sync all_read_async : pres.

Lemma all_read req ctx key remains t : preserves any_event i (uwsgi_rados_read req ctx key remains t).
Proof. unfold uwsgi_rados_read. pres. Qed.

Lemma all_propfind_body fuel remains : preserves any_event i (uwsgi_rados_propfind_body fuel remains).
Proof. revert remains. induction fuel as [|fuel IH]; intros remains; simpl; pres. Qed.

Lemma all_propfind_list fuel req ctx t l ub :
  preserves any_event i (uwsgi_rados_propfind_list fuel req ctx t l ub).
Proof.
  revert l ub. induction fuel as [|fuel IH]; intros l ub; simpl;
    unfold uwsgi_response_write_xml_do; pres.
Qed.

Hint Resolve all_read all_propfind_body all_propfind_list : pres.

Lemma all_propfind req ctx key s m t : preserves any_event i (uwsgi_rados_propfind req ctx key s m t).
Proof.
  unfold uwsgi_rados_propfind, uwsgi_response_prepare_headers, uwsgi_response_add_content_type,
    uwsgi_response_write_xml_do. pres.
Qed.

Hint Resolve all_propfind : pres.

Lemma all_request_options urmp : preserves any_event i (uwsgi_rados_request_options urmp).
Proof.
  unfold uwsgi_rados_request_options, uwsgi_response_prepare_headers, uwsgi_response_add_header.
  pres.
Qed.

Lemma all_request_stat req ctx key t : preserves any_event i (uwsgi_rados_request_stat req ctx key t).
Proof. unfold uwsgi_rados_request_stat. pres. Qed.

Lemma all_request_after_stat req ctx urmp key t st :
  preserves any_event i (uwsgi_rados_request_after_stat req ctx urmp key t st).
Proof.
  unfold uwsgi_rados_request_after_stat, uwsgi_response_prepare_headers,
    uwsgi_response_add_header, uwsgi_response_write_headers_do,
    uwsgi_response_add_content_type, uwsgi_response_add_last_modified,
    uwsgi_response_add_content_length, uwsgi_403, uwsgi_404, uwsgi_405, uwsgi_500.
  pres.
Qed.

Hint Resolve all_request_options all_request_stat all_request_after_stat : pres.

Lemma all_request_methods req ctx urmp key t :
  preserves any_event i (uwsgi_rados_request_methods req ctx urmp key t).
Proof.
  unfold uwsgi_rados_request_methods, uwsgi_response_prepare_headers, uwsgi_405, uwsgi_500.
  pres.
Qed.

Lemma all_request_end req : preserves any_event i (uwsgi_rados_request_end req).
Proof. unfold uwsgi_rados_request_end. pres. Qed.

Lemma all_request_app_id req : preserves any_event i (uwsgi_rados_request_app_id req).
Proof. unfold uwsgi_rados_request_app_id. pres. Qed.

Lemma all_request_ctx th ua id : preserves any_event i (uwsgi_rados_request_ctx th ua id).
Proof. unfold uwsgi_rados_request_ctx. pres. Qed.

Hint Resolve all_request_methods all_request_end all_request_app_id all_request_ctx : pres.

Lemma all_request req : preserves any_event i (uwsgi_rados_request req).
Proof. unfold uwsgi_rados_request, uwsgi_403, uwsgi_404, uwsgi_500. pres. Qed.

Lemma all_deliver c : preserves any_event i (deliver c).
Proof. use preserves_deliver. Qed.

Lemma all_rados_setup_call c :
  is_arming i (EvRados c) = false -> preserves any_event i (rados_setup_call c).
Proof.
  intros Hc. unfold rados_setup_call.
  apply preserves_bind; [apply preserves_emit; [reflexivity | exact Hc] | intros ?]. pres.
Qed.

Lemma all_rados_ioctx_create c p : preserves any_event i (rados_ioctx_create c p).
Proof. unfold rados_ioctx_create. pres. Qed.

Lemma all_rados_shutdown c : preserves any_event i (rados_shutdown c).
Proof. unfold rados_shutdown. pres. Qed.

Hint Resolve all_rados_ioctx_create all_rados_shutdown : pres.

Lemma all_add_mountpoint_ctxes n c p :
  preserves any_event i (uwsgi_rados_add_mountpoint_ctxes n c p).
Proof. induction n as [|n IH]; simpl; pres. Qed.
End Whole.

(** ** The request handler, from its entry to the method dispatch *)

Lemma events_since_app w w' evs :
  w_trace w' = w_trace w ++ evs -> events_since w w' = evs.
Proof. intros H. unfold events_since. rewrite H. apply drop_app_length. Qed.

(** What a pipe that succeeds leaves. *)
Lemma pipe_ok j w w0 :
  pipe j w = (Ret 0, w0) ->
  exists u,
    at_index (slots w) j = Some u /\
    w0 = set_trace (fun t => t ++ [EvPipe (w_next w) (w_next w + 1)])
           (set_urados (set_urio (fun l =>
              <[Z.to_nat j := mk_urio (w_next w, w_next w + 1) (urio_rid u) (urio_comp u)]> l))
           (set_fdtab (fun t =>
              <[w_next w + 1 := PipeWrite (w_next w)]> (<[w_next w := PipeRead 0]> t))
           (set_next (fun n => n + 1) (set_next (fun n => n + 1)
           (set_tape (fun t => tl t) w))))).
Proof.
  unfold pipe, bind, ask. simpl.
  destruct (forced_error (hd None (w_tape w))) as [e|] eqn:Hf.
  { intros H. inversion H; subst. unfold forced_error in Hf.
    destruct (hd None (w_tape w)) as [e|]; [|discriminate].
    destruct (e <? 0) eqn:E; [|discriminate]. inversion Hf; subst. discriminate. }
  unfold load_urio, bind, gets. simpl. unfold slots.
  destruct (at_index (urados_urio (w_urados w)) j) as [u|]; [|discriminate].
  simpl. intros H. inversion H; subst. exists u. split; reflexivity.
Qed.

(** A dispatched request is the method dispatch followed by the end block. *)
Lemma request_dispatched req w ua ctx w0 :
  dispatched req w ua ctx w0 ->
  uwsgi_rados_request req w =
    bind (uwsgi_rados_request_methods req ctx (ua_responder1 ua) (filename_of req ua)
            (uwsgi_rados_request_timeout (ua_responder1 ua) w0))
         (fun fl => match fl with
                    | GotoEnd => uwsgi_rados_request_end req
                    | Return r => ret r
                    end) w0.
Proof.
  intros [Hlen Hvars Hmin Hmax (app_id & Happ & Hne & Hua) Hctx Hpipe].
  unfold uwsgi_rados_request.
  apply Z.eqb_neq in Hlen. rewrite Hlen, Hvars. simpl.
  apply Nat.eqb_neq in Hmin. rewrite Hmin.
  assert (Hgt : (Z.of_nat (String.length (path_info req)) >? PATH_MAX) = false).
  { rewrite Z.gtb_ltb. apply Z.ltb_ge. exact Hmax. }
  rewrite Hgt. simpl.
  unfold bind at 1. unfold gets at 1.
  rewrite (bind_run _ _ _ _ _ Happ).
  apply Z.eqb_neq in Hne. rewrite Hne, Hua.
  rewrite (bind_run _ _ _ _ _ Hctx).
  destruct (uwsgi_async (w_uwsgi w) >? 0).
  - rewrite (bind_run _ _ _ _ _ Hpipe). reflexivity.
  - subst w0. reflexivity.
Qed.

(** ** The I/O contexts of a mount *)

(** A context that is created is new: its handle is the next fresh
    identifier. *)
Lemma rados_ioctx_create_ok cluster pool w r ctx w' :
  rados_ioctx_create cluster pool w = (Ret (r, ctx), w') ->
  (r <? 0) = false ->
  ioctx_id ctx = w_next w /\ w_next w' = w_next w + 1.
Proof.
  unfold rados_ioctx_create, bind, emit, modify, ask, gets, fresh, ret. simpl.
  destruct (forced_error (hd None (w_tape w))) as [e|] eqn:Hf.
  { intros H Hr. inversion H; subst. unfold forced_error in Hf.
    destruct (hd None (w_tape w)) as [e'|]; [|discriminate].
    destruct (e' <? 0) eqn:E; [|discriminate]. congruence. }
  intros H Hr.
  match type of H with context [match ?x with _ => _ end] => destruct x end;
    inversion H; subst.
  - split; reflexivity.
  - discriminate.
Qed.

(** The contexts of the array are created one after the other: there are as
    many as asked for, and their handles are fresh and increasing. *)
Lemma add_mountpoint_ctxes_ok n cluster pool : forall w ctxes w',
  uwsgi_rados_add_mountpoint_ctxes n cluster pool w = (Ret ctxes, w') ->
  length ctxes = n /\
  w_next w <= w_next w' /\
  Forall (fun ctx => w_next w <= ioctx_id ctx < w_next w') ctxes /\
  NoDup ctxes.
Proof.
  induction n as [|n IH]; intros w ctxes w' H; simpl in H.
  - inversion H; subst. repeat split; [lia | constructor | constructor].
  - apply bind_ret_inv in H. destruct H as ([r ctx] & w1 & Hc & H). simpl in H.
    destruct (r <? 0) eqn:Hr.
    + apply bind_ret_inv in H. destruct H as (? & ? & _ & H).
      apply bind_ret_inv in H. destruct H as (? & ? & _ & H). discriminate.
    + apply bind_ret_inv in H. destruct H as (rest & w2 & Hrest & H).
      inversion H; subst. clear H.
      destruct (rados_ioctx_create_ok _ _ _ _ _ _ Hc Hr) as [Hid Hn].
      destruct (IH _ _ _ Hrest) as (Hlen & Hle & Hall & Hnd).
      repeat split.
      * simpl. rewrite Hlen. reflexivity.
      * lia.
      * constructor; [lia|]. eapply Forall_impl; [exact Hall|]. simpl. intros c Hc'. lia.
      * constructor; [|exact Hnd]. intros Hin.
        rewrite Forall_forall in Hall. specialize (Hall _ Hin). lia.
Qed.

(** The context the dispatcher takes in multithread mode is the element of the
    array at the index async_id. *)
Lemma request_ctx_array threads ua ctxes id w :
  threads > 1 -> ua_responder0 ua = CtxArray ctxes ->
  uwsgi_rados_request_ctx threads ua id w =
    match at_index ctxes id with
    | Some ctx => (Ret ctx, w)
    | None => (Abort OutOfBounds, w)
    end.
Proof.
  intros Ht Hr. unfold uwsgi_rados_request_ctx.
  assert (E : (threads >? 1) = true) by (apply Z.gtb_lt; lia).
  rewrite E, Hr. destruct (at_index ctxes id); reflexivity.
Qed.

Lemma at_index_Some {A} (l : list A) id :
  0 <= id < Z.of_nat (length l) -> exists x, at_index l id = Some x.
Proof.
  intros H. unfold at_index.
  assert (E : (id <? 0) = false) by (apply Z.ltb_ge; lia). rewrite E.
  apply lookup_lt_is_Some_2. lia.
Qed.

Lemma at_index_NoDup {A} (l : list A) i j x :
  NoDup l -> at_index l i = Some x -> at_index l j = Some x -> i = j.
Proof.
  unfold at_index. intros Hnd.
  destruct (i <? 0) eqn:Hi; [discriminate|]. destruct (j <? 0) eqn:Hj; [discriminate|].
  intros H1 H2. apply Z.ltb_ge in Hi, Hj.
  assert (Z.to_nat i = Z.to_nat j) by (eapply NoDup_lookup; eauto). lia.
Qed.

Lemma preserves_uwsgi Q i {A} (m : M A) w r w' :
  preserves Q i m -> m w = (r, w') -> w_uwsgi w' = w_uwsgi w.
Proof. intros Hp H. destruct (Hp _ _ _ H) as (evs & _ & _ & Hu & _). exact Hu. Qed.

Ltac inv_run H :=
  repeat first
    [ match type of H with
      | bind _ _ _ = (Ret _, _) =>
          let a := fresh "a" in let w1 := fresh "w" in let H1 := fresh "Hstep" in
          apply bind_ret_inv in H; destruct H as (a & w1 & H1 & H)
      | (if ?c then _ else _) _ = _ => let E := fresh "E" in destruct c eqn:E
      | (match ?x with _ => _ end) _ = _ => let E := fresh "E" in destruct x eqn:E
      | exit _ _ = (Ret _, _) => discriminate H
      end ].

Lemma gets_inv {A} (f : world -> A) w a w' :
  gets f w = (Ret a, w') -> a = f w /\ w' = w.
Proof. intros H. inversion H; subst. split; reflexivity. Qed.

Lemma modify_inv (f : world -> world) w a w' :
  modify f w = (Ret a, w') -> w' = f w.
Proof. intros H. inversion H; subst. reflexivity. Qed.

Ltac frame_steps :=
  repeat match goal with
  | Hs : gets _ _ = (Ret _, _) |- _ =>
      apply gets_inv in Hs; let Hv := fresh "Hval" in let Hw := fresh "Hw" in
      destruct Hs as [Hv Hw]
  | Hs : ?m ?w1 = (Ret _, ?w2) |- _ =>
      lazymatch goal with
      | _ : w_uwsgi w2 = w_uwsgi w1 |- _ => fail
      | _ =>
          assert (w_uwsgi w2 = w_uwsgi w1)
            by (eapply (preserves_uwsgi any_event 0); [|exact Hs];
                first [ apply (all_rados_setup_call 0); reflexivity
                      | apply preserves_fresh
                      | apply preserves_ask
                      | apply (preserves_uwsgi_log any_event 0 any_event_background) ])
      end
  end.

Lemma add_mountpoint_threads arg w w' :
  uwsgi_threads (w_uwsgi w) > 1 ->
  uwsgi_rados_add_mountpoint arg w = (Ret tt, w') ->
  exists ua ctxes,
    uwsgi_apps (w_uwsgi w') = uwsgi_apps (w_uwsgi w) ++ [ua] /\
    uwsgi_threads (w_uwsgi w') = uwsgi_threads (w_uwsgi w) /\
    ua_responder0 ua = CtxArray ctxes /\
    length ctxes = Z.to_nat (uwsgi_threads (w_uwsgi w)) /\
    NoDup ctxes.
Proof.
  intros Ht H. unfold uwsgi_rados_add_mountpoint in H.
  inv_run H.
  match goal with
  | Hs : (if ?t >? 1 then _ else _) ?wa = (Ret ?c, ?wb) |- _ =>
      rename Hs into Hctx; rename t into threads; rename wa into w_loop;
      rename wb into w_done
  end.
  match goal with
  | Hs : modify _ ?wa = (Ret _, ?wb) |- _ =>
      rename Hs into Hmod; rename wa into w_app; rename wb into w_reg
  end.
  frame_steps.
  assert (Hthr : threads = uwsgi_threads (w_uwsgi w)) by congruence.
  assert (Hgt : (threads >? 1) = true) by (rewrite Hthr; apply Z.gtb_lt; lia).
  rewrite Hgt in Hctx.
  apply bind_ret_inv in Hctx. destruct Hctx as (ctxes & wc & Hloop & Hret).
  inversion Hret; subst wc; clear Hret.
  assert (Hc : w_uwsgi w_done = w_uwsgi w_loop)
    by (eapply (preserves_uwsgi any_event 0); [apply (all_add_mountpoint_ctxes 0) | exact Hloop]).
  destruct (add_mountpoint_ctxes_ok _ _ _ _ _ _ Hloop) as (Hlen & _ & _ & Hnd).
  assert (Hu : w_uwsgi w_app = w_uwsgi w) by congruence.
  assert (Hreg : w_uwsgi w' = w_uwsgi w_reg) by assumption.
  apply modify_inv in Hmod. rewrite Hreg, Hmod. simpl. rewrite Hu.
  eexists. exists ctxes. split; [reflexivity|]. simpl.
  repeat split.
  - congruence.
  - rewrite Hlen, Hthr. reflexivity.
  - exact Hnd.
Qed.

(** ** The put primitive and the bytes of the object *)

(** C1 (a defect of the code).  The claim: a GET after a PUT returns exactly the
    bytes of the PUT body, however the body is split into chunks, in particular
    for bodies larger than 32 KiB.  The code: every chunk is written with
    write_full, which replaces the object, and the offset it counts is never
    used; after the PUT of a body of 32769 bytes the object holds the last
    chunk only, and the GET that follows returns that single byte. *)
Theorem put_large_body_keeps_last_chunk :
  let w := example_world 0 (example_urmp true true false false) 0 ∅ large_body [] in
  let put := uwsgi_rados_request (example_request "PUT" "/r/foo" 32769 EmptyString) w in
  let get := uwsgi_rados_request (example_request "GET" "/r/foo" 0 EmptyString) (snd put) in
  fst put = Ret UWSGI_OK /\
  resp_calls (events_since w (snd put)) = [RespPrepareHeaders "201 Created"] /\
  fst get = Ret UWSGI_OK /\
  resp_calls (events_since (snd put) (snd get)) =
    [RespPrepareHeaders "200 OK"; RespAddLastModified 1000; RespAddContentLength 1;
     RespWriteBody ["b"%byte]] /\
  response_body (events_since (snd put) (snd get)) <> large_body.
Proof.
  intros w put get.
  assert (Hbody : response_body (events_since (snd put) (snd get)) = ["b"%byte])
    by (vm_compute; reflexivity).
  split; [vm_compute; reflexivity|].
  split; [vm_compute; reflexivity|].
  split; [vm_compute; reflexivity|].
  split; [vm_compute; reflexivity|].
  rewrite Hbody. intros H.
  assert (Hlen : Nat.eqb (length large_body) 1 = false) by (vm_compute; reflexivity).
  rewrite <- H in Hlen. discriminate Hlen.
Qed.

(** ** A completion that cannot be created *)

(** When the arming fails, the stat primitive reads through the NULL pending
    record. *)
Lemma async_stat_after_failed_arming id ctx key timeout w w1 :
  uwsgi_rados_set_completion id w = (Ret None, w1) ->
  uwsgi_rados_async_stat id ctx key timeout w = (Abort NullDeref, w1).
Proof.
  intros H. unfold uwsgi_rados_async_stat.
  rewrite (bind_run _ _ _ _ _ H). reflexivity.
Qed.

(** The delete primitive tests the pending record and returns -1. *)
Lemma delete_after_failed_arming req ctx key timeout w w1 :
  1 <= uwsgi_async (w_uwsgi w) ->
  uwsgi_rados_set_completion (async_id req) w = (Ret None, w1) ->
  uwsgi_rados_delete req ctx key timeout w = (Ret (-1), w1).
Proof.
  intros Ha H. unfold uwsgi_rados_delete.
  unfold bind at 1. unfold gets at 1.
  assert (E : (uwsgi_async (w_uwsgi w) <? 1) = false) by (apply Z.ltb_ge; lia).
  rewrite E, (bind_run _ _ _ _ _ H). reflexivity.
Qed.

(** C4 (a defect of the code).  The claim: when the native completion cannot be
    created, every async primitive (delete, put, stat) returns -1 without
    issuing an AIO and without reading through the NULL pending record.  The
    code: uwsgi_rados_delete tests the record and returns -1 with the record
    freed and nothing submitted, but uwsgi_rados_async_stat and uwsgi_rados_put
    evaluate urcb->urio->comp with urcb NULL.  Here rados_aio_create_completion
    fails with -12. *)
Theorem completion_failure_null_dereference :
  let w := example_world 1 (example_urmp true true false false) 0 ∅ hello in
  let req := example_request "PUT" "/r/foo" 5 EmptyString in
  let del := uwsgi_rados_delete req example_ctx "/foo" 30 (w [Some (-12)]) in
  fst del = Ret (-1) /\
  w_trace (snd del) =
    [EvLock 0; EvUnlock 0; EvMalloc 10; EvRados (RAioCreateCompletion 10 0); EvFree 10] /\
  w_heap (snd del) = ∅ /\
  fst (uwsgi_rados_async_stat 0 example_ctx "/foo" 30 (w [Some (-12)])) = Abort NullDeref /\
  fst (uwsgi_rados_put req example_ctx "/foo" 30 (w [None; Some (-12)])) = Abort NullDeref.
Proof. vm_compute. repeat split. Qed.

(** ** The pipe of the slot *)

(** C5 (a defect of the code).  The claim: with async enabled both ends of the
    pipe are closed on every return path of the handler, the 304 path
    included.  The code: the 304 branch returns without passing through the
    end block; after a GET with an If-Modified-Since not older than the object
    the two descriptors of the pipe are still open and no close was called. *)
Theorem not_modified_leaves_pipe_open :
  let w := example_world 1 (example_urmp false false false false) 2000
             {[ "/foo" := mk_object hello 1000 ]} [] [] in
  let run := uwsgi_rados_request
               (example_request "GET" "/r/foo" 0 "Thu, 01 Jan 2026 00:00:00 GMT") w in
  fst run = Ret 0 /\
  w_trace (snd run) =
    [EvPipe 10 11; EvLock 0; EvUnlock 0; EvMalloc 12;
     EvRados (RAioCreateCompletion 12 0); EvRados (RAioStat example_ctx "/foo" 13);
     EvWaitRead 10 30; EvLock 0; EvWrite 11; EvUnlock 0; EvFree 12; EvRead 10;
     EvRados (RAioIsSafeAndCb 13); EvRados (RAioGetReturnValue 13);
     EvRados (RAioRelease 13);
     EvResp (RespPrepareHeaders "304 Not Modified"); EvResp RespWriteHeaders] /\
  w_fdtab (snd run) !! 10 = Some (PipeRead 0) /\
  w_fdtab (snd run) !! 11 = Some (PipeWrite 10).
Proof. vm_compute. repeat split. Qed.

(** ** The callback that comes too late *)

(** C6.  A callback whose rid is not the rid of its slot writes nothing to the
    pipe: it takes the mutex, logs that it woke up too late, releases the
    mutex and frees the pending record; descriptors and slots are as before. *)
Theorem async_cb_too_late comp data urcb urio w :
  w_heap w !! data = Some urcb ->
  at_index (slots w) (urcb_urio urcb) = Some urio ->
  urcb_rid urcb <> urio_rid urio ->
  exists w',
    uwsgi_rados_async_cb comp data w = (Ret tt, w') /\
    w_trace w' = w_trace w ++
      [EvLock (urcb_urio urcb);
       EvLog "[uwsgi-rados] callback %llu woke up too late";
       EvUnlock (urcb_urio urcb);
       EvFree data] /\
    w_fdtab w' = w_fdtab w /\
    slots w' = slots w /\
    w_heap w' = delete data (w_heap w).
Proof.
  intros Hheap Hslot Hrid. unfold slots in Hslot.
  unfold uwsgi_rados_async_cb, load_urcb, pthread_mutex_lock, pthread_mutex_unlock,
    load_urio, uwsgi_log, free, emit, modify, gets, bind, ret.
  rewrite Hheap. simpl. rewrite Hslot. simpl.
  apply Z.eqb_neq in Hrid. rewrite Hrid. simpl.
  eexists. split; [reflexivity|]. simpl.
  rewrite <- !app_assoc. simpl. repeat split.
Qed.

Lemma async_cb_too_late_witness :
  w_heap late_world !! 12 = Some (mk_urcb 1 0) /\
  at_index (slots late_world) 0 = Some (mk_urio (10, 11) 2 15) /\
  1 <> 2 /\
  exists w',
    uwsgi_rados_async_cb 13 12 late_world = (Ret tt, w') /\
    w_trace w' = w_trace late_world ++
      [EvLock 0; EvLog "[uwsgi-rados] callback %llu woke up too late"; EvUnlock 0; EvFree 12] /\
    w_fdtab w' = w_fdtab late_world /\
    slots w' = slots late_world /\
    w_heap w' = delete 12 (w_heap late_world).
Proof.
  assert (H1 : w_heap late_world !! 12 = Some (mk_urcb 1 0)) by (vm_compute; reflexivity).
  assert (H2 : at_index (slots late_world) 0 = Some (mk_urio (10, 11) 2 15)) by reflexivity.
  assert (H3 : 1 <> 2) by lia.
  split; [exact H1|]. split; [exact H2|]. split; [exact H3|].
  exact (async_cb_too_late 13 12 (mk_urcb 1 0) (mk_urio (10, 11) 2 15) late_world H1 H2 H3).
Defined.

(** ** The rid of a slot *)

Lemma preserves_snd Q i {A} (m : M A) w : preserves Q i m -> evolves Q i w (snd (m w)).
Proof. intros H. apply (H w (fst (m w))). destruct (m w); reflexivity. Qed.

Lemma evolves_perform i op w : evolves any_event i w (perform op w).
Proof.
  destruct op; simpl; apply preserves_snd.
  - apply preserves_set_completion. apply any_event_background.
  - apply all_request.
  - apply all_deliver.
Qed.

Lemma evolves_perform_all i ops : forall w, evolves any_event i w (perform_all ops w).
Proof.
  induction ops as [|op ops IH]; intros w; simpl.
  - apply evolves_refl.
  - eapply evolves_trans; [apply evolves_perform | apply IH].
Qed.

(** The increment of rid, step by step. *)
Lemma set_completion_rid_ok i w urio :
  at_index (slots w) i = Some urio ->
  exists w1,
    uwsgi_rados_set_completion_rid i w = (Ret tt, w1) /\
    w_trace w1 = w_trace w ++ [EvLock i; EvUnlock i] /\
    at_index (slots w1) i =
      Some (mk_urio (urio_fds urio) (u64 (urio_rid urio + 1)) (urio_comp urio)).
Proof.
  intros Hi. unfold slots in Hi.
  rewrite set_completion_rid_run, Hi.
  eexists. split; [reflexivity|]. simpl. split.
  - rewrite <- app_assoc. reflexivity.
  - unfold slots. simpl. eapply at_index_insert_eq. exact Hi.
Qed.

(** One arming of a slot leaves one arming in the trace. *)
Lemma set_completion_armings i w urio :
  at_index (slots w) i = Some urio ->
  armings i (events_since w (snd (uwsgi_rados_set_completion i w))) = 1.
Proof.
  intros Hi. unfold slots in Hi.
  cbv beta iota zeta delta
    [uwsgi_rados_set_completion pthread_mutex_lock
     pthread_mutex_unlock load_urio store_urio uwsgi_malloc store_urcb
     rados_aio_create_completion free fresh ask emit modify gets bind ret].
  rewrite set_completion_rid_run.
  simpl. rewrite Hi. simpl. rewrite (at_index_insert_eq _ _ _ _ Hi). simpl.
  destruct (forced_error (hd None (w_tape w))) as [e|]; simpl.
  - destruct (e <? 0); simpl;
      (erewrite events_since_app by (simpl; rewrite <- ?app_assoc; simpl; reflexivity));
      unfold armings; simpl; rewrite Z.eqb_refl; reflexivity.
  - rewrite (at_index_insert_eq _ _ _ _ Hi). simpl.
    erewrite events_since_app by (simpl; rewrite <- ?app_assoc; simpl; reflexivity).
    unfold armings. simpl. rewrite Z.eqb_refl. reflexivity.
Qed.

(** C7.  Over every sequence of armings, requests and callback deliveries, the
    rid of a slot advances by exactly the number of armings of that slot:
    nothing else changes it, so it never decreases and it grows with every
    arming.  The counter is a uint64_t, so the sum is taken modulo 2^64 and
    the order holds as long as the counter does not wrap (the overflow the
    specification leaves aside).  One arming counts for one, and its increment
    happens under the mutex of the slot: the arming takes the mutex, writes
    rid while the mutex is held, and only then releases it; a write of rid
    that does not hold the mutex is a data race, at which the model stops. *)
Theorem rid_counts_armings i ops w urio :
  at_index (slots w) i = Some urio ->
  0 <= urio_rid urio < 2 ^ 64 ->
  (exists urio',
     at_index (slots (perform_all ops w)) i = Some urio' /\
     urio_rid urio' = u64 (urio_rid urio + armings i (events_since w (perform_all ops w))) /\
     (urio_rid urio + armings i (events_since w (perform_all ops w)) < 2 ^ 64 ->
      urio_rid urio <= urio_rid urio' /\
      (0 < armings i (events_since w (perform_all ops w)) -> urio_rid urio < urio_rid urio'))) /\
  armings i (events_since w (perform (OpArm i) w)) = 1 /\
  (exists w1 urio1,
     uwsgi_rados_set_completion_rid i w = (Ret tt, w1) /\
     w_trace w1 = w_trace w ++ [EvLock i; EvUnlock i] /\
     at_index (slots w1) i = Some urio1 /\
     urio_rid urio1 = u64 (urio_rid urio + 1)) /\
  (exists w_l w_s w1,
     pthread_mutex_lock i w = (Ret tt, w_l) /\
     mutex_held i w_l = true /\ slots w_l = slots w /\
     store_rid i (u64 (urio_rid urio + 1)) w_l = (Ret tt, w_s) /\
     mutex_held i w_s = true /\
     (urio_rid <$> at_index (slots w_s) i) = Some (u64 (urio_rid urio + 1)) /\
     pthread_mutex_unlock i w_s = (Ret tt, w1) /\
     mutex_held i w1 = false /\ slots w1 = slots w_s /\
     uwsgi_rados_set_completion_rid i w = (Ret tt, w1)) /\
  (forall rid w0, mutex_held i w0 = false -> store_rid i rid w0 = (Abort DataRace, w0)).
Proof.
  intros Hi Hr. split; [|split; [|split; [|split]]].
  - destruct (evolves_perform_all i ops w) as (evs & Ht & _ & _ & _ & Hrid).
    destruct (Hrid urio Hi) as (urio' & Hi' & E).
    exists urio'. rewrite (events_since_app _ _ _ Ht). specialize (E Hr).
    split; [exact Hi'|]. split; [exact E|].
    intros Hlt. pose proof (armings_nonneg i evs) as Hn.
    rewrite E, u64_small by lia. lia.
  - simpl. eapply set_completion_armings. exact Hi.
  - destruct (set_completion_rid_ok i w urio Hi) as (w1 & H1 & H2 & H3).
    exists w1. eexists. split; [exact H1|]. split; [exact H2|]. split; [exact H3|].
    reflexivity.
  - unfold slots in Hi.
    assert (Hheld : mutex_held i (set_trace (fun t => t ++ [EvLock i]) w) = true)
      by apply mutex_held_lock.
    eexists. eexists. eexists.
    split; [reflexivity|]. split; [exact Hheld|]. split; [reflexivity|].
    split; [exact (store_rid_locked i _ _ urio Hheld Hi)|].
    split; [exact Hheld|].
    split; [unfold slots; simpl; erewrite at_index_insert_eq by exact Hi; reflexivity|].
    split; [reflexivity|].
    split; [apply mutex_held_unlock|]. split; [reflexivity|].
    rewrite set_completion_rid_run, Hi. reflexivity.
  - intros rid w0 H. apply store_rid_unlocked. exact H.
Qed.

(** The overflow itself: the counter is a uint64_t, and the arming of a slot
    whose rid is 2^64 - 1 takes it back to 0. *)
Lemma rid_wraps_to_zero :
  (urio_rid <$> at_index (slots wrap_world) 0) = Some (2 ^ 64 - 1) /\
  (urio_rid <$> at_index (slots (perform (OpArm 0) wrap_world)) 0) = Some 0 /\
  ~ (forall urio urio',
       at_index (slots wrap_world) 0 = Some urio ->
       at_index (slots (perform (OpArm 0) wrap_world)) 0 = Some urio' ->
       urio_rid urio < urio_rid urio').
Proof.
  split; [vm_compute; reflexivity|]. split; [vm_compute; reflexivity|].
  intros H.
  specialize (H (mk_urio (-1, -1) (2 ^ 64 - 1) 0) (mk_urio (-1, -1) 0 11)).
  assert (H1 : at_index (slots wrap_world) 0 = Some (mk_urio (-1, -1) (2 ^ 64 - 1) 0))
    by (vm_compute; reflexivity).
  assert (H2 : at_index (slots (perform (OpArm 0) wrap_world)) 0 = Some (mk_urio (-1, -1) 0 11))
    by (vm_compute; reflexivity).
  specialize (H H1 H2). simpl in H. lia.
Qed.

Lemma rid_counts_armings_witness :
  let ops := [OpRequest (example_request "PUT" "/r/foo" 5 EmptyString);
              OpRequest (example_request "GET" "/r/foo" 0 EmptyString)] in
  let w := example_world 1 (example_urmp true true false false) 0 ∅ hello [] in
  let urio := mk_urio (-1, -1) 0 0 in
  at_index (slots w) 0 = Some urio /\
  0 <= urio_rid urio < 2 ^ 64 /\
  armings 0 (events_since w (perform_all ops w)) = 4 /\
  (exists urio',
     at_index (slots (perform_all ops w)) 0 = Some urio' /\
     urio_rid urio' = u64 (urio_rid urio + armings 0 (events_since w (perform_all ops w))) /\
     (urio_rid urio + armings 0 (events_since w (perform_all ops w)) < 2 ^ 64 ->
      urio_rid urio <= urio_rid urio' /\
      (0 < armings 0 (events_since w (perform_all ops w)) -> urio_rid urio < urio_rid urio'))) /\
  armings 0 (events_since w (perform (OpArm 0) w)) = 1 /\
  (exists w1 urio1,
     uwsgi_rados_set_completion_rid 0 w = (Ret tt, w1) /\
     w_trace w1 = w_trace w ++ [EvLock 0; EvUnlock 0] /\
     at_index (slots w1) 0 = Some urio1 /\
     urio_rid urio1 = u64 (urio_rid urio + 1)) /\
  (exists w_l w_s w1,
     pthread_mutex_lock 0 w = (Ret tt, w_l) /\
     mutex_held 0 w_l = true /\ slots w_l = slots w /\
     store_rid 0 (u64 (urio_rid urio + 1)) w_l = (Ret tt, w_s) /\
     mutex_held 0 w_s = true /\
     (urio_rid <$> at_index (slots w_s) 0) = Some (u64 (urio_rid urio + 1)) /\
     pthread_mutex_unlock 0 w_s = (Ret tt, w1) /\
     mutex_held 0 w1 = false /\ slots w1 = slots w_s /\
     uwsgi_rados_set_completion_rid 0 w = (Ret tt, w1)) /\
  (forall rid w0, mutex_held 0 w0 = false -> store_rid 0 rid w0 = (Abort DataRace, w0)).
Proof.
  intros ops w urio.
  assert (H1 : at_index (slots w) 0 = Some urio) by reflexivity.
  assert (H2 : 0 <= urio_rid urio < 2 ^ 64) by (simpl; lia).
  split; [exact H1|]. split; [exact H2|]. split; [vm_compute; reflexivity|].
  exact (rid_counts_armings 0 ops w urio H1 H2).
Defined.

(** ** The requests of the concrete deployment *)

(** The requests of the examples reach the method dispatch. *)
Lemma example_dispatched m path cl ims urmp date objs body tape :
  String.length path <> 0%nat ->
  Z.of_nat (String.length path) <= PATH_MAX ->
  dispatched (example_request m path cl ims)
    (example_world 0 urmp date objs body tape) (example_app urmp) example_ctx
    (example_world 0 urmp date objs body tape).
Proof.
  intros Hmin Hmax. constructor; simpl.
  - discriminate.
  - reflexivity.
  - exact Hmin.
  - exact Hmax.
  - exists 0. repeat split. discriminate.
  - reflexivity.
  - reflexivity.
Qed.

(** ** The end block and the trace of a request *)

Lemma resp_calls_app evs1 evs2 : resp_calls (evs1 ++ evs2) = resp_calls evs1 ++ resp_calls evs2.
Proof. unfold resp_calls. apply omap_app. Qed.

Lemma rados_calls_app evs1 evs2 :
  rados_calls (evs1 ++ evs2) = rados_calls evs1 ++ rados_calls evs2.
Proof. unfold rados_calls. apply omap_app. Qed.

Lemma store_calls_app evs1 evs2 :
  store_calls (evs1 ++ evs2) = store_calls evs1 ++ store_calls evs2.
Proof. unfold store_calls. rewrite rados_calls_app. apply List.filter_app. Qed.

Lemma fd_events_silent evs :
  forallb is_fd_event evs = true -> resp_calls evs = [] /\ rados_calls evs = [].
Proof.
  induction evs as [|e evs IH]; simpl; [split; reflexivity|].
  intros H. apply andb_prop in H. destruct H as [He H]. destruct (IH H) as [IH1 IH2].
  destruct e; try discriminate; simpl; split; assumption.
Qed.

(** The end block: with async enabled the two descriptors of the slot are
    closed. *)
Lemma request_end_run req w :
  ((uwsgi_async (w_uwsgi w) >? 0) = true ->
   exists u, at_index (slots w) (async_id req) = Some u) ->
  exists w' post,
    uwsgi_rados_request_end req w = (Ret UWSGI_OK, w') /\
    w_trace w' = w_trace w ++ post /\
    forallb is_fd_event post = true /\
    ((uwsgi_async (w_uwsgi w) >? 0) = true ->
     exists u, at_index (slots w) (async_id req) = Some u /\
       post = [EvClose (fst (urio_fds u)); EvClose (snd (urio_fds u))]) /\
    w_pools w' = w_pools w /\ w_tape w' = w_tape w /\ w_uwsgi w' = w_uwsgi w /\
    w_urados w' = w_urados w /\ w_inflight w' = w_inflight w /\ w_heap w' = w_heap w /\
    w_comps w' = w_comps w /\ w_next w' = w_next w /\ w_now w' = w_now w.
Proof.
  intros Hslot. unfold uwsgi_rados_request_end.
  unfold bind at 1. unfold gets at 1.
  destruct (uwsgi_async (w_uwsgi w) >? 0) eqn:Ha.
  - destruct (Hslot eq_refl) as [u Hu]. unfold slots in Hu.
    cbv beta iota zeta delta [bind load_urio gets close emit modify ret]. simpl.
    rewrite Hu. simpl. rewrite Hu. simpl.
    eexists. exists [EvClose (fst (urio_fds u)); EvClose (snd (urio_fds u))].
    split; [reflexivity|]. simpl. rewrite <- app_assoc. simpl.
    repeat split; try reflexivity.
    intros _. exists u. split; [exact Hu | reflexivity].
  - cbv beta iota zeta delta [bind ret]. exists w, [].
    split; [reflexivity|]. rewrite app_nil_r. repeat split; try reflexivity.
    intros H; discriminate.
Qed.

(** What the entry of a dispatched request did. *)
Lemma dispatched_entry req w ua ctx w0 :
  dispatched req w ua ctx w0 ->
  exists pre,
    w_trace w0 = w_trace w ++ pre /\
    forallb is_fd_event pre = true /\
    w_uwsgi w0 = w_uwsgi w /\
    w_pools w0 = w_pools w /\
    w_body w0 = w_body w /\
    w_inflight w0 = w_inflight w /\
    (reliable w -> reliable w0) /\
    ((uwsgi_async (w_uwsgi w) >? 0) = true ->
     exists u, at_index (slots w0) (async_id req) = Some u).
Proof.
  intros [_ _ _ _ _ _ Hpipe].
  destruct (uwsgi_async (w_uwsgi w) >? 0) eqn:Ha.
  - destruct (pipe_ok _ _ _ Hpipe) as (u & Hu & ->). simpl.
    eexists. split; [reflexivity|]. simpl. repeat split.
    + intros H. unfold reliable in *. simpl. destruct H; [constructor | assumption].
    + intros _. unfold slots. simpl. eexists. eapply at_index_insert_eq. exact Hu.
  - subst w0. exists []. rewrite app_nil_r. repeat split.
    + intros H; exact H.
    + intros H; discriminate.
Qed.

(** A dispatched request whose method dispatch ends by goto end. *)
Lemma request_goto_end req w ua ctx w0 w2 :
  dispatched req w ua ctx w0 ->
  uwsgi_rados_request_methods req ctx (ua_responder1 ua) (filename_of req ua)
    (uwsgi_rados_request_timeout (ua_responder1 ua) w0) w0 = (Ret GotoEnd, w2) ->
  exists w' mid,
    uwsgi_rados_request req w = (Ret UWSGI_OK, w') /\
    w_trace w2 = w_trace w0 ++ mid /\
    resp_calls (events_since w w') = resp_calls mid /\
    rados_calls (events_since w w') = rados_calls mid /\
    w_pools w' = w_pools w2 /\ w_tape w' = w_tape w2 /\ w_uwsgi w' = w_uwsgi w /\
    w_inflight w' = w_inflight w2.
Proof.
  intros Hd Hm. rewrite (request_dispatched _ _ _ _ _ Hd), (bind_run _ _ _ _ _ Hm).
  destruct (dispatched_entry _ _ _ _ _ Hd) as (pre & Hpre & Hfd & Hu0 & _ & _ & _ & _ & Hslot0).
  destruct (all_request_methods (async_id req) _ _ _ _ _ _ _ _ Hm)
    as (mid & Hmid & _ & Hu2 & Hlen & _).
  destruct (request_end_run req w2) as (w' & post & Hend & Hpost & Hfd' & _ & Hp & Ht & Hu & _ & Hin & _).
  { rewrite Hu2, Hu0. intros Ha. destruct (Hslot0 Ha) as [u Hu].
    eapply at_index_length; [exact Hlen | exact Hu]. }
  exists w', mid. split; [exact Hend|]. split; [exact Hmid|].
  assert (Htr : w_trace w' = w_trace w ++ (pre ++ mid ++ post)).
  { rewrite Hpost, Hmid, Hpre, <- !app_assoc. reflexivity. }
  rewrite (events_since_app _ _ _ Htr).
  destruct (fd_events_silent _ Hfd) as [R1 R2]. destruct (fd_events_silent _ Hfd') as [R3 R4].
  rewrite !resp_calls_app, !rados_calls_app, R1, R2, R3, R4, !app_nil_r. simpl.
  repeat split; try assumption. congruence.
Qed.


Lemma not_resp_background e : is_background e = true -> not_resp e = true.
Proof. destruct e; try discriminate; reflexivity. Qed.

Lemma not_resp_calls evs : forallb not_resp evs = true -> resp_calls evs = [].
Proof.
  induction evs as [|e evs IH]; simpl; [reflexivity|].
  intros H. apply andb_prop in H. destruct H as [He H].
  destruct e; try discriminate; simpl; apply IH; exact H.
Qed.

Lemma uwsgi_strncmp_eq a b : (uwsgi_strncmp a b =? 0) = true <-> a = b.
Proof.
  unfold uwsgi_strncmp. destruct (String.eqb a b) eqn:E.
  - apply String.eqb_eq in E. split; [intros _; exact E | reflexivity].
  - apply String.eqb_neq in E. split; [discriminate | contradiction].
Qed.

Lemma uwsgi_strncmp_ne a b : a <> b -> (uwsgi_strncmp a b =? 0) = false.
Proof.
  intros H. destruct (uwsgi_strncmp a b =? 0) eqn:E; [|reflexivity].
  apply uwsgi_strncmp_eq in E. contradiction.
Qed.

Lemma uwsgi_strncmp_refl a : (uwsgi_strncmp a a =? 0) = true.
Proof. apply uwsgi_strncmp_eq. reflexivity. Qed.

(** The dispatch of a method that starts with the stat. *)
Lemma request_methods_stat req ctx urmp key t w :
  method req <> "OPTIONS" -> method req <> "MKCOL" -> path_info req <> "/" ->
  uwsgi_rados_request_methods req ctx urmp key t w =
    bind (uwsgi_rados_request_stat req ctx key t)
         (uwsgi_rados_request_after_stat req ctx urmp key t) w.
Proof.
  intros H1 H2 H3. unfold uwsgi_rados_request_methods.
  rewrite (uwsgi_strncmp_ne _ _ H1), (uwsgi_strncmp_ne _ _ H2).
  apply String.eqb_neq in H3. rewrite H3. reflexivity.
Qed.

(** The stat of a request emits no response, whatever librados delivers
    meanwhile. *)
Lemma request_stat_no_resp req ctx key t w st w2 :
  uwsgi_rados_request_stat req ctx key t w = (Ret st, w2) ->
  exists evs, w_trace w2 = w_trace w ++ evs /\ resp_calls evs = [].
Proof.
  intros H.
  destruct (preserves_request_stat not_resp 0 not_resp_background req ctx key t
              eq_refl (fun _ => eq_refl) _ _ _ H) as (evs & Ht & Hq & _).
  exists evs. split; [exact Ht | apply not_resp_calls; exact Hq].
Qed.

(** C8.  For a method other than OPTIONS, MKCOL and PUT on a key other than /,
    when the stat of the key fails the request is answered 404 if the error is
    ENOENT and 403 for any other error; nothing else is sent. *)
Theorem stat_failure_answer req w ua ctx w0 st w2 :
  dispatched req w ua ctx w0 ->
  method req <> "OPTIONS" -> method req <> "MKCOL" -> method req <> "PUT" ->
  path_info req <> "/" ->
  uwsgi_rados_request_stat req ctx (filename_of req ua)
    (uwsgi_rados_request_timeout (ua_responder1 ua) w0) w0 = (Ret st, w2) ->
  fst st < 0 ->
  exists w',
    uwsgi_rados_request req w = (Ret UWSGI_OK, w') /\
    resp_calls (events_since w w') = [RespError (if fst st =? - ENOENT then 404 else 403)].
Proof.
  intros Hd Ho Hm Hp Hpath Hstat Hneg.
  assert (Hrun : uwsgi_rados_request_methods req ctx (ua_responder1 ua) (filename_of req ua)
            (uwsgi_rados_request_timeout (ua_responder1 ua) w0) w0 =
          (Ret GotoEnd,
           set_trace (fun t => t ++
             [EvResp (RespError (if fst st =? - ENOENT then 404 else 403))]) w2)).
  { rewrite (request_methods_stat _ _ _ _ _ _ Ho Hm Hpath), (bind_run _ _ _ _ _ Hstat).
    unfold uwsgi_rados_request_after_stat.
    rewrite (uwsgi_strncmp_ne _ _ Hp).
    assert (E : (fst st <? 0) = true) by (apply Z.ltb_lt; exact Hneg). rewrite E.
    destruct (fst st =? - ENOENT); reflexivity. }
  destruct (request_goto_end _ _ _ _ _ _ Hd Hrun) as (w' & mid & Hreq & Hmid & Hresp & _).
  exists w'. split; [exact Hreq|]. rewrite Hresp.
  destruct (request_stat_no_resp _ _ _ _ _ _ _ Hstat) as (evs & Hevs & Hnone).
  simpl in Hmid. rewrite Hevs, <- app_assoc in Hmid. apply app_inv_head in Hmid.
  rewrite <- Hmid, resp_calls_app, Hnone. reflexivity.
Qed.

(** A GET of a key the pool does not hold, in synchronous mode. *)
Lemma stat_failure_answer_witness :
  let req := example_request "GET" "/r/missing" 0 EmptyString in
  let w := example_world 0 (example_urmp true true false false) 0 ∅ [] [] in
  let ua := example_app (example_urmp true true false false) in
  let st := (- ENOENT, (0, 0)) in
  let w2 := snd (uwsgi_rados_request_stat req example_ctx (filename_of req ua)
                   (uwsgi_rados_request_timeout (ua_responder1 ua) w) w) in
  dispatched req w ua example_ctx w /\
  method req <> "OPTIONS" /\ method req <> "MKCOL" /\ method req <> "PUT" /\
  path_info req <> "/" /\
  uwsgi_rados_request_stat req example_ctx (filename_of req ua)
    (uwsgi_rados_request_timeout (ua_responder1 ua) w) w = (Ret st, w2) /\
  fst st < 0 /\
  exists w',
    uwsgi_rados_request req w = (Ret UWSGI_OK, w') /\
    resp_calls (events_since w w') = [RespError (if fst st =? - ENOENT then 404 else 403)].
Proof.
  intros req w ua st w2.
  assert (Hd : dispatched req w ua example_ctx w)
    by (apply example_dispatched; [discriminate | vm_compute; discriminate]).
  assert (H1 : method req <> "OPTIONS") by discriminate.
  assert (H2 : method req <> "MKCOL") by discriminate.
  assert (H3 : method req <> "PUT") by discriminate.
  assert (H4 : path_info req <> "/") by discriminate.
  assert (H5 : uwsgi_rados_request_stat req example_ctx (filename_of req ua)
                 (uwsgi_rados_request_timeout (ua_responder1 ua) w) w = (Ret st, w2))
    by (vm_compute; reflexivity).
  assert (H6 : fst st < 0) by reflexivity.
  repeat (split; [assumption|]).
  exact (stat_failure_answer req w ua example_ctx w st w2 Hd H1 H2 H3 H4 H5 H6).
Defined.

(** ** OPTIONS *)

Lemma reliable_hd w : reliable w -> forced_error (hd None (w_tape w)) = None.
Proof.
  unfold reliable. destruct (w_tape w) as [|o t]; [reflexivity|].
  intros H. inversion H; subst. assumption.
Qed.

Lemma reliable_tape w w' k : reliable w -> w_tape w' = drop k (w_tape w) -> reliable w'.
Proof.
  unfold reliable. intros H E. rewrite E. clear E.
  rewrite Forall_forall in *. intros x Hx. apply H.
  eapply (subseteq_drop k). exact Hx.
Qed.

Lemma reliable_tl w w' : reliable w -> w_tape w' = tl (w_tape w) -> reliable w'.
Proof.
  intros H E. apply (reliable_tape w w' 1 H). rewrite E. destruct (w_tape w); reflexivity.
Qed.

Lemma response_call_ok c w :
  reliable w ->
  response_call c w =
    (Ret 0, set_tape (fun t => tl t) (set_trace (fun t => t ++ [EvResp c]) w)).
Proof.
  intros H. unfold response_call, bind, emit, modify, ask, ret. simpl.
  rewrite (reliable_hd _ H). reflexivity.
Qed.

Lemma buffer_append_ok ub s w :
  reliable w ->
  uwsgi_buffer_append ub s w = (Ret (0, ub +:+ s), set_tape (fun t => tl t) w).
Proof.
  intros H. unfold uwsgi_buffer_append, bind, ask, ret. simpl.
  rewrite (reliable_hd _ H). reflexivity.
Qed.

Lemma reliable_iter w k :
  reliable w -> forced_error (hd None (Nat.iter k (@tail (option Z)) (w_tape w))) = None.
Proof.
  unfold reliable. generalize (w_tape w). induction k as [|k IH]; intros l H; simpl.
  - destruct l; [reflexivity|]. inversion H; subst. assumption.
  - specialize (IH l H). destruct (Nat.iter k tail l) as [|o t] eqn:E; [reflexivity|].
    simpl. destruct t as [|o' t']; [reflexivity|]. simpl.
    assert (Hall : Forall (fun o => forced_error o = None) (Nat.iter k tail l)).
    { clear -H. revert l H. induction k as [|k IHk]; intros l H; simpl; [exact H|].
      specialize (IHk l H). destruct (Nat.iter k tail l); [constructor|].
      inversion IHk; subst. assumption. }
    rewrite E in Hall. inversion Hall as [|? ? _ Hall']; subst.
    inversion Hall'; subst. assumption.
Qed.

Lemma Forall_tail {A} (P : A -> Prop) l : Forall P l -> Forall P (tail l).
Proof. intros H. destruct H; [constructor | assumption]. Qed.

Ltac reliable_tac H :=
  unfold reliable in *; simpl; repeat apply Forall_tail; exact H.

(** The answers of a reliable environment, position by position. *)
Ltac reliable_answers H :=
  let E0 := fresh "E" in pose proof (reliable_iter _ 0 H) as E0; simpl in E0;
  let E1 := fresh "E" in pose proof (reliable_iter _ 1 H) as E1; simpl in E1;
  let E2 := fresh "E" in pose proof (reliable_iter _ 2 H) as E2; simpl in E2;
  let E3 := fresh "E" in pose proof (reliable_iter _ 3 H) as E3; simpl in E3;
  let E4 := fresh "E" in pose proof (reliable_iter _ 4 H) as E4; simpl in E4;
  let E5 := fresh "E" in pose proof (reliable_iter _ 5 H) as E5; simpl in E5;
  let E6 := fresh "E" in pose proof (reliable_iter _ 6 H) as E6; simpl in E6;
  let E7 := fresh "E" in pose proof (reliable_iter _ 7 H) as E7; simpl in E7.

Ltac rewrite_answers :=
  repeat match goal with
         | E : forced_error (hd None _) = None |- _ => rewrite E; simpl
         end.

(** The OPTIONS branch when no call fails. *)
Lemma request_options_ok urmp w :
  reliable w ->
  exists w',
    uwsgi_rados_request_options urmp w = (Ret GotoEnd, w') /\
    w_trace w' = w_trace w ++
      [EvResp (RespPrepareHeaders "200 OK"); EvResp (RespAddHeader "Dav" "1");
       EvResp (RespAddHeader "Allow" (allow_header urmp))] /\
    reliable w' /\
    w_pools w' = w_pools w.
Proof.
  intros H. reliable_answers H.
  cbv beta iota zeta delta
    [uwsgi_rados_request_options uwsgi_response_prepare_headers uwsgi_response_add_header
     response_call uwsgi_buffer_append allow_header bind emit modify ask ret].
  simpl. rewrite_answers.
  destruct (urmp_allow_put urmp), (urmp_allow_delete urmp), (urmp_allow_mkcol urmp),
    (urmp_allow_propfind urmp); simpl; rewrite_answers;
  (eexists; split; [reflexivity|]; simpl; rewrite <- !app_assoc;
   split; [reflexivity|]; split; [|reflexivity]; reliable_tac H).
Qed.

Lemma not_store_background e : is_background e = true -> not_store e = true.
Proof. destruct e as [| | | | | | | | | | |c|]; try discriminate; try reflexivity.
       destruct c; try discriminate; reflexivity. Qed.

Lemma not_store_calls evs : forallb not_store evs = true -> store_calls evs = [].
Proof.
  unfold store_calls. induction evs as [|e evs IH]; simpl; [reflexivity|].
  intros H. apply andb_prop in H. destruct H as [He H]. specialize (IH H).
  destruct e; simpl; try exact IH.
  simpl in He. apply negb_true_iff in He. rewrite He. exact IH.
Qed.

Lemma fd_events_not_store evs : forallb is_fd_event evs = true -> store_calls evs = [].
Proof.
  intros H. unfold store_calls. destruct (fd_events_silent _ H) as [_ ->]. reflexivity.
Qed.

Lemma request_methods_options req ctx urmp key t w :
  method req = "OPTIONS" ->
  uwsgi_rados_request_methods req ctx urmp key t w = uwsgi_rados_request_options urmp w.
Proof.
  intros H. unfold uwsgi_rados_request_methods. rewrite H. reflexivity.
Qed.

(** C9.  An OPTIONS request that reaches the method dispatch never touches the
    object store; when the response writer of the core does not fail it is
    answered 200 OK with the headers Dav: 1 and Allow: OPTIONS, GET, HEAD
    followed by those of PUT, DELETE, MKCOL, PROPFIND the mount permits, in
    that order, and no call to librados is made at all. *)
Theorem options_answer req w ua ctx w0 :
  dispatched req w ua ctx w0 ->
  method req = "OPTIONS" ->
  (forall r w', uwsgi_rados_request req w = (r, w') ->
     store_calls (events_since w w') = []) /\
  (reliable w0 ->
   exists w',
     uwsgi_rados_request req w = (Ret UWSGI_OK, w') /\
     resp_calls (events_since w w') =
       [RespPrepareHeaders "200 OK"; RespAddHeader "Dav" "1";
        RespAddHeader "Allow" (allow_header (ua_responder1 ua))] /\
     rados_calls (events_since w w') = []).
Proof.
  intros Hd Hm. split.
  - intros r w' Hrun.
    rewrite (request_dispatched _ _ _ _ _ Hd) in Hrun.
    destruct (dispatched_entry _ _ _ _ _ Hd) as (pre & Hpre & Hfd & _).
    assert (Hp : preserves not_store 0
              (bind (uwsgi_rados_request_methods req ctx (ua_responder1 ua) (filename_of req ua)
                       (uwsgi_rados_request_timeout (ua_responder1 ua) w0))
                    (fun fl => match fl with
                               | GotoEnd => uwsgi_rados_request_end req
                               | Return r => ret r
                               end))).
    { apply preserves_bind.
      - intros w1 r1 w1' H1. rewrite (request_methods_options _ _ _ _ _ _ Hm) in H1.
        eapply (preserves_request_options not_store 0); [reflexivity | exact H1].
      - intros [|z]; [apply preserves_request_end; apply not_store_background
                     | apply preserves_ret]. }
    destruct (Hp _ _ _ Hrun) as (evs & Hevs & Hq & _).
    assert (Htr : w_trace w' = w_trace w ++ (pre ++ evs))
      by (rewrite Hevs, Hpre, <- app_assoc; reflexivity).
    rewrite (events_since_app _ _ _ Htr), store_calls_app,
      (fd_events_not_store _ Hfd), (not_store_calls _ Hq). reflexivity.
  - intros Hrel.
    destruct (request_options_ok (ua_responder1 ua) w0 Hrel) as (w2 & Hopt & Htr & _).
    rewrite <- (request_methods_options req ctx _ (filename_of req ua)
                  (uwsgi_rados_request_timeout (ua_responder1 ua) w0) _ Hm) in Hopt.
    destruct (request_goto_end _ _ _ _ _ _ Hd Hopt) as (w' & mid & Hreq & Hmid & Hresp & Hrados & _).
    exists w'. split; [exact Hreq|].
    rewrite Htr in Hmid. apply app_inv_head in Hmid. subst mid.
    rewrite Hresp, Hrados. split; reflexivity.
Qed.

(** OPTIONS on a mount that permits PUT only. *)
Lemma options_answer_witness :
  let req := example_request "OPTIONS" "/r/foo" 0 EmptyString in
  let w := example_world 0 (example_urmp true false false false) 0 ∅ [] [] in
  let ua := example_app (example_urmp true false false false) in
  dispatched req w ua example_ctx w /\
  method req = "OPTIONS" /\
  reliable w /\
  allow_header (ua_responder1 ua) = "OPTIONS, GET, HEAD, PUT" /\
  (forall r w', uwsgi_rados_request req w = (r, w') ->
     store_calls (events_since w w') = []) /\
  exists w',
    uwsgi_rados_request req w = (Ret UWSGI_OK, w') /\
    resp_calls (events_since w w') =
      [RespPrepareHeaders "200 OK"; RespAddHeader "Dav" "1";
       RespAddHeader "Allow" (allow_header (ua_responder1 ua))] /\
    rados_calls (events_since w w') = [].
Proof.
  intros req w ua.
  assert (Hd : dispatched req w ua example_ctx w)
    by (apply example_dispatched; [discriminate | vm_compute; discriminate]).
  assert (Hm : method req = "OPTIONS") by reflexivity.
  assert (Hr : reliable w) by constructor.
  repeat (split; [assumption|]).
  split; [reflexivity|].
  split.
  - exact (proj1 (options_answer req w ua example_ctx w Hd Hm)).
  - exact (proj2 (options_answer req w ua example_ctx w Hd Hm) Hr).
Defined.

(** ** Methods the mount does not permit *)

Lemma stat_only_background e : is_background e = true -> stat_only e = true.
Proof.
  destruct e as [| | | | | | | | | | |c|]; try discriminate; try reflexivity.
  destruct c; try discriminate; reflexivity.
Qed.

Lemma stat_only_calls evs :
  forallb stat_only evs = true ->
  resp_calls evs = [] /\ Forall (fun c => is_stat_call c = true) (store_calls evs).
Proof.
  unfold store_calls. induction evs as [|e evs IH]; simpl; [split; [reflexivity | constructor]|].
  intros H. apply andb_prop in H. destruct H as [He H]. destruct (IH H) as [IH1 IH2].
  destruct e; simpl; try (split; assumption); [|discriminate].
  split; [assumption|]. simpl in He.
  destruct (is_store_call c) eqn:Es; [|assumption].
  constructor; [|assumption]. rewrite orb_false_r in He. exact He.
Qed.

Lemma request_stat_stat_only req ctx key t w st w2 :
  uwsgi_rados_request_stat req ctx key t w = (Ret st, w2) ->
  exists evs,
    w_trace w2 = w_trace w ++ evs /\ forallb stat_only evs = true /\
    w_uwsgi w2 = w_uwsgi w /\
    (uwsgi_async (w_uwsgi w) < 1 -> evs = [EvRados (RStat ctx key)]).
Proof.
  intros H.
  destruct (preserves_request_stat stat_only 0 stat_only_background req ctx key t
              eq_refl (fun _ => eq_refl) _ _ _ H) as (evs & Ht & Hq & Hu & _).
  exists evs. split; [exact Ht|]. split; [exact Hq|]. split; [exact Hu|].
  intros Ha. unfold uwsgi_rados_request_stat in H.
  unfold bind at 1 in H. unfold gets at 1 in H.
  assert (E : (uwsgi_async (w_uwsgi w) >? 0) = false)
    by (rewrite Z.gtb_ltb; apply Z.ltb_ge; lia).
  rewrite E in H. unfold rados_stat, store_stat, bind, emit, modify, ask, gets, ret in H.
  simpl in H.
  assert (Ht2 : w_trace w2 = w_trace w ++ [EvRados (RStat ctx key)]).
  { destruct (forced_error (hd None (w_tape w))); [inversion H; reflexivity|].
    match type of H with context [match ?x with _ => _ end] => destruct x end;
      inversion H; reflexivity. }
  rewrite Ht2 in Ht. apply app_inv_head in Ht. symmetry. exact Ht.
Qed.

Lemma request_methods_405 req ctx urmp key t w :
  (path_info req = "/" /\ method req <> "OPTIONS" /\
   (method req = "PROPFIND" -> urmp_allow_propfind urmp = None)) \/
  (path_info req <> "/" /\ method req = "MKCOL" /\ urmp_allow_mkcol urmp = None) ->
  uwsgi_rados_request_methods req ctx urmp key t w =
    (Ret GotoEnd, set_trace (fun t => t ++ [EvResp (RespError 405)]) w).
Proof.
  unfold uwsgi_rados_request_methods.
  intros [(Hp & Ho & Hf) | (Hp & Hm & Hf)].
  - rewrite (uwsgi_strncmp_ne _ _ Ho), Hp. simpl.
    destruct (urmp_allow_propfind urmp) eqn:Ea; simpl; [|reflexivity].
    destruct (uwsgi_strncmp (method req) "PROPFIND" =? 0) eqn:Em; [|reflexivity].
    apply uwsgi_strncmp_eq in Em. specialize (Hf Em). discriminate.
  - rewrite Hm. simpl. apply String.eqb_neq in Hp. rewrite Hp, Hf. reflexivity.
Qed.

Lemma stat_or_none_background e : is_background e = true -> stat_or_none e = true.
Proof.
  destruct e as [| | | | | | | | | | |c|]; try discriminate; try reflexivity.
  destruct c; try discriminate; reflexivity.
Qed.

Lemma stat_or_none_calls evs :
  forallb stat_or_none evs = true ->
  Forall (fun c => is_stat_call c = true) (store_calls evs).
Proof.
  unfold store_calls. induction evs as [|e evs IH]; simpl; [constructor|].
  intros H. apply andb_prop in H. destruct H as [He H]. specialize (IH H).
  destruct e; simpl; try assumption. simpl in He.
  destruct (is_store_call c) eqn:Es; [|assumption].
  constructor; [|assumption]. rewrite orb_false_r in He. exact He.
Qed.

Lemma preserves_error_response i n :
  preserves stat_or_none i (emit (EvResp (RespError n))).
Proof. apply preserves_emit; reflexivity. Qed.

(** The method dispatch of a method the mount does not permit: whatever the
    environment does, the store is not touched but by the stat. *)
Lemma request_methods_disallowed i req ctx urmp key t :
  disallowed req urmp ->
  preserves stat_or_none i (uwsgi_rados_request_methods req ctx urmp key t).
Proof.
  intros Hdis.
  assert (Ho : (uwsgi_strncmp (method req) "OPTIONS" =? 0) = false)
    by (destruct Hdis as [[-> _] | [[-> _] | [[-> _] | [-> _]]]]; reflexivity).
  unfold uwsgi_rados_request_methods. rewrite Ho.
  assert (Hresp : forall c, preserves stat_or_none i (response_call c))
    by (intros c; apply preserves_response_call; reflexivity).
  assert (Hstat : preserves stat_or_none i (uwsgi_rados_request_stat req ctx key t)).
  { first [ apply (preserves_request_stat stat_or_none i stat_or_none_background)
          | apply preserves_request_stat ]; [reflexivity | intros c; reflexivity]. }
  destruct (String.eqb (path_info req) "/").
  - assert (E : is_set (urmp_allow_propfind urmp)
                && (uwsgi_strncmp (method req) "PROPFIND" =? 0) = false).
    { destruct Hdis as [[-> _] | [[-> _] | [[-> _] | [-> Hf]]]];
        try (rewrite andb_false_r; reflexivity).
      rewrite Hf. reflexivity. }
    rewrite E. unfold uwsgi_405.
    apply preserves_bind; [apply preserves_error_response | intros ?; apply preserves_ret].
  - destruct (uwsgi_strncmp (method req) "MKCOL" =? 0) eqn:Em.
    + apply uwsgi_strncmp_eq in Em.
      assert (Hf : urmp_allow_mkcol urmp = None)
        by (destruct Hdis as [[E _] | [[E _] | [[_ Hf] | [E _]]]];
            try (rewrite Em in E; discriminate); exact Hf).
      rewrite Hf. simpl. unfold uwsgi_405.
      apply preserves_bind; [apply preserves_error_response | intros ?; apply preserves_ret].
    + apply preserves_bind; [exact Hstat | intros st].
      unfold uwsgi_rados_request_after_stat, uwsgi_405, uwsgi_404, uwsgi_403,
        uwsgi_response_prepare_headers, uwsgi_response_write_headers_do.
      cbv zeta.
      destruct Hdis as [[Hm Hf] | [[Hm Hf] | [[Hm Hf] | [Hm Hf]]]]; rewrite Hm; simpl.
      * rewrite Hf. simpl.
        apply preserves_bind; [apply preserves_error_response | intros ?; apply preserves_ret].
      * destruct (fst st <? 0).
        -- apply preserves_bind; [|intros ?; apply preserves_ret].
           destruct (fst st =? - ENOENT); apply preserves_error_response.
        -- rewrite Hf. simpl.
           apply preserves_bind; [apply preserves_error_response | intros ?; apply preserves_ret].
      * rewrite Hm in Em. discriminate.
      * destruct (fst st <? 0).
        -- apply preserves_bind; [|intros ?; apply preserves_ret].
           destruct (fst st =? - ENOENT); apply preserves_error_response.
        -- apply preserves_bind; [apply preserves_gets | intros ims].
           destruct (_ && _).
           ++ apply preserves_bind; [apply Hresp | intros e].
              destruct (nz e); [apply preserves_ret|].
              apply preserves_bind; [apply Hresp | intros e']. apply preserves_ret.
           ++ rewrite Hf. simpl.
              apply preserves_bind; [apply preserves_error_response | intros ?; apply preserves_ret].
Qed.

(** A request for a method the mount does not permit, whatever its outcome. *)
Lemma request_disallowed req w ua ctx w0 r w' :
  dispatched req w ua ctx w0 ->
  disallowed req (ua_responder1 ua) ->
  uwsgi_rados_request req w = (r, w') ->
  Forall (fun c => is_stat_call c = true) (store_calls (events_since w w')).
Proof.
  intros Hd Hdis Hrun.
  rewrite (request_dispatched _ _ _ _ _ Hd) in Hrun.
  destruct (dispatched_entry _ _ _ _ _ Hd) as (pre & Hpre & Hfd & _).
  assert (Hp : preserves stat_or_none 0
            (bind (uwsgi_rados_request_methods req ctx (ua_responder1 ua) (filename_of req ua)
                     (uwsgi_rados_request_timeout (ua_responder1 ua) w0))
                  (fun fl => match fl with
                             | GotoEnd => uwsgi_rados_request_end req
                             | Return r => ret r
                             end))).
  { apply preserves_bind; [apply request_methods_disallowed; exact Hdis | intros fl].
    destruct fl.
    - first [ apply (preserves_request_end stat_or_none 0 stat_or_none_background)
            | apply preserves_request_end ].
    - apply preserves_ret. }
  destruct (Hp _ _ _ Hrun) as (evs & Ht & Hq & _).
  assert (Htr : w_trace w' = w_trace w ++ (pre ++ evs))
    by (rewrite Ht, Hpre, <- app_assoc; reflexivity).
  rewrite (events_since_app _ _ _ Htr), store_calls_app, (fd_events_not_store _ Hfd).
  simpl. apply stat_or_none_calls. exact Hq.
Qed.

(** A dispatched request whose method dispatch ends by a return. *)
Lemma request_return req w ua ctx w0 r w2 :
  dispatched req w ua ctx w0 ->
  uwsgi_rados_request_methods req ctx (ua_responder1 ua) (filename_of req ua)
    (uwsgi_rados_request_timeout (ua_responder1 ua) w0) w0 = (Ret (Return r), w2) ->
  uwsgi_rados_request req w = (Ret r, w2).
Proof.
  intros Hd Hm. rewrite (request_dispatched _ _ _ _ _ Hd), (bind_run _ _ _ _ _ Hm).
  reflexivity.
Qed.

Lemma response_call_run c w :
  response_call c w =
    (Ret (match forced_error (hd None (w_tape w)) with Some e => e | None => 0 end),
     set_tape (fun t => tl t) (set_trace (fun t => t ++ [EvResp c]) w)).
Proof. reflexivity. Qed.

(** The 304 branch, whatever the response writer answers. *)
Lemma request_304_run w2 :
  exists r w3 tail,
    (e <- uwsgi_response_prepare_headers "304 Not Modified" ;;
     if nz e then ret (Return (-1)) else
     e <- uwsgi_response_write_headers_do ;;
     ret (Return e)) w2 = (Ret (Return r), w3) /\
    w_trace w3 = w_trace w2 ++ EvResp (RespPrepareHeaders "304 Not Modified") :: map EvResp tail /\
    (tail = [] \/ tail = [RespWriteHeaders]).
Proof.
  unfold uwsgi_response_prepare_headers, uwsgi_response_write_headers_do.
  unfold bind at 1. rewrite response_call_run.
  destruct (nz _).
  - eexists. eexists. exists []. split; [reflexivity|]. split; [reflexivity | left; reflexivity].
  - unfold bind at 1. rewrite response_call_run.
    eexists. eexists. exists [RespWriteHeaders]. split; [reflexivity|].
    split; [simpl; rewrite <- app_assoc; reflexivity | right; reflexivity].
Qed.

(** C3 (amended).  A method the mount does not permit never writes, removes or
    creates anything, whatever the environment does and however the request
    ends: the stat of the key is the only operation on the store.  Only MKCOL,
    and any method on the path /, is refused before the object store is
    touched.  PUT, DELETE and PROPFIND come after the stat of the key: a PUT
    is then answered 405 whatever the stat returned; a DELETE or a PROPFIND is
    answered 404 or 403 when the stat failed and 405 when it succeeded, but a
    PROPFIND of an object that is not newer than the If-Modified-Since date
    of the request is answered 304 Not Modified before its permission is
    looked at. *)
Theorem disallowed_method_answer req w ua ctx w0 :
  dispatched req w ua ctx w0 ->
  ((path_info req = "/" /\ method req <> "OPTIONS" /\
    (method req = "PROPFIND" -> urmp_allow_propfind (ua_responder1 ua) = None)) \/
   (path_info req <> "/" /\ method req = "MKCOL" /\
    urmp_allow_mkcol (ua_responder1 ua) = None) ->
   exists w',
     uwsgi_rados_request req w = (Ret UWSGI_OK, w') /\
     resp_calls (events_since w w') = [RespError 405] /\
     rados_calls (events_since w w') = []) /\
  (forall st w2 answer,
     path_info req <> "/" ->
     uwsgi_rados_request_stat req ctx (filename_of req ua)
       (uwsgi_rados_request_timeout (ua_responder1 ua) w0) w0 = (Ret st, w2) ->
     (method req = "PUT" /\ urmp_allow_put (ua_responder1 ua) = None /\ answer = 405) \/
     (method req = "DELETE" /\ urmp_allow_delete (ua_responder1 ua) = None /\
      answer = stat_answer (fst st)) \/
     (method req = "PROPFIND" /\ urmp_allow_propfind (ua_responder1 ua) = None /\
      (0 <= fst st -> not_modified req w (snd (snd st)) = false) /\
      answer = stat_answer (fst st)) ->
     exists w',
       uwsgi_rados_request req w = (Ret UWSGI_OK, w') /\
       resp_calls (events_since w w') = [RespError answer] /\
       Forall (fun c => is_stat_call c = true) (store_calls (events_since w w')) /\
       (uwsgi_async (w_uwsgi w) < 1 ->
        rados_calls (events_since w w') = [RStat ctx (filename_of req ua)])) /\
  (forall st w2,
     path_info req <> "/" ->
     uwsgi_rados_request_stat req ctx (filename_of req ua)
       (uwsgi_rados_request_timeout (ua_responder1 ua) w0) w0 = (Ret st, w2) ->
     method req = "PROPFIND" -> urmp_allow_propfind (ua_responder1 ua) = None ->
     0 <= fst st -> not_modified req w (snd (snd st)) = true ->
     exists r w' tail,
       uwsgi_rados_request req w = (Ret r, w') /\
       resp_calls (events_since w w') = RespPrepareHeaders "304 Not Modified" :: tail /\
       (tail = [] \/ tail = [RespWriteHeaders]) /\
       Forall (fun c => is_stat_call c = true) (store_calls (events_since w w')) /\
       (uwsgi_async (w_uwsgi w) < 1 ->
        rados_calls (events_since w w') = [RStat ctx (filename_of req ua)])) /\
  (disallowed req (ua_responder1 ua) ->
   forall r w',
     uwsgi_rados_request req w = (r, w') ->
     Forall (fun c => is_stat_call c = true) (store_calls (events_since w w'))).
Proof.
  intros Hd. split; [|split; [|split]].
  - intros Hcase.
    pose proof (request_methods_405 req ctx (ua_responder1 ua) (filename_of req ua)
                  (uwsgi_rados_request_timeout (ua_responder1 ua) w0) w0 Hcase) as Hrun.
    destruct (request_goto_end _ _ _ _ _ _ Hd Hrun) as (w' & mid & Hreq & Hmid & Hresp & Hrados & _).
    exists w'. split; [exact Hreq|]. simpl in Hmid. apply app_inv_head in Hmid. subst mid.
    rewrite Hresp, Hrados. split; reflexivity.
  - intros st w2 answer Hpath Hstat Hcase.
    destruct (dispatched_entry _ _ _ _ _ Hd) as (_ & _ & _ & Hu0 & _).
    destruct (request_stat_stat_only _ _ _ _ _ _ _ Hstat) as (evs & Hevs & Hq & Hu2 & Hsync).
    assert (Hrun : uwsgi_rados_request_methods req ctx (ua_responder1 ua) (filename_of req ua)
              (uwsgi_rados_request_timeout (ua_responder1 ua) w0) w0 =
            (Ret GotoEnd, set_trace (fun t => t ++ [EvResp (RespError answer)]) w2)).
    { assert (Ho : method req <> "OPTIONS")
        by (destruct Hcase as [(-> & _) | [(-> & _) | (-> & _)]]; discriminate).
      assert (Hm : method req <> "MKCOL")
        by (destruct Hcase as [(-> & _) | [(-> & _) | (-> & _)]]; discriminate).
      rewrite (request_methods_stat _ _ _ _ _ _ Ho Hm Hpath), (bind_run _ _ _ _ _ Hstat).
      unfold uwsgi_rados_request_after_stat.
      destruct Hcase as [(Hmeth & Hf & ->) | [(Hmeth & Hf & ->) | (Hmeth & Hf & Hnm & ->)]];
        rewrite Hmeth; simpl.
      - rewrite Hf. reflexivity.
      - unfold stat_answer. destruct (fst st <? 0) eqn:Es.
        + destruct (fst st =? - ENOENT); reflexivity.
        + rewrite Hf. reflexivity.
      - unfold stat_answer. destruct (fst st <? 0) eqn:Es.
        + destruct (fst st =? - ENOENT); reflexivity.
        + apply Z.ltb_ge in Es. specialize (Hnm Es). unfold not_modified in Hnm.
          unfold bind at 1. unfold gets at 1. rewrite Hu2, Hu0, Hnm, Hf. reflexivity. }
    destruct (request_goto_end _ _ _ _ _ _ Hd Hrun) as (w' & mid & Hreq & Hmid & Hresp & Hrados & _).
    exists w'. split; [exact Hreq|].
    simpl in Hmid. rewrite Hevs, <- app_assoc in Hmid. apply app_inv_head in Hmid. subst mid.
    destruct (stat_only_calls _ Hq) as [Hnone Hstats].
    split; [|split].
    + rewrite Hresp, resp_calls_app, Hnone. reflexivity.
    + unfold store_calls in *. rewrite Hrados, rados_calls_app. simpl. rewrite app_nil_r.
      exact Hstats.
    + intros Ha. rewrite Hrados, rados_calls_app. simpl. rewrite app_nil_r.
      rewrite Hsync; [reflexivity|]. rewrite Hu0. exact Ha.
  - intros st w2 Hpath Hstat Hmeth Hf Hok Hnm.
    destruct (dispatched_entry _ _ _ _ _ Hd) as (pre & Hpre & Hfd & Hu0 & _).
    destruct (request_stat_stat_only _ _ _ _ _ _ _ Hstat) as (evs & Hevs & Hq & Hu2 & Hsync).
    destruct (request_304_run w2) as (r & w3 & tail & H304 & Ht3 & Htail).
    assert (Hrun : uwsgi_rados_request_methods req ctx (ua_responder1 ua) (filename_of req ua)
              (uwsgi_rados_request_timeout (ua_responder1 ua) w0) w0 = (Ret (Return r), w3)).
    { assert (Ho : method req <> "OPTIONS") by (rewrite Hmeth; discriminate).
      assert (Hm : method req <> "MKCOL") by (rewrite Hmeth; discriminate).
      rewrite (request_methods_stat _ _ _ _ _ _ Ho Hm Hpath), (bind_run _ _ _ _ _ Hstat).
      unfold uwsgi_rados_request_after_stat. rewrite Hmeth. simpl.
      assert (Es : (fst st <? 0) = false) by (apply Z.ltb_ge; exact Hok). rewrite Es.
      unfold not_modified in Hnm.
      unfold bind at 1. unfold gets at 1. rewrite Hu2, Hu0, Hnm. exact H304. }
    exists r, w3, tail. split; [exact (request_return _ _ _ _ _ _ _ Hd Hrun)|].
    assert (Htr : w_trace w3 = w_trace w ++
              (pre ++ evs ++ EvResp (RespPrepareHeaders "304 Not Modified") :: map EvResp tail))
      by (rewrite Ht3, Hevs, Hpre, <- !app_assoc; reflexivity).
    rewrite (events_since_app _ _ _ Htr).
    destruct (fd_events_silent _ Hfd) as [R1 R2].
    destruct (stat_only_calls _ Hq) as [Hnone Hstats].
    assert (R3 : resp_calls (map EvResp tail) = tail)
      by (destruct Htail as [-> | ->]; reflexivity).
    assert (R4 : rados_calls (map EvResp tail) = [])
      by (destruct Htail as [-> | ->]; reflexivity).
    split; [|split; [exact Htail|split]].
    + rewrite !resp_calls_app, R1, Hnone. simpl.
      change (resp_calls (EvResp (RespPrepareHeaders "304 Not Modified") :: map EvResp tail))
        with (RespPrepareHeaders "304 Not Modified" :: resp_calls (map EvResp tail)).
      rewrite R3. reflexivity.
    + unfold store_calls in *. rewrite !rados_calls_app, R2. simpl.
      change (rados_calls (EvResp (RespPrepareHeaders "304 Not Modified") :: map EvResp tail))
        with (rados_calls (map EvResp tail)).
      rewrite R4, app_nil_r. exact Hstats.
    + intros Ha. rewrite !rados_calls_app, R2. simpl.
      change (rados_calls (EvResp (RespPrepareHeaders "304 Not Modified") :: map EvResp tail))
        with (rados_calls (map EvResp tail)).
      rewrite R4, app_nil_r. rewrite Hsync; [reflexivity|]. rewrite Hu0. exact Ha.
  - intros Hdis r w' Hrun. exact (request_disallowed _ _ _ _ _ _ _ Hd Hdis Hrun).
Qed.

(** A PUT the mount does not permit is answered 405, but only after the stat
    of the key: the request does reach the store. *)
Lemma disallowed_put_stats_first :
  resp_calls
    (events_since (example_world 0 (example_urmp false false false false) 0 ∅ hello [])
       (snd (uwsgi_rados_request (example_request "PUT" "/r/x" 5 EmptyString)
               (example_world 0 (example_urmp false false false false) 0 ∅ hello []))))
    = [RespError 405] /\
  rados_calls
    (events_since (example_world 0 (example_urmp false false false false) 0 ∅ hello [])
       (snd (uwsgi_rados_request (example_request "PUT" "/r/x" 5 EmptyString)
               (example_world 0 (example_urmp false false false false) 0 ∅ hello []))))
    = [RStat example_ctx "/x"] /\
  rados_calls
    (events_since (example_world 0 (example_urmp false false false false) 0 ∅ hello [])
       (snd (uwsgi_rados_request (example_request "PUT" "/r/x" 5 EmptyString)
               (example_world 0 (example_urmp false false false false) 0 ∅ hello []))))
    <> [].
Proof.
  split; [vm_compute; reflexivity|]. split; [vm_compute; reflexivity|].
  vm_compute. discriminate.
Qed.

(** A PUT on a mount that permits nothing, in synchronous mode. *)
Lemma disallowed_method_answer_witness :
  let req := example_request "PUT" "/r/x" 5 EmptyString in
  let w := example_world 0 (example_urmp false false false false) 0 ∅ hello [] in
  let ua := example_app (example_urmp false false false false) in
  let st := (- ENOENT, (0, 0)) in
  let w2 := snd (uwsgi_rados_request_stat req example_ctx (filename_of req ua)
                   (uwsgi_rados_request_timeout (ua_responder1 ua) w) w) in
  dispatched req w ua example_ctx w /\
  path_info req <> "/" /\
  uwsgi_rados_request_stat req example_ctx (filename_of req ua)
    (uwsgi_rados_request_timeout (ua_responder1 ua) w) w = (Ret st, w2) /\
  method req = "PUT" /\ urmp_allow_put (ua_responder1 ua) = None /\
  exists w',
    uwsgi_rados_request req w = (Ret UWSGI_OK, w') /\
    resp_calls (events_since w w') = [RespError 405] /\
    Forall (fun c => is_stat_call c = true) (store_calls (events_since w w')) /\
    (uwsgi_async (w_uwsgi w) < 1 ->
     rados_calls (events_since w w') = [RStat example_ctx (filename_of req ua)]).
Proof.
  intros req w ua st w2.
  assert (Hd : dispatched req w ua example_ctx w)
    by (apply example_dispatched; [discriminate | vm_compute; discriminate]).
  assert (H1 : path_info req <> "/") by discriminate.
  assert (H2 : uwsgi_rados_request_stat req example_ctx (filename_of req ua)
                 (uwsgi_rados_request_timeout (ua_responder1 ua) w) w = (Ret st, w2))
    by (vm_compute; reflexivity).
  assert (H3 : method req = "PUT") by reflexivity.
  assert (H4 : urmp_allow_put (ua_responder1 ua) = None) by reflexivity.
  repeat (split; [assumption|]).
  exact (proj1 (proj2 (disallowed_method_answer req w ua example_ctx w Hd)) st w2 405 H1 H2
           (or_introl (conj H3 (conj H4 eq_refl)))).
Defined.

(** ** A PUT with an empty body *)

Lemma quiet_hd w : quiet w -> hd None (w_tape w) = None.
Proof.
  unfold quiet. destruct (w_tape w); [reflexivity|]. intros H. inversion H; subst; reflexivity.
Qed.

Lemma quiet_iter w k : quiet w -> hd None (Nat.iter k (@tail (option Z)) (w_tape w)) = None.
Proof.
  unfold quiet. intros H.
  assert (Hall : Forall (fun o => o = None) (Nat.iter k tail (w_tape w))).
  { induction k as [|k IH]; simpl; [exact H|]. apply Forall_tail. exact IH. }
  destruct (Nat.iter k tail (w_tape w)); [reflexivity|]. inversion Hall; subst; reflexivity.
Qed.

Ltac quiet_tac H := unfold quiet in *; simpl; repeat apply Forall_tail; exact H.

Ltac quiet_answers H :=
  let E0 := fresh "E" in pose proof (quiet_iter _ 0 H) as E0; simpl in E0;
  let E1 := fresh "E" in pose proof (quiet_iter _ 1 H) as E1; simpl in E1;
  let E2 := fresh "E" in pose proof (quiet_iter _ 2 H) as E2; simpl in E2;
  let E3 := fresh "E" in pose proof (quiet_iter _ 3 H) as E3; simpl in E3;
  let E4 := fresh "E" in pose proof (quiet_iter _ 4 H) as E4; simpl in E4;
  let E5 := fresh "E" in pose proof (quiet_iter _ 5 H) as E5; simpl in E5.

Ltac solve_at_index :=
  first [ eassumption | eapply at_index_insert_eq; solve_at_index ].

Ltac unfold_run :=
  cbv beta iota zeta delta
    [uwsgi_rados_async_stat uwsgi_rados_set_completion
     urcb_urio_comp rados_aio_stat rados_aio_remove aio_submit uwsgi_rados_wait_completion
     wait_read_hook read write rados_aio_is_safe_and_cb rados_aio_get_return_value
     rados_aio_release load_completion load_urcb load_urio store_urio store_urcb
     uwsgi_malloc free pthread_mutex_lock pthread_mutex_unlock uwsgi_log uwsgi_error
     rados_aio_create_completion bind ret gets modify emit ask fresh abort forced_error
     deliver run_op store_stat store_remove uwsgi_rados_async_cb rados_stat rados_remove
     lookup_object stat_result].

Ltac run_step :=
  first
    [ progress simpl
    | progress unfold_run
    | match goal with
      | E : hd None _ = None |- _ => rewrite E
      | H : w_inflight _ = [] |- _ => rewrite H
      | H : _ !! _ = _ |- _ => rewrite H
      | H : at_index _ _ = Some _ |- _ => rewrite H
      end
    | rewrite set_completion_rid_run
    | rewrite lookup_insert_eq
    | rewrite Z.eqb_refl
    | erewrite at_index_insert_eq by solve_at_index ].

Lemma pipe_ends_differ (t : gmap Z fd_entry) r wr :
  t !! r = Some (PipeRead 0) -> t !! wr = Some (PipeWrite r) -> r <> wr.
Proof. intros H1 H2 ->. rewrite H1 in H2. discriminate. Qed.

Ltac idle_tac u Hu Hr Hw Hin :=
  eexists; unfold slots; simpl;
  split; [solve_at_index|]; simpl;
  split; [rewrite lookup_insert_eq; reflexivity|];
  split; [rewrite !lookup_insert_ne by (eapply pipe_ends_differ; eassumption); exact Hw|];
  rewrite Hin; simpl; rewrite Z.eqb_refl; reflexivity.

Lemma async_stat_quiet id ctx key t w :
  quiet w -> idle w id ->
  exists w1,
    uwsgi_rados_async_stat id ctx key t w = (Ret (stat_result w ctx key), w1) /\
    quiet w1 /\ idle w1 id /\ w_pools w1 = w_pools w.
Proof.
  intros Hq (u & Hu & Hr & Hw & Hin). quiet_answers Hq. unfold slots in Hu.
  unfold stat_result, lookup_object.
  destruct (w_pools w !! ioctx_pool ctx) as [objs|] eqn:Hp;
    [destruct (objs !! key) as [ob|] eqn:Hk|];
    unfold_run; repeat run_step;
    (eexists; split; [reflexivity|]; split; [quiet_tac Hq|]; split; [|reflexivity];
     idle_tac u Hu Hr Hw Hin).
Qed.

Lemma async_delete_quiet req ctx key t w ob :
  (uwsgi_async (w_uwsgi w) >? 0) = true ->
  quiet w -> idle w (async_id req) ->
  lookup_object w ctx key = Some ob ->
  exists w1,
    uwsgi_rados_delete req ctx key t w = (Ret 0, w1) /\
    quiet w1 /\ idle w1 (async_id req) /\ lookup_object w1 ctx key = None.
Proof.
  intros Ha Hq (u & Hu & Hr & Hw & Hin) Hob. quiet_answers Hq. unfold slots in Hu.
  unfold lookup_object in Hob.
  destruct (w_pools w !! ioctx_pool ctx) as [objs|] eqn:Hp; [|discriminate].
  unfold uwsgi_rados_delete. unfold bind at 1. unfold gets at 1.
  assert (E1' : (uwsgi_async (w_uwsgi w) <? 1) = false)
    by (apply Z.ltb_ge; apply Z.gtb_lt in Ha; lia).
  rewrite E1'.
  unfold_run; repeat run_step.
  eexists; split; [reflexivity|]; split; [quiet_tac Hq|]; split.
  - idle_tac u Hu Hr Hw Hin.
  - unfold lookup_object. simpl. rewrite Hp, lookup_insert_eq. apply lookup_delete_eq.
Qed.

Lemma quiet_reliable w : quiet w -> reliable w.
Proof.
  unfold quiet, reliable. intros H. eapply Forall_impl; [exact H|].
  simpl. intros o ->. reflexivity.
Qed.

Lemma request_stat_ready req ctx key t w :
  ready w (async_id req) ->
  exists w1,
    uwsgi_rados_request_stat req ctx key t w = (Ret (stat_result w ctx key), w1) /\
    ready w1 (async_id req) /\ w_pools w1 = w_pools w.
Proof.
  intros [Hq Hidle]. unfold uwsgi_rados_request_stat. unfold bind at 1. unfold gets at 1.
  destruct (uwsgi_async (w_uwsgi w) >? 0) eqn:Ha.
  - destruct (async_stat_quiet (async_id req) ctx key t w Hq (Hidle eq_refl))
      as (w1 & Hrun & Hq1 & Hi1 & Hp1).
    exists w1. split; [exact Hrun|]. split; [|exact Hp1].
    split; [exact Hq1 | intros _; exact Hi1].
  - quiet_answers Hq. unfold stat_result, lookup_object.
    destruct (w_pools w !! ioctx_pool ctx) as [objs|] eqn:Hp;
      [destruct (objs !! key) as [ob|] eqn:Hk|];
      unfold_run; repeat run_step;
      (eexists; split; [reflexivity|]; split; [|reflexivity];
       split; [quiet_tac Hq | simpl; rewrite Ha; discriminate]).
Qed.

Lemma delete_ready req ctx key t w ob :
  ready w (async_id req) ->
  lookup_object w ctx key = Some ob ->
  exists w1,
    uwsgi_rados_delete req ctx key t w = (Ret 0, w1) /\
    ready w1 (async_id req) /\ lookup_object w1 ctx key = None.
Proof.
  intros [Hq Hidle] Hob.
  destruct (uwsgi_async (w_uwsgi w) >? 0) eqn:Ha.
  - destruct (async_delete_quiet req ctx key t w ob Ha Hq (Hidle eq_refl) Hob)
      as (w1 & Hrun & Hq1 & Hi1 & Hl1).
    exists w1. split; [exact Hrun|]. split; [|exact Hl1].
    split; [exact Hq1 | intros _; exact Hi1].
  - quiet_answers Hq. unfold lookup_object in Hob.
    destruct (w_pools w !! ioctx_pool ctx) as [objs|] eqn:Hp; [|discriminate].
    unfold uwsgi_rados_delete. unfold bind at 1. unfold gets at 1.
    assert (E1' : (uwsgi_async (w_uwsgi w) <? 1) = true)
      by (apply Z.ltb_lt; rewrite Z.gtb_ltb in Ha; apply Z.ltb_ge in Ha; lia).
    rewrite E1'.
    unfold_run; repeat run_step.
    eexists; split; [reflexivity|]; split.
    + split; [quiet_tac Hq | simpl; rewrite Ha; discriminate].
    + unfold lookup_object. simpl. rewrite Hp, lookup_insert_eq. apply lookup_delete_eq.
Qed.

(** With an empty body the put primitive writes nothing. *)
Lemma put_empty req ctx key t w :
  post_cl req = 0 -> uwsgi_rados_put req ctx key t w = (Ret 0, w).
Proof. intros H. unfold uwsgi_rados_put. rewrite H. reflexivity. Qed.

Lemma dispatched_ready req w ua ctx w0 :
  dispatched req w ua ctx w0 -> quiet w ->
  ((uwsgi_async (w_uwsgi w) >? 0) = true -> w_inflight w = []) ->
  ready w0 (async_id req).
Proof.
  intros [_ _ _ _ _ _ Hpipe] Hq Hin.
  destruct (uwsgi_async (w_uwsgi w) >? 0) eqn:Ha.
  - destruct (pipe_ok _ _ _ Hpipe) as (u & Hu & ->). split; [quiet_tac Hq|].
    intros _. eexists. unfold slots. simpl.
    split; [eapply at_index_insert_eq; exact Hu|]. simpl.
    split; [rewrite lookup_insert_ne by lia; apply lookup_insert_eq|].
    split; [apply lookup_insert_eq | apply Hin; reflexivity].
  - subst w0. split; [exact Hq|]. rewrite Ha. discriminate.
Qed.

Lemma quiet_store_background e : is_background e = true -> quiet_store e = true.
Proof.
  destruct e as [| | | | | | | | | | |c|]; try discriminate; try reflexivity.
  destruct c; try discriminate; reflexivity.
Qed.

Lemma quiet_store_calls evs :
  forallb quiet_store evs = true ->
  resp_calls evs = [] /\ Forall (fun c => is_write_call c = false) (rados_calls evs).
Proof.
  induction evs as [|e evs IH]; simpl; [split; [reflexivity | constructor]|].
  intros H. apply andb_prop in H. destruct H as [He H]. destruct (IH H) as [IH1 IH2].
  unfold quiet_store in He. apply andb_prop in He. destruct He as [He1 He2].
  destruct e; simpl; try (split; assumption); [|discriminate].
  split; [assumption|]. constructor; [|assumption].
  simpl in He1. apply negb_true_iff in He1. exact He1.
Qed.

Lemma lookup_object_pools w w' ctx key :
  w_pools w' = w_pools w -> lookup_object w' ctx key = lookup_object w ctx key.
Proof. intros H. unfold lookup_object. rewrite H. reflexivity. Qed.

(** The method dispatch of a PUT with an empty body, permitted by the mount. *)
Lemma request_put_empty req ctx urmp key t w :
  ready w (async_id req) ->
  method req = "PUT" -> path_info req <> "/" -> post_cl req = 0 ->
  is_set (urmp_allow_put urmp) = true ->
  exists w3 evs,
    uwsgi_rados_request_methods req ctx urmp key t w = (Ret GotoEnd, w3) /\
    w_trace w3 = w_trace w ++ evs /\
    resp_calls evs = [RespPrepareHeaders "201 Created"] /\
    Forall (fun c => is_write_call c = false) (rados_calls evs) /\
    lookup_object w3 ctx key = None /\
    ready w3 (async_id req).
Proof.
  intros Hready Hm Hpath Hcl Hallow.
  assert (Ho : method req <> "OPTIONS") by (rewrite Hm; discriminate).
  assert (Hk : method req <> "MKCOL") by (rewrite Hm; discriminate).
  rewrite (request_methods_stat _ _ _ _ _ _ Ho Hk Hpath).
  destruct (request_stat_ready req ctx key t w Hready) as (w1 & Hstat & Hready1 & Hp1).
  rewrite (bind_run _ _ _ _ _ Hstat).
  destruct (preserves_request_stat quiet_store 0 quiet_store_background req ctx key t
              eq_refl (fun _ => eq_refl) _ _ _ Hstat) as (evs1 & Ht1 & Hq1 & _).
  unfold uwsgi_rados_request_after_stat. rewrite Hm, Hallow. simpl.
  unfold stat_result.
  destruct (lookup_object w ctx key) as [ob|] eqn:Hob; simpl.
  - assert (Hob1 : lookup_object w1 ctx key = Some ob)
      by (rewrite (lookup_object_pools _ _ _ _ Hp1); exact Hob).
    destruct (delete_ready req ctx key t w1 ob Hready1 Hob1) as (w2 & Hdel & Hready2 & Hnone).
    rewrite (bind_run _ _ _ _ _ Hdel). simpl.
    destruct (preserves_delete quiet_store 0 quiet_store_background req ctx key t
                eq_refl (fun _ => eq_refl) _ _ _ Hdel) as (evs2 & Ht2 & Hq2 & _).
    rewrite (bind_run _ _ _ _ _ (put_empty req ctx key t w2 Hcl)). simpl.
    unfold uwsgi_response_prepare_headers.
    destruct Hready2 as [Hq Hidle].
    rewrite (bind_run _ _ _ _ _ (response_call_ok _ _ (quiet_reliable _ Hq))).
    eexists. exists (evs1 ++ evs2 ++ [EvResp (RespPrepareHeaders "201 Created")]).
    split; [reflexivity|]. simpl.
    destruct (quiet_store_calls _ Hq1) as [R1 W1]. destruct (quiet_store_calls _ Hq2) as [R2 W2].
    split; [rewrite Ht2, Ht1, <- !app_assoc; reflexivity|].
    split; [rewrite !resp_calls_app, R1, R2; reflexivity|].
    split; [rewrite !rados_calls_app; simpl; rewrite app_nil_r; apply Forall_app; split;
            assumption|].
    split; [exact Hnone|].
    split; [quiet_tac Hq | exact Hidle].
  - rewrite (bind_run (ret 0) _ w1 0 w1 eq_refl). simpl.
    rewrite (bind_run _ _ _ _ _ (put_empty req ctx key t w1 Hcl)). simpl.
    unfold uwsgi_response_prepare_headers.
    destruct Hready1 as [Hq Hidle].
    rewrite (bind_run _ _ _ _ _ (response_call_ok _ _ (quiet_reliable _ Hq))).
    eexists. exists (evs1 ++ [EvResp (RespPrepareHeaders "201 Created")]).
    split; [reflexivity|]. simpl.
    destruct (quiet_store_calls _ Hq1) as [R1 W1].
    split; [rewrite Ht1, <- !app_assoc; reflexivity|].
    split; [rewrite !resp_calls_app, R1; reflexivity|].
    split; [rewrite !rados_calls_app; simpl; rewrite app_nil_r; assumption|].
    split; [unfold lookup_object in *; simpl; rewrite Hp1; exact Hob|].
    split; [quiet_tac Hq | exact Hidle].
Qed.

(** A GET of a key that is not in the pool. *)
Lemma request_get_missing req w ua ctx w0 :
  dispatched req w ua ctx w0 ->
  method req = "GET" -> path_info req <> "/" ->
  quiet w -> ((uwsgi_async (w_uwsgi w) >? 0) = true -> w_inflight w = []) ->
  lookup_object w ctx (filename_of req ua) = None ->
  exists w',
    uwsgi_rados_request req w = (Ret UWSGI_OK, w') /\
    resp_calls (events_since w w') = [RespError 404].
Proof.
  intros Hd Hm Hpath Hq Hin Hnone.
  pose proof (dispatched_ready _ _ _ _ _ Hd Hq Hin) as Hready.
  destruct (dispatched_entry _ _ _ _ _ Hd) as (_ & _ & _ & _ & Hp0 & _).
  destruct (request_stat_ready req ctx (filename_of req ua)
              (uwsgi_rados_request_timeout (ua_responder1 ua) w0) w0 Hready)
    as (w1 & Hstat & _ & _).
  unfold stat_result in Hstat.
  rewrite (lookup_object_pools _ _ _ _ Hp0), Hnone in Hstat.
  assert (Hrun : uwsgi_rados_request_methods req ctx (ua_responder1 ua) (filename_of req ua)
            (uwsgi_rados_request_timeout (ua_responder1 ua) w0) w0 =
          (Ret GotoEnd, set_trace (fun t => t ++ [EvResp (RespError 404)]) w1)).
  { assert (Ho : method req <> "OPTIONS") by (rewrite Hm; discriminate).
    assert (Hk : method req <> "MKCOL") by (rewrite Hm; discriminate).
    rewrite (request_methods_stat _ _ _ _ _ _ Ho Hk Hpath), (bind_run _ _ _ _ _ Hstat).
    unfold uwsgi_rados_request_after_stat. rewrite Hm. reflexivity. }
  destruct (request_goto_end _ _ _ _ _ _ Hd Hrun) as (w' & mid & Hreq & Hmid & Hresp & _).
  exists w'. split; [exact Hreq|]. rewrite Hresp.
  destruct (request_stat_no_resp _ _ _ _ _ _ _ Hstat) as (evs & Hevs & Hno).
  simpl in Hmid. rewrite Hevs, <- app_assoc in Hmid. apply app_inv_head in Hmid.
  rewrite <- Hmid, resp_calls_app, Hno. reflexivity.
Qed.

(** C10 (amended).  A PUT with Content-Length 0 of a key other than / on a
    mount that permits PUT, in an environment where nothing fails: the put primitive returns 0 and leaves
    the world as it is, no write is issued, the request is answered 201
    Created, the key holds no object afterwards (an object that was there has
    been removed and is not created again), and a GET of the key that follows
    is answered 404. *)
Theorem put_empty_body req w ua ctx w0 :
  dispatched req w ua ctx w0 ->
  method req = "PUT" -> path_info req <> "/" -> post_cl req = 0 ->
  is_set (urmp_allow_put (ua_responder1 ua)) = true ->
  quiet w -> ((uwsgi_async (w_uwsgi w) >? 0) = true -> w_inflight w = []) ->
  (forall w1,
     uwsgi_rados_put req ctx (filename_of req ua)
       (uwsgi_rados_request_timeout (ua_responder1 ua) w0) w1 = (Ret 0, w1)) /\
  exists w',
    uwsgi_rados_request req w = (Ret UWSGI_OK, w') /\
    resp_calls (events_since w w') = [RespPrepareHeaders "201 Created"] /\
    Forall (fun c => is_write_call c = false) (rados_calls (events_since w w')) /\
    lookup_object w' ctx (filename_of req ua) = None /\
    forall req' w0',
      method req' = "GET" -> path_info req' = path_info req ->
      dispatched req' w' ua ctx w0' ->
      exists w'',
        uwsgi_rados_request req' w' = (Ret UWSGI_OK, w'') /\
        resp_calls (events_since w' w'') = [RespError 404].
Proof.
  intros Hd Hm Hpath Hcl Hallow Hq Hin.
  split; [intros w1; apply put_empty; exact Hcl|].
  pose proof (dispatched_ready _ _ _ _ _ Hd Hq Hin) as Hready.
  destruct (request_put_empty req ctx (ua_responder1 ua) (filename_of req ua)
              (uwsgi_rados_request_timeout (ua_responder1 ua) w0) w0
              Hready Hm Hpath Hcl Hallow)
    as (w3 & evs & Hrun & Hevs & Hresp & Hnw & Hnone & [Hq3 Hidle3]).
  destruct (request_goto_end _ _ _ _ _ _ Hd Hrun)
    as (w' & mid & Hreq & Hmid & Hr1 & Hr2 & Hp & Ht & Hu & Hi).
  rewrite Hevs in Hmid. apply app_inv_head in Hmid. subst mid.
  exists w'. split; [exact Hreq|]. split; [rewrite Hr1; exact Hresp|].
  split; [rewrite Hr2; exact Hnw|].
  assert (Hnone' : lookup_object w' ctx (filename_of req ua) = None)
    by (rewrite (lookup_object_pools _ _ _ _ Hp); exact Hnone).
  split; [exact Hnone'|].
  intros req' w0' Hm' Hpath' Hd'.
  apply (request_get_missing req' w' ua ctx w0' Hd' Hm').
  - rewrite Hpath'. exact Hpath.
  - unfold quiet in *. rewrite Ht. exact Hq3.
  - intros Ha. rewrite Hi. rewrite Hu in Ha.
    destruct (dispatched_entry _ _ _ _ _ Hd) as (_ & _ & _ & Hu0 & _).
    destruct (preserves_uwsgi any_event 0 _ _ _ _ (all_request_methods 0 _ _ _ _ _) Hrun).
    rewrite <- Hu0 in Ha.
    destruct (Hidle3 Ha) as (u & _ & _ & _ & Hin3). exact Hin3.
  - unfold filename_of. rewrite Hpath'. exact Hnone'.
Qed.

(** A PUT of the path / is no PUT of a key: whatever the mount permits, the
    gate of the empty paths answers 405, and an object stored under the key /
    stays as it is. *)
Lemma put_root_refused :
  method (example_request "PUT" "/" 0 EmptyString) = "PUT" /\
  post_cl (example_request "PUT" "/" 0 EmptyString) = 0 /\
  is_set (urmp_allow_put (example_urmp true true false false)) = true /\
  lookup_object (example_world 0 (example_urmp true true false false) 0
                   {[ "/" := mk_object hello 1000 ]} [] []) example_ctx "/" =
    Some (mk_object hello 1000) /\
  uwsgi_rados_request (example_request "PUT" "/" 0 EmptyString)
    (example_world 0 (example_urmp true true false false) 0
       {[ "/" := mk_object hello 1000 ]} [] []) =
    (Ret UWSGI_OK,
     snd (uwsgi_rados_request (example_request "PUT" "/" 0 EmptyString)
            (example_world 0 (example_urmp true true false false) 0
               {[ "/" := mk_object hello 1000 ]} [] []))) /\
  resp_calls
    (events_since
       (example_world 0 (example_urmp true true false false) 0
          {[ "/" := mk_object hello 1000 ]} [] [])
       (snd (uwsgi_rados_request (example_request "PUT" "/" 0 EmptyString)
               (example_world 0 (example_urmp true true false false) 0
                  {[ "/" := mk_object hello 1000 ]} [] [])))) = [RespError 405] /\
  rados_calls
    (events_since
       (example_world 0 (example_urmp true true false false) 0
          {[ "/" := mk_object hello 1000 ]} [] [])
       (snd (uwsgi_rados_request (example_request "PUT" "/" 0 EmptyString)
               (example_world 0 (example_urmp true true false false) 0
                  {[ "/" := mk_object hello 1000 ]} [] [])))) = [] /\
  lookup_object
    (snd (uwsgi_rados_request (example_request "PUT" "/" 0 EmptyString)
            (example_world 0 (example_urmp true true false false) 0
               {[ "/" := mk_object hello 1000 ]} [] [])))
    example_ctx "/" = Some (mk_object hello 1000).
Proof. repeat split; vm_compute; reflexivity. Qed.

(** The environment matters as well: when librados fails to remove the object
    that is there (here with -5), the PUT is answered 500 and the object
    stays. *)
Lemma put_empty_remove_fails :
  resp_calls
    (events_since
       (example_world 0 (example_urmp true true false false) 0
          {[ "/foo" := mk_object hello 1000 ]} [] [None; Some (-5)])
       (snd (uwsgi_rados_request (example_request "PUT" "/r/foo" 0 EmptyString)
               (example_world 0 (example_urmp true true false false) 0
                  {[ "/foo" := mk_object hello 1000 ]} [] [None; Some (-5)])))) =
    [RespError 500] /\
  lookup_object
    (snd (uwsgi_rados_request (example_request "PUT" "/r/foo" 0 EmptyString)
            (example_world 0 (example_urmp true true false false) 0
               {[ "/foo" := mk_object hello 1000 ]} [] [None; Some (-5)])))
    example_ctx "/foo" = Some (mk_object hello 1000).
Proof. split; vm_compute; reflexivity. Qed.

(** A PUT with an empty body over an object the pool holds. *)
Lemma put_empty_body_witness :
  let req := example_request "PUT" "/r/foo" 0 EmptyString in
  let w := example_world 0 (example_urmp true true false false) 0
             {[ "/foo" := mk_object hello 1000 ]} [] [] in
  let ua := example_app (example_urmp true true false false) in
  dispatched req w ua example_ctx w /\
  method req = "PUT" /\ path_info req <> "/" /\ post_cl req = 0 /\
  is_set (urmp_allow_put (ua_responder1 ua)) = true /\
  quiet w /\ ((uwsgi_async (w_uwsgi w) >? 0) = true -> w_inflight w = []) /\
  lookup_object w example_ctx (filename_of req ua) = Some (mk_object hello 1000) /\
  (forall w1,
     uwsgi_rados_put req example_ctx (filename_of req ua)
       (uwsgi_rados_request_timeout (ua_responder1 ua) w) w1 = (Ret 0, w1)) /\
  exists w',
    uwsgi_rados_request req w = (Ret UWSGI_OK, w') /\
    resp_calls (events_since w w') = [RespPrepareHeaders "201 Created"] /\
    Forall (fun c => is_write_call c = false) (rados_calls (events_since w w')) /\
    lookup_object w' example_ctx (filename_of req ua) = None /\
    forall req' w0',
      method req' = "GET" -> path_info req' = path_info req ->
      dispatched req' w' ua example_ctx w0' ->
      exists w'',
        uwsgi_rados_request req' w' = (Ret UWSGI_OK, w'') /\
        resp_calls (events_since w' w'') = [RespError 404].
Proof.
  intros req w ua.
  assert (Hd : dispatched req w ua example_ctx w)
    by (apply example_dispatched; [discriminate | vm_compute; discriminate]).
  assert (H1 : method req = "PUT") by reflexivity.
  assert (H2 : path_info req <> "/") by discriminate.
  assert (H3 : post_cl req = 0) by reflexivity.
  assert (H4 : is_set (urmp_allow_put (ua_responder1 ua)) = true) by reflexivity.
  assert (H5 : quiet w) by constructor.
  assert (H6 : (uwsgi_async (w_uwsgi w) >? 0) = true -> w_inflight w = [])
    by (intros _; reflexivity).
  repeat (split; [assumption|]).
  split; [vm_compute; reflexivity|].
  exact (put_empty_body req w ua example_ctx w Hd H1 H2 H3 H4 H5 H6).
Defined.

(** ** The I/O context of a request *)

Lemma ioctx_eqb_eq a b : ioctx_eqb a b = true <-> a = b.
Proof.
  unfold ioctx_eqb. destruct a as [ia pa], b as [ib pb]. simpl.
  rewrite andb_true_iff, Z.eqb_eq, String.eqb_eq. split.
  - intros [-> ->]. reflexivity.
  - intros H. inversion H. split; reflexivity.
Qed.

Lemma ioctx_eqb_refl a : ioctx_eqb a a = true.
Proof. apply ioctx_eqb_eq. reflexivity. Qed.

Lemma on_ctx_background ctx e : is_background e = true -> on_ctx ctx e = true.
Proof.
  destruct e as [| | | | | | | | | | |c|]; try discriminate; try reflexivity.
  destruct c; try discriminate; reflexivity.
Qed.

Lemma on_ctx_calls ctx evs :
  forallb (on_ctx ctx) evs = true ->
  Forall (fun c => forall ctx', call_ioctx c = Some ctx' -> ctx' = ctx) (rados_calls evs).
Proof.
  induction evs as [|e evs IH]; simpl; [constructor|].
  intros H. apply andb_prop in H. destruct H as [He H]. specialize (IH H).
  destruct e; simpl; try assumption.
  constructor; [|assumption]. intros ctx' Hc. simpl in He. rewrite Hc in He.
  apply ioctx_eqb_eq. exact He.
Qed.

Section OnContext.
Variable ctx : rados_ioctx_t.
Variable i : Z.

Ltac use L := first [ apply (L (on_ctx ctx) i (on_ctx_background ctx)) | apply L ].

Ltac ctx_side := first [ reflexivity | simpl; apply ioctx_eqb_refl ].

Ltac ctx_step :=
  lazymatch goal with
  | |- preserves _ _ (bind _ _) => apply preserves_bind; [ | intros ? ]
  | |- preserves _ _ (ret _) => apply preserves_ret
  | |- preserves _ _ (abort _) => apply preserves_abort
  | |- preserves _ _ (exit _) => apply preserves_exit
  | |- preserves _ _ (gets _) => apply preserves_gets
  | |- preserves _ _ ask => apply preserves_ask
  | |- preserves _ _ fresh => apply preserves_fresh
  | |- preserves _ _ (emit _) => apply preserves_emit; ctx_side
  | |- preserves _ _ (modify (set_heap _)) => apply preserves_set_heap
  | |- preserves _ _ (modify (set_fdtab _)) => apply preserves_set_fdtab
  | |- preserves _ _ (modify (set_pools _)) => apply preserves_set_pools
  | |- preserves _ _ (modify (set_comps _)) => apply preserves_set_comps
  | |- preserves _ _ (modify (set_inflight _)) => apply preserves_set_inflight
  | |- preserves _ _ (modify (set_body _)) => apply preserves_set_body
  | |- preserves _ _ (load_urio _) => apply preserves_load_urio
  | |- preserves _ _ (load_urcb _) => apply preserves_load_urcb
  | |- preserves _ _ (load_completion _) => apply preserves_load_completion
  | |- preserves _ _ (uwsgi_log _) => use preserves_uwsgi_log
  | |- preserves _ _ (uwsgi_error _) => use preserves_uwsgi_error
  | |- preserves _ _ (close _) => use preserves_close
  | |- preserves _ _ (pipe _) => use preserves_pipe
  | |- preserves _ _ (store_stat _ _) => use preserves_store_stat
  | |- preserves _ _ (store_remove _ _) => use preserves_store_remove
  | |- preserves _ _ (store_write_full _ _ _) => use preserves_store_write_full
  | |- preserves _ _ (store_read _ _ _ _) => use preserves_store_read
  | |- preserves _ _ (uwsgi_rados_set_completion _) => use preserves_set_completion
  | |- preserves _ _ (uwsgi_rados_wait_completion _ _ _) => use preserves_wait_completion
  | |- preserves _ _ (urcb_urio_comp _) => use preserves_urcb_urio_comp
  | |- preserves _ _ (aio_submit _ _ _) => use preserves_aio_submit; ctx_side
  | |- preserves _ _ (response_call _) => use preserves_response_call; reflexivity
  | |- preserves _ _ (uwsgi_buffer_append _ _) => use preserves_buffer_append
  | |- preserves _ _ (uwsgi_rados_request_end _) => use preserves_request_end
  | |- preserves _ _ (if ?b then _ else _) => destruct b
  | |- preserves _ _ (match ?x with _ => _ end) => destruct x
  | |- preserves _ _ _ => solve [ eauto with ctxdb ]
  end.

Ltac ctx_pres := cbv zeta; repeat (ctx_step; cbv zeta).

Create HintDb ctxdb.

Lemma ctx_rados_stat key : preserves (on_ctx ctx) i (rados_stat ctx key).
Proof. unfold rados_stat. ctx_pres. Qed.

Lemma ctx_rados_remove key : preserves (on_ctx ctx) i (rados_remove ctx key).
Proof. unfold rados_remove. ctx_pres. Qed.

Lemma ctx_rados_write_full key buf n : preserves (on_ctx ctx) i (rados_write_full ctx key buf n).
Proof. unfold rados_write_full. ctx_pres. Qed.

Lemma ctx_rados_read key n off : preserves (on_ctx ctx) i (rados_read ctx key n off).
Proof. unfold rados_read. ctx_pres. Qed.

Lemma ctx_rados_pool_create c n : preserves (on_ctx ctx) i (rados_pool_create c n).
Proof. unfold rados_pool_create. ctx_pres. Qed.

Lemma ctx_list_open : preserves (on_ctx ctx) i (rados_objects_list_open ctx).
Proof. unfold rados_objects_list_open. ctx_pres. Qed.

Lemma ctx_list_next l : preserves (on_ctx ctx) i (rados_objects_list_next l).
Proof. unfold rados_objects_list_next. ctx_pres. Qed.

Lemma ctx_list_close : preserves (on_ctx ctx) i rados_objects_list_close.
Proof. unfold rados_objects_list_close. ctx_pres. Qed.

Lemma ctx_multistatus_new : preserves (on_ctx ctx) i uwsgi_webdav_multistatus_new.
Proof. unfold uwsgi_webdav_multistatus_new. ctx_pres. Qed.

Lemma ctx_item_add ub h s m mi :
  preserves (on_ctx ctx) i (uwsgi_webdav_propfind_item_add ub h s m mi).
Proof. unfold uwsgi_webdav_propfind_item_add. ctx_pres. Qed.

Lemma ctx_multistatus_close ub : preserves (on_ctx ctx) i (uwsgi_webdav_multistatus_close ub).
Proof. unfold uwsgi_webdav_multistatus_close. ctx_pres. Qed.

Lemma ctx_body_read hint : preserves (on_ctx ctx) i (uwsgi_request_body_read hint).
Proof. unfold uwsgi_request_body_read. ctx_pres. Qed.

Hint Resolve ctx_rados_stat ctx_rados_remove ctx_rados_write_full ctx_rados_read
  ctx_rados_pool_create ctx_list_open ctx_list_next ctx_list_close ctx_multistatus_new
  ctx_item_add ctx_multistatus_close ctx_body_read : ctxdb.

Lemma ctx_delete req key t : preserves (on_ctx ctx) i (uwsgi_rados_delete req ctx key t).
Proof. unfold uwsgi_rados_delete, rados_aio_remove. ctx_pres. Qed.

Lemma ctx_put_loop fuel req key t remains off :
  preserves (on_ctx ctx) i (uwsgi_rados_put_loop fuel req ctx key t remains off).
Proof.
  revert remains off. induction fuel as [|fuel IH]; intros remains off; simpl;
    unfold rados_aio_write_full; ctx_pres.
Qed.

Lemma ctx_put req key t : preserves (on_ctx ctx) i (uwsgi_rados_put req ctx key t).
Proof. unfold uwsgi_rados_put. apply ctx_put_loop. Qed.

Lemma ctx_async_stat id key t : preserves (on_ctx ctx) i (uwsgi_rados_async_stat id ctx key t).
Proof. unfold uwsgi_rados_async_stat, rados_aio_stat. ctx_pres. Qed.

Lemma ctx_read_sync fuel key remains off :
  preserves (on_ctx ctx) i (uwsgi_rados_read_sync fuel ctx key remains off).
Proof.
  revert remains off. induction fuel as [|fuel IH]; intros remains off; simpl;
    unfold uwsgi_response_write_body_do; ctx_pres.
Qed.

Lemma ctx_read_async fuel req key t remains off :
  preserves (on_ctx ctx) i (uwsgi_rados_read_async fuel req ctx key t remains off).
Proof.
  revert remains off. induction fuel as [|fuel IH]; intros remains off; simpl;
    unfold uwsgi_response_write_body_do, rados_aio_read; ctx_pres.
Qed.

Hint Resolve ctx_delete ctx_put ctx_async_stat ctx_read_sync ctx_read_async : ctxdb.

Lemma ctx_read req key remains t : preserves (on_ctx ctx) i (uwsgi_rados_read req ctx key remains t).
Proof. unfold uwsgi_rados_read. ctx_pres. Qed.

Lemma ctx_propfind_body fuel remains :
  preserves (on_ctx ctx) i (uwsgi_rados_propfind_body fuel remains).
Proof. revert remains. induction fuel as [|fuel IH]; intros remains; simpl; ctx_pres. Qed.

Lemma ctx_propfind_list fuel req t l ub :
  preserves (on_ctx ctx) i (uwsgi_rados_propfind_list fuel req ctx t l ub).
Proof.
  revert l ub. induction fuel as [|fuel IH]; intros l ub; simpl;
    unfold uwsgi_response_write_xml_do; ctx_pres.
Qed.

Hint Resolve ctx_read ctx_propfind_body ctx_propfind_list : ctxdb.

Lemma ctx_propfind req key s m t : preserves (on_ctx ctx) i (uwsgi_rados_propfind req ctx key s m t).
Proof.
  unfold uwsgi_rados_propfind, uwsgi_response_prepare_headers, uwsgi_response_add_content_type,
    uwsgi_response_write_xml_do. ctx_pres.
Qed.

Hint Resolve ctx_propfind : ctxdb.

Lemma ctx_request_options urmp : preserves (on_ctx ctx) i (uwsgi_rados_request_options urmp).
Proof.
  unfold uwsgi_rados_request_options, uwsgi_response_prepare_headers, uwsgi_response_add_header.
  ctx_pres.
Qed.

Lemma ctx_request_stat req key t : preserves (on_ctx ctx) i (uwsgi_rados_request_stat req ctx key t).
Proof. unfold uwsgi_rados_request_stat. ctx_pres. Qed.

Lemma ctx_request_after_stat req urmp key t st :
  preserves (on_ctx ctx) i (uwsgi_rados_request_after_stat req ctx urmp key t st).
Proof.
  unfold uwsgi_rados_request_after_stat, uwsgi_response_prepare_headers,
    uwsgi_response_add_header, uwsgi_response_write_headers_do,
    uwsgi_response_add_content_type, uwsgi_response_add_last_modified,
    uwsgi_response_add_content_length, uwsgi_403, uwsgi_404, uwsgi_405, uwsgi_500.
  ctx_pres.
Qed.

Hint Resolve ctx_request_options ctx_request_stat ctx_request_after_stat : ctxdb.

(** Every call of the method dispatch on an I/O context is on the context the
    dispatcher was given. *)
Lemma ctx_request_methods req urmp key t :
  preserves (on_ctx ctx) i (uwsgi_rados_request_methods req ctx urmp key t).
Proof.
  unfold uwsgi_rados_request_methods, uwsgi_response_prepare_headers, uwsgi_405, uwsgi_500.
  ctx_pres.
Qed.

Hint Resolve ctx_request_methods : ctxdb.

(** The handler from the creation of the pipe on. *)
Lemma ctx_request_body req (uwsgi : uwsgi_server) urmp key :
  preserves (on_ctx ctx) i
    (p <- (if uwsgi_async uwsgi >? 0 then pipe (async_id req) else ret 0) ;;
     if nz p then
       uwsgi_error "uwsgi_rados_read_async()/pipe()" ;;
       uwsgi_500 ;;
       ret UWSGI_OK
     else
     timeout <- gets (uwsgi_rados_request_timeout urmp) ;;
     fl <- uwsgi_rados_request_methods req ctx urmp key timeout ;;
     match fl with
     | GotoEnd => uwsgi_rados_request_end req
     | Return r => ret r
     end).
Proof. unfold uwsgi_500. ctx_pres. Qed.
End OnContext.

(** In synchronous mode the method dispatch starts from the world of the
    entry. *)
Lemma served_dispatched req w ua ctx :
  served req w ua ->
  uwsgi_rados_request_ctx (uwsgi_threads (w_uwsgi w)) ua (async_id req) w = (Ret ctx, w) ->
  uwsgi_async (w_uwsgi w) < 1 ->
  dispatched req w ua ctx w.
Proof.
  intros [H1 H2 H3 H4 H5] Hctx Ha. constructor; try assumption.
  assert (E : (uwsgi_async (w_uwsgi w) >? 0) = false)
    by (rewrite Z.gtb_ltb; apply Z.ltb_ge; lia).
  rewrite E. reflexivity.
Qed.

Lemma request_stat_sync req ctx key t w :
  uwsgi_async (w_uwsgi w) < 1 ->
  uwsgi_rados_request_stat req ctx key t w = rados_stat ctx key w.
Proof.
  intros Ha. unfold uwsgi_rados_request_stat. unfold bind at 1. unfold gets at 1.
  assert (E : (uwsgi_async (w_uwsgi w) >? 0) = false)
    by (rewrite Z.gtb_ltb; apply Z.ltb_ge; lia).
  rewrite E. reflexivity.
Qed.

(** The synchronous stat always returns, and is one call to librados. *)
Lemma rados_stat_total ctx key w :
  exists st ws,
    rados_stat ctx key w = (Ret st, ws) /\
    w_trace ws = w_trace w ++ [EvRados (RStat ctx key)].
Proof.
  unfold rados_stat, store_stat, bind, emit, modify, ask, gets, ret. simpl.
  destruct (forced_error (hd None (w_tape w))); [eexists; eexists; split; reflexivity|].
  destruct (lookup_object _ ctx key); eexists; eexists; split; reflexivity.
Qed.

(** Every call of a request on an I/O context is on the context of the array
    at the index async_id of the request. *)
Lemma request_on_ctx req w ua ctx r w' :
  served req w ua ->
  uwsgi_rados_request_ctx (uwsgi_threads (w_uwsgi w)) ua (async_id req) w = (Ret ctx, w) ->
  uwsgi_rados_request req w = (r, w') ->
  forallb (on_ctx ctx) (events_since w w') = true.
Proof.
  intros [Hlen Hvars Hmin Hmax (app_id & Happ & Hne & Hua)] Hctx Hrun.
  unfold uwsgi_rados_request in Hrun.
  apply Z.eqb_neq in Hlen. rewrite Hlen, Hvars in Hrun. simpl in Hrun.
  apply Nat.eqb_neq in Hmin. rewrite Hmin in Hrun.
  assert (Hgt : (Z.of_nat (String.length (path_info req)) >? PATH_MAX) = false).
  { rewrite Z.gtb_ltb. apply Z.ltb_ge. exact Hmax. }
  rewrite Hgt in Hrun. simpl in Hrun.
  unfold bind at 1 in Hrun. unfold gets at 1 in Hrun.
  rewrite (bind_run _ _ _ _ _ Happ) in Hrun.
  apply Z.eqb_neq in Hne. rewrite Hne, Hua in Hrun.
  rewrite (bind_run _ _ _ _ _ Hctx) in Hrun.
  destruct (ctx_request_body ctx 0 req (w_uwsgi w) (ua_responder1 ua)
              (uwsgi_rados_request_filename (path_info req) (ua_mountpoint ua)) _ _ _ Hrun)
    as (evs & Ht & Hq & _).
  rewrite (events_since_app _ _ _ Ht). exact Hq.
Qed.

(** In synchronous mode a request that reaches the stat issues it on that
    context. *)
Lemma request_stat_on_ctx req w ua ctx :
  served req w ua ->
  uwsgi_rados_request_ctx (uwsgi_threads (w_uwsgi w)) ua (async_id req) w = (Ret ctx, w) ->
  uwsgi_async (w_uwsgi w) < 1 ->
  method req <> "OPTIONS" -> method req <> "MKCOL" -> path_info req <> "/" ->
  exists rest,
    rados_calls (events_since w (snd (uwsgi_rados_request req w))) =
      RStat ctx (filename_of req ua) :: rest.
Proof.
  intros Hs Hctx Ha Ho Hm Hpath.
  pose proof (served_dispatched _ _ _ _ Hs Hctx Ha) as Hd.
  destruct (rados_stat_total ctx (filename_of req ua) w) as (st & ws & Hstat & Hts).
  rewrite <- (request_stat_sync req _ _ (uwsgi_rados_request_timeout (ua_responder1 ua) w) _ Ha)
    in Hstat.
  destruct (uwsgi_rados_request req w) as [r w2] eqn:Hrun. simpl.
  rewrite (request_dispatched _ _ _ _ _ Hd) in Hrun.
  unfold bind at 1 in Hrun.
  rewrite (request_methods_stat _ _ _ _ _ _ Ho Hm Hpath), (bind_run _ _ _ _ _ Hstat) in Hrun.
  assert (Hp : preserves any_event 0
            (bind (uwsgi_rados_request_after_stat req ctx (ua_responder1 ua) (filename_of req ua)
                     (uwsgi_rados_request_timeout (ua_responder1 ua) w) st)
                  (fun fl => match fl with
                             | GotoEnd => uwsgi_rados_request_end req
                             | Return r => ret r
                             end))).
  { apply preserves_bind; [apply all_request_after_stat | intros fl].
    destruct fl; [apply all_request_end | apply preserves_ret]. }
  destruct (Hp ws r w2 Hrun) as (evs & Ht & _).
  exists (rados_calls evs).
  assert (Htr : w_trace w2 = w_trace w ++ (EvRados (RStat ctx (filename_of req ua)) :: evs))
    by (rewrite Ht, Hts, <- app_assoc; reflexivity).
  rewrite (events_since_app _ _ _ Htr). reflexivity.
Qed.

(** The asynchronous stat on a slot whose completion can be created: the
    arming, then the submission of the stat on the context. *)
Lemma async_stat_submits id ctx key t w u :
  at_index (slots w) id = Some u ->
  forced_error (hd None (w_tape w)) = None ->
  exists evs,
    w_trace (snd (uwsgi_rados_async_stat id ctx key t w)) =
      w_trace w ++
        [EvLock id; EvUnlock id; EvMalloc (w_next w);
         EvRados (RAioCreateCompletion (w_next w) id);
         EvRados (RAioStat ctx key (w_next w + 1))] ++ evs.
Proof.
  intros Hu Hf. unfold slots in Hu.
  assert (Harm : exists wa,
    uwsgi_rados_set_completion id w = (Ret (Some (w_next w)), wa) /\
    w_trace wa = w_trace w ++
      [EvLock id; EvUnlock id; EvMalloc (w_next w);
       EvRados (RAioCreateCompletion (w_next w) id)] /\
    urcb_urio_comp (Some (w_next w)) wa = (Ret (w_next w + 1), wa)).
  { cbv beta iota zeta delta
      [uwsgi_rados_set_completion pthread_mutex_lock pthread_mutex_unlock load_urio store_urio
       uwsgi_malloc store_urcb rados_aio_create_completion free fresh ask emit modify gets
       bind ret urcb_urio_comp load_urcb].
    rewrite set_completion_rid_run, Hu. simpl.
    erewrite at_index_insert_eq by exact Hu. simpl. rewrite Hf. simpl.
    erewrite at_index_insert_eq by exact Hu. simpl.
    eexists. split; [reflexivity|]. simpl. split; [rewrite <- !app_assoc; reflexivity|].
    rewrite lookup_insert_eq. simpl.
    erewrite at_index_insert_eq by (eapply at_index_insert_eq; exact Hu). reflexivity. }
  destruct Harm as (wa & Harm & Hta & Hcomp).
  unfold uwsgi_rados_async_stat.
  rewrite (bind_run _ _ _ _ _ Harm), (bind_run _ _ _ _ _ Hcomp).
  set (k := fun r : Z =>
              r' <- uwsgi_rados_wait_completion r (Some (w_next w)) t ;;
              c <- load_completion (w_next w + 1) ;;
              ret (r', c_out c)).
  set (submit :=
         o <- ask ;;
         match forced_error o with
         | Some e => ret e
         | None =>
             c <- load_completion (w_next w + 1) ;;
             modify (set_comps (fun cs =>
               <[w_next w + 1 := mk_completion (c_arg c) (Some (AioStat ctx key)) (c_ret c)
                                   (c_out c) (c_buf c)]> cs)) ;;
             modify (set_inflight (fun l => l ++ [w_next w + 1])) ;;
             ret 0
         end).
  change (bind (rados_aio_stat ctx key (w_next w + 1)) k wa)
    with (bind submit k
            (set_trace (fun tr => tr ++ [EvRados (RAioStat ctx key (w_next w + 1))]) wa)).
  assert (Hp : preserves any_event 0 (bind submit k)).
  { apply preserves_bind.
    - subst submit. apply preserves_bind; [apply preserves_ask | intros o].
      destruct (forced_error o); [apply preserves_ret|].
      apply preserves_bind; [apply preserves_load_completion | intros c].
      apply preserves_bind; [apply preserves_set_comps | intros ?].
      apply preserves_bind; [apply preserves_set_inflight | intros ?]. apply preserves_ret.
    - intros r. subst k. cbv beta.
      apply preserves_bind;
        [apply (preserves_wait_completion any_event 0 any_event_background) | intros r'].
      apply preserves_bind; [apply preserves_load_completion | intros c]. apply preserves_ret. }
  destruct (preserves_snd any_event 0 _
              (set_trace (fun tr => tr ++ [EvRados (RAioStat ctx key (w_next w + 1))]) wa) Hp)
    as (evs & Ht & _).
  exists evs. rewrite Ht. simpl. rewrite Hta, <- !app_assoc. reflexivity.
Qed.

(** With async enabled a request that reaches the stat submits it on its
    context, once the pipe and the completion are created. *)
Lemma request_async_stat_on_ctx req w ua ctx w0 :
  dispatched req w ua ctx w0 ->
  uwsgi_async (w_uwsgi w) > 0 ->
  forced_error (hd None (w_tape w0)) = None ->
  method req <> "OPTIONS" -> method req <> "MKCOL" -> path_info req <> "/" ->
  exists rest,
    rados_calls (events_since w (snd (uwsgi_rados_request req w))) =
      RAioCreateCompletion (w_next w0) (async_id req)
      :: RAioStat ctx (filename_of req ua) (w_next w0 + 1) :: rest.
Proof.
  intros Hd Ha Hf Ho Hm Hpath.
  assert (Hagt : (uwsgi_async (w_uwsgi w) >? 0) = true) by (apply Z.gtb_lt; lia).
  destruct (dispatched_entry _ _ _ _ _ Hd) as (pre & Hpre & Hfd & Hu0 & _ & _ & _ & _ & Hslot).
  destruct (Hslot Hagt) as [u Hu].
  set (t := uwsgi_rados_request_timeout (ua_responder1 ua) w0).
  destruct (async_stat_submits (async_id req) ctx (filename_of req ua) t w0 u Hu Hf)
    as (evs1 & Ht1).
  assert (Hstat : uwsgi_rados_request_stat req ctx (filename_of req ua) t w0 =
                  uwsgi_rados_async_stat (async_id req) ctx (filename_of req ua) t w0).
  { unfold uwsgi_rados_request_stat. unfold bind at 1. unfold gets at 1.
    rewrite Hu0, Hagt. reflexivity. }
  assert (Htail : exists evs,
    w_trace (snd (uwsgi_rados_request req w)) =
      w_trace (snd (uwsgi_rados_async_stat (async_id req) ctx (filename_of req ua) t w0)) ++ evs).
  { rewrite (request_dispatched _ _ _ _ _ Hd). fold t.
    unfold bind at 1.
    rewrite (request_methods_stat _ _ _ _ _ _ Ho Hm Hpath).
    unfold bind at 1. rewrite Hstat.
    destruct (uwsgi_rados_async_stat (async_id req) ctx (filename_of req ua) t w0)
      as [[st|f|c] ws]; simpl.
    - assert (Hp : preserves any_event 0
                (bind (uwsgi_rados_request_after_stat req ctx (ua_responder1 ua)
                         (filename_of req ua) t st)
                      (fun fl => match fl with
                                 | GotoEnd => uwsgi_rados_request_end req
                                 | Return r => ret r
                                 end))).
      { apply preserves_bind; [apply all_request_after_stat | intros fl].
        destruct fl; [apply all_request_end | apply preserves_ret]. }
      destruct (preserves_snd any_event 0 _ ws Hp) as (evs & Ht & _).
      exists evs. exact Ht.
    - exists []. rewrite app_nil_r. reflexivity.
    - exists []. rewrite app_nil_r. reflexivity. }
  destruct Htail as (evs2 & Ht2).
  exists (rados_calls (evs1 ++ evs2)).
  assert (Htr : w_trace (snd (uwsgi_rados_request req w)) =
            w_trace w ++ (pre ++
              [EvLock (async_id req); EvUnlock (async_id req); EvMalloc (w_next w0);
               EvRados (RAioCreateCompletion (w_next w0) (async_id req));
               EvRados (RAioStat ctx (filename_of req ua) (w_next w0 + 1))] ++ evs1 ++ evs2))
    by (rewrite Ht2, Ht1, Hpre, <- !app_assoc; reflexivity).
  rewrite (events_since_app _ _ _ Htr).
  destruct (fd_events_silent _ Hfd) as [_ R2].
  rewrite rados_calls_app, R2. reflexivity.
Qed.

(** C2.  In multithread mode the mount holds an array of as many I/O contexts
    as there are threads, all different, and the dispatcher takes the one at
    the index async_id of the request, the number of the core (the worker
    thread) that serves it.  Every call a request makes on an I/O context,
    whatever its method and however it ends, is on the context of its own
    thread; a request that reaches the stat issues it there (rados_stat, or
    with async enabled rados_aio_stat once the pipe and the completion are
    created); and requests served by different threads never get the same
    context. *)
Theorem request_ctx_of_thread arg w w' :
  uwsgi_threads (w_uwsgi w) > 1 ->
  uwsgi_rados_add_mountpoint arg w = (Ret tt, w') ->
  exists ua ctxes,
    uwsgi_apps (w_uwsgi w') = uwsgi_apps (w_uwsgi w) ++ [ua] /\
    ua_responder0 ua = CtxArray ctxes /\
    length ctxes = Z.to_nat (uwsgi_threads (w_uwsgi w')) /\
    (forall id w1, 0 <= id < uwsgi_threads (w_uwsgi w') ->
       exists ctx,
         uwsgi_rados_request_ctx (uwsgi_threads (w_uwsgi w')) ua id w1 = (Ret ctx, w1) /\
         at_index ctxes id = Some ctx) /\
    (forall id1 id2 w1 w2 ctx,
       uwsgi_rados_request_ctx (uwsgi_threads (w_uwsgi w')) ua id1 w1 = (Ret ctx, w1) ->
       uwsgi_rados_request_ctx (uwsgi_threads (w_uwsgi w')) ua id2 w2 = (Ret ctx, w2) ->
       id1 = id2) /\
    (forall req w1,
       uwsgi_threads (w_uwsgi w1) = uwsgi_threads (w_uwsgi w') ->
       served req w1 ua ->
       0 <= async_id req < uwsgi_threads (w_uwsgi w') ->
       exists ctx,
         at_index ctxes (async_id req) = Some ctx /\
         (forall r w2,
            uwsgi_rados_request req w1 = (r, w2) ->
            Forall (fun c => forall ctx', call_ioctx c = Some ctx' -> ctx' = ctx)
              (rados_calls (events_since w1 w2))) /\
         (uwsgi_async (w_uwsgi w1) < 1 ->
          method req <> "OPTIONS" -> method req <> "MKCOL" -> path_info req <> "/" ->
          exists rest,
            rados_calls (events_since w1 (snd (uwsgi_rados_request req w1))) =
              RStat ctx (filename_of req ua) :: rest) /\
         (uwsgi_async (w_uwsgi w1) > 0 ->
          forall w0,
            pipe (async_id req) w1 = (Ret 0, w0) ->
            forced_error (hd None (w_tape w0)) = None ->
            method req <> "OPTIONS" -> method req <> "MKCOL" -> path_info req <> "/" ->
            exists rest,
              rados_calls (events_since w1 (snd (uwsgi_rados_request req w1))) =
                RAioCreateCompletion (w_next w0) (async_id req)
                :: RAioStat ctx (filename_of req ua) (w_next w0 + 1) :: rest) /\
         (forall req' ctx',
            async_id req' <> async_id req ->
            at_index ctxes (async_id req') = Some ctx' ->
            ctx' <> ctx)).
Proof.
  intros Ht H.
  destruct (add_mountpoint_threads _ _ _ Ht H) as (ua & ctxes & Happs & Hthr & Hr0 & Hlen & Hnd).
  exists ua, ctxes. rewrite Hthr.
  split; [exact Happs|]. split; [exact Hr0|]. split; [exact Hlen|].
  split; [|split].
  - intros id w1 Hid. rewrite (request_ctx_array _ _ _ _ _ Ht Hr0).
    destruct (at_index_Some ctxes id) as [ctx Hctx]; [lia|].
    exists ctx. rewrite Hctx. split; reflexivity.
  - intros id1 id2 w1 w2 ctx H1 H2.
    rewrite (request_ctx_array _ _ _ id1 w1 Ht Hr0) in H1.
    rewrite (request_ctx_array _ _ _ id2 w2 Ht Hr0) in H2.
    destruct (at_index ctxes id1) as [c1|] eqn:E1; [|discriminate].
    destruct (at_index ctxes id2) as [c2|] eqn:E2; [|discriminate].
    inversion H1; inversion H2; subst.
    eapply at_index_NoDup; eauto.
  - intros req w1 Hth Hs Hid.
    destruct (at_index_Some ctxes (async_id req)) as [ctx Hctx]; [lia|].
    assert (Hrc : uwsgi_rados_request_ctx (uwsgi_threads (w_uwsgi w1)) ua (async_id req) w1 =
                  (Ret ctx, w1)).
    { rewrite Hth, (request_ctx_array _ _ _ _ _ Ht Hr0), Hctx. reflexivity. }
    exists ctx. split; [exact Hctx|]. split; [|split; [|split]].
    + intros r w2 Hrun. apply on_ctx_calls.
      exact (request_on_ctx _ _ _ _ _ _ Hs Hrc Hrun).
    + intros Ha Ho Hm Hpath. exact (request_stat_on_ctx _ _ _ _ Hs Hrc Ha Ho Hm Hpath).
    + intros Ha w0 Hpipe Hf Ho Hm Hpath.
      assert (Hd : dispatched req w1 ua ctx w0).
      { destruct Hs as [H1 H2 H3 H4 H5]. constructor; try assumption.
        assert (E : (uwsgi_async (w_uwsgi w1) >? 0) = true) by (apply Z.gtb_lt; lia).
        rewrite E. exact Hpipe. }
      exact (request_async_stat_on_ctx _ _ _ _ _ Hd Ha Hf Ho Hm Hpath).
    + intros req' ctx' Hne Hctx' ->. apply Hne.
      exact (at_index_NoDup _ _ _ _ Hnd Hctx' Hctx).
Qed.

Lemma request_ctx_of_thread_witness :
  uwsgi_threads (w_uwsgi threaded_world) > 1 /\
  uwsgi_rados_add_mountpoint "mountpoint=/r,pool=p1,allow_put=1,allow_delete=1" threaded_world =
    (Ret tt,
     snd (uwsgi_rados_add_mountpoint "mountpoint=/r,pool=p1,allow_put=1,allow_delete=1"
            threaded_world)) /\
  let w' := snd (uwsgi_rados_add_mountpoint "mountpoint=/r,pool=p1,allow_put=1,allow_delete=1"
                   threaded_world) in
  exists ua ctxes,
    uwsgi_apps (w_uwsgi w') = uwsgi_apps (w_uwsgi threaded_world) ++ [ua] /\
    ua_responder0 ua = CtxArray ctxes /\
    length ctxes = Z.to_nat (uwsgi_threads (w_uwsgi w')) /\
    (forall id w1, 0 <= id < uwsgi_threads (w_uwsgi w') ->
       exists ctx,
         uwsgi_rados_request_ctx (uwsgi_threads (w_uwsgi w')) ua id w1 = (Ret ctx, w1) /\
         at_index ctxes id = Some ctx) /\
    (forall id1 id2 w1 w2 ctx,
       uwsgi_rados_request_ctx (uwsgi_threads (w_uwsgi w')) ua id1 w1 = (Ret ctx, w1) ->
       uwsgi_rados_request_ctx (uwsgi_threads (w_uwsgi w')) ua id2 w2 = (Ret ctx, w2) ->
       id1 = id2) /\
    (forall req w1,
       uwsgi_threads (w_uwsgi w1) = uwsgi_threads (w_uwsgi w') ->
       served req w1 ua ->
       0 <= async_id req < uwsgi_threads (w_uwsgi w') ->
       exists ctx,
         at_index ctxes (async_id req) = Some ctx /\
         (forall r w2,
            uwsgi_rados_request req w1 = (r, w2) ->
            Forall (fun c => forall ctx', call_ioctx c = Some ctx' -> ctx' = ctx)
              (rados_calls (events_since w1 w2))) /\
         (uwsgi_async (w_uwsgi w1) < 1 ->
          method req <> "OPTIONS" -> method req <> "MKCOL" -> path_info req <> "/" ->
          exists rest,
            rados_calls (events_since w1 (snd (uwsgi_rados_request req w1))) =
              RStat ctx (filename_of req ua) :: rest) /\
         (uwsgi_async (w_uwsgi w1) > 0 ->
          forall w0,
            pipe (async_id req) w1 = (Ret 0, w0) ->
            forced_error (hd None (w_tape w0)) = None ->
            method req <> "OPTIONS" -> method req <> "MKCOL" -> path_info req <> "/" ->
            exists rest,
              rados_calls (events_since w1 (snd (uwsgi_rados_request req w1))) =
                RAioCreateCompletion (w_next w0) (async_id req)
                :: RAioStat ctx (filename_of req ua) (w_next w0 + 1) :: rest) /\
         (forall req' ctx',
            async_id req' <> async_id req ->
            at_index ctxes (async_id req') = Some ctx' ->
            ctx' <> ctx)).
Proof.
  assert (H1 : uwsgi_threads (w_uwsgi threaded_world) > 1) by reflexivity.
  assert (H2 : uwsgi_rados_add_mountpoint "mountpoint=/r,pool=p1,allow_put=1,allow_delete=1"
                 threaded_world =
               (Ret tt,
                snd (uwsgi_rados_add_mountpoint
                       "mountpoint=/r,pool=p1,allow_put=1,allow_delete=1" threaded_world)))
    by (vm_compute; reflexivity).
  split; [exact H1|]. split; [exact H2|].
  exact (request_ctx_of_thread _ _ _ H1 H2).
Defined.

(** Two requests served by the threads 0 and 1 of the same worker: each stat
    goes to the context of its own thread. *)
Lemma threads_stat_on_own_ctx :
  rados_calls (events_since routed_world
                 (snd (uwsgi_rados_request (thread_request 0) routed_world))) =
    [RStat (mk_ioctx 11 "p1") "/foo"] /\
  rados_calls (events_since routed_world
                 (snd (uwsgi_rados_request (thread_request 1) routed_world))) =
    [RStat (mk_ioctx 12 "p1") "/foo"].
Proof. split; vm_compute; reflexivity. Qed.
